(** * CTD hysteresis test of rugliderqc: a shallow embedding

    The development follows [scripts/ctd_hysteresis_test.py].  Measurements,
    pressures, thresholds and flag arrays are IEEE binary64 values, as numpy
    holds them; the kernel's primitive floats give the same arithmetic and the
    same comparisons (every comparison with a NaN is false).  The netCDF files
    of a deployment are a finite map from paths to datasets, the locals of
    [main] that survive an iteration ([status], [skip], [f2skip], [ds],
    [ds2], [summary]) are fields of a state record, and uncaught Python
    exceptions end a run with the state reached so far. *)

From Stdlib Require Import ZArith List String Bool Lia.
From Stdlib Require Import Floats.
From stdpp Require Import base option list gmap strings.
Import ListNotations.

Open Scope string_scope.
Open Scope float_scope.
Open Scope nat_scope.
Open Scope list_scope.

(** ** numpy arrays as lists *)

Module np.

(** [np.isnan] *)
Definition isnan (x : float) : bool := PrimFloat.is_nan x.

(** [np.invert] on a boolean array *)
Definition invert (mask : list bool) : list bool := map negb mask.

Fixpoint where_from (k : nat) (mask : list bool) : list nat :=
  match mask with
  | [] => []
  | b :: mask' =>
      if b then k :: where_from (S k) mask' else where_from (S k) mask'
  end.

(** [np.where(mask)[0]]: the positions at which [mask] is true, ascending *)
Definition where_ (mask : list bool) : list nat := where_from 0 mask.

(** [2 * np.ones(np.shape(a))] is [full (length a) 2] *)
Definition full (n : nat) (v : float) : list float := repeat v n.

(** [a[mask] = v] for a boolean [mask] of the shape of [a] *)
Fixpoint set_mask (a : list float) (mask : list bool) (v : float) : list float :=
  match a, mask with
  | x :: a', b :: mask' => (if b then v else x) :: set_mask a' mask' v
  | _, _ => a
  end.

(** [a[idx] = v] for an integer index array [idx]; every use in the
    program takes [idx] from an array of the shape of [a], so the
    out-of-range case (IndexError in numpy) does not arise and is left
    without effect here. *)
Definition set_idx (a : list float) (idx : list nat) (v : float) : list float :=
  fold_left (fun acc i => <[i := v]> acc) idx a.

(** [a[idx]] for an integer index array [idx] *)
Definition take (a : list float) (idx : list nat) : list float :=
  omap (fun i => a !! i) idx.

(** [v in a] *)
Definition contains (v : float) (a : list float) : bool :=
  existsb (fun x => PrimFloat.eqb x v) a.

(** [np.sum(~np.isnan(a))] *)
Definition count_non_nan (a : list float) : nat :=
  length (filter (fun x => negb (isnan x) = true) a).

Definition fmax (x y : float) : float := if PrimFloat.ltb x y then y else x.
Definition fmin (x y : float) : float := if PrimFloat.ltb y x then y else x.

Definition reduce (f : float -> float -> float) (a : list float) : float :=
  match a with
  | [] => PrimFloat.nan
  | x :: a' => fold_left f a' x
  end.

(** [np.nanmax] and [np.nanmin]: NaNs are left out of the reduction; an
    array of NaNs only gives NaN (with a warning), an empty array raises
    ValueError, which is [None] here. *)
Definition nanmax (a : list float) : option float :=
  match a with
  | [] => None
  | _ => Some (reduce fmax (filter (fun x => negb (isnan x) = true) a))
  end.

Definition nanmin (a : list float) : option float :=
  match a with
  | [] => None
  | _ => Some (reduce fmin (filter (fun x => negb (isnan x) = true) a))
  end.

End np.

(** ** QARTOD flag values ([ioos_qc.qartod.QartodFlags]) *)

Module QartodFlags.
Definition GOOD : float := 1%float.
Definition UNKNOWN : float := 2%float.
Definition SUSPECT : float := 3%float.
Definition FAIL : float := 4%float.
Definition MISSING : float := 9%float.
End QartodFlags.

(** ** Datasets *)

(** An [xarray.Dataset] of one profile: the [time] coordinate in
    nanoseconds, the [pressure] variable, and the other data variables by
    name in insertion order (the sensor series, the upstream QARTOD flag
    series, and the flag series this test adds).  All series of a dataset
    share the dimension [time]; time stamps are valid datetimes (no NaT).
    The variable attributes written by [set_hysteresis_attrs] carry no
    behaviour and are left out. *)
Record Dataset := mkDataset {
  time : list Z;
  pressure : list float;
  data_vars : list (string * list float)
}.

(** [dataset[varname]]; [None] is Python's KeyError *)
Fixpoint getitem (vars : list (string * list float)) (varname : string)
  : option (list float) :=
  match vars with
  | [] => None
  | (name, values) :: vars' =>
      if String.eqb name varname then Some values else getitem vars' varname
  end.

(** [dataset[varname] = values]: replaces the variable or appends it *)
Fixpoint setitem (vars : list (string * list float)) (varname : string)
  (values : list float) : list (string * list float) :=
  match vars with
  | [] => [(varname, values)]
  | (name, old) :: vars' =>
      if String.eqb name varname then (name, values) :: vars'
      else (name, old) :: setitem vars' varname values
  end.

(** [sub in s] on Python strings *)
Fixpoint str_in (sub s : string) : bool :=
  String.prefix sub s ||
  match s with
  | EmptyString => false
  | String _ s' => str_in sub s'
  end.

(** [apply_qartod_qc], lines 24-30: a copy of the series with NaN wherever
    one of the [<varname>_qartod...] variables is 3 or 4. *)
Definition apply_qartod_qc (dataset : Dataset) (varname : string)
  : option (list float) :=
  match getitem (data_vars dataset) varname with
  | None => None
  | Some values =>
      let qvs := filter (fun x => str_in (varname ++ "_qartod")%string (fst x) = true)
                   (data_vars dataset) in
      Some (fold_left
              (fun datacopy qv =>
                 let qv_idx :=
                   np.where_ (map (fun q => PrimFloat.eqb q 3 || PrimFloat.eqb q 4)
                                  (snd qv)) in
                 np.set_idx datacopy qv_idx PrimFloat.nan)
              qvs values)
  end.

(** Line 46: the positions at which the pressure is not NaN *)
Definition press_non_nan_ind (dataset : Dataset) : list nat :=
  np.where_ (np.invert (map np.isnan (pressure dataset))).

(** [initialize_flags], lines 33-48 *)
Definition initialize_flags (dataset : Dataset) (varname : string)
  : option (list nat * list nat * list float) :=
  match getitem (data_vars dataset) varname with
  | None => None
  | Some values =>
      let flags := np.full (length values) 2 in
      let non_nan_ind := np.invert (map np.isnan values) in
      let non_nan_i := np.where_ non_nan_ind in
      let flags := np.set_mask flags (np.invert non_nan_ind) QartodFlags.MISSING in
      Some (non_nan_i, press_non_nan_ind dataset, flags)
  end.

(** ** The combined table of a pair *)

(** Rows of [da.to_dataframe().merge(dataset.pressure.to_dataframe(),
    on='time')]: an inner join on the time stamp that keeps the order of the
    left rows; a row is (measurement, pressure), the column order of
    [df.values]. *)
Definition merge_on_time (times : list Z) (values press : list float)
  : list (float * float) :=
  let left := zip times values in
  let right := zip times press in
  flat_map (fun l => map (fun r => (snd l, snd r))
                       (filter (fun r => fst r = fst l) right)) left.

(** [df.dropna(subset=['pressure', testvar])] *)
Definition dropna (df : list (float * float)) : list (float * float) :=
  filter (fun r => negb (np.isnan (fst r)) && negb (np.isnan (snd r)) = true) df.

(** Lines 284-287: the table of the down profile followed by the table of
    the up profile, without the rows that miss a pressure or a measurement. *)
Definition combined_table (d d2 : Dataset) (data_copy data_copy2 : list float)
  : list (float * float) :=
  dropna (merge_on_time (time d) data_copy (pressure d)
          ++ merge_on_time (time d2) data_copy2 (pressure d2)).

(** Lines 290-291: [pressure_copy[pressure_copy < 0] = 0] on a copy of the
    pressure column *)
Definition clamp_negative (press : list float) : list float :=
  map (fun p => if PrimFloat.ltb p 0 then 0%float else p) press.

(** Line 292 *)
Definition pressure_range_of (df : list (float * float)) : option float :=
  let pressure_copy := clamp_negative (map snd df) in
  match np.nanmax pressure_copy, np.nanmin pressure_copy with
  | Some hi, Some lo => Some (hi - lo)%float
  | _, _ => None
  end.

(** Line 293 *)
Definition data_range_of (df : list (float * float)) : option float :=
  match np.nanmax (map fst df), np.nanmin (map fst df) with
  | Some hi, Some lo => Some (hi - lo)%float
  | _, _ => None
  end.

(** Lines 301-302: the rows of the table, the first one repeated at the end *)
Definition polygon_points_of (df : list (float * float))
  : option (list (float * float)) :=
  match df with
  | [] => None
  | r :: _ => Some (df ++ [r])
  end.

(** ** State of a run *)

(** The two dataset objects [main] holds; [save_ds] mutates the object it
    is given, so the local keeps the added flag variable. *)
Inductive Ref := DS | DS2.

(** What a run does to the outside: opening a file for reading (as the
    primary of an iteration, line 188, or as the lookahead, line 243),
    [to_netcdf] in [save_ds], and the construction of the polygon
    (line 303). *)
Inductive Event :=
| EOpen (primary : bool) (path : string) (ok : bool)
| ESave (dataset : Ref) (save_file variable_name : string) (saved : Dataset)
| EPolygon (polygon_points : list (float * float)).

Record Counters := mkCounters {
  failed_profiles : nat;
  suspect_profiles : nat;
  unknown_profiles : nat
}.

Record State := mkState {
  status : Z;
  skip : nat;
  f2skip : option nat;        (* [None]: the local is not bound yet *)
  ds : option Dataset;
  ds2 : option Dataset;
  summary : gmap string Counters;
  fs : gmap string Dataset;   (* the readable netCDF files, by path *)
  trace : list Event          (* oldest first *)
}.

Inductive Exn := IndexError | KeyError | UnboundLocalError | ValueError | ShapelyError.

Inductive Outcome (A : Type) :=
| Ok (a : A) (s : State)
| Raise (e : Exn) (s : State).
Arguments Ok {A} a s.
Arguments Raise {A} e s.

Definition M (A : Type) : Type := State -> Outcome A.

Definition ret {A} (a : A) : M A := fun s => Ok a s.

Definition bind {A B} (m : M A) (k : A -> M B) : M B :=
  fun s => match m s with
           | Ok a s' => k a s'
           | Raise e s' => Raise e s'
           end.

#[global] Instance M_ret : MRet M := @ret.
#[global] Instance M_bind : MBind M := fun A B k m => bind m k.

(** An uncaught exception where Python raises one *)
Definition lift {A} (e : Exn) (o : option A) : M A :=
  fun s => match o with
           | Some a => Ok a s
           | None => Raise e s
           end.

Definition final_state {A} (o : Outcome A) : State :=
  match o with
  | Ok _ s => s
  | Raise _ s => s
  end.

Definition get_state : M State := fun s => Ok s s.

Definition set_status (v : Z) : M unit :=
  fun s => Ok tt (mkState v (skip s) (f2skip s) (ds s) (ds2 s) (summary s) (fs s) (trace s)).

Definition set_skip (v : nat) : M unit :=
  fun s => Ok tt (mkState (status s) v (f2skip s) (ds s) (ds2 s) (summary s) (fs s) (trace s)).

Definition set_f2skip (v : nat) : M unit :=
  fun s => Ok tt (mkState (status s) (skip s) (Some v) (ds s) (ds2 s) (summary s) (fs s) (trace s)).

(** [f2skip += 1] *)
Definition incr_f2skip : M unit :=
  fun s => match f2skip s with
           | Some k => set_f2skip (k + 1) s
           | None => Raise UnboundLocalError s
           end.

Definition set_summary (v : gmap string Counters) : M unit :=
  fun s => Ok tt (mkState (status s) (skip s) (f2skip s) (ds s) (ds2 s) v (fs s) (trace s)).

(** [summary[testvar][...] += n] *)
Definition incr_summary (testvar : string) (f : Counters -> Counters) : M unit :=
  fun s => match summary s !! testvar with
           | Some c => set_summary (<[testvar := f c]> (summary s)) s
           | None => Raise KeyError s
           end.

Definition add_failed (n : nat) (c : Counters) : Counters :=
  mkCounters (failed_profiles c + n) (suspect_profiles c) (unknown_profiles c).
Definition add_suspect (n : nat) (c : Counters) : Counters :=
  mkCounters (failed_profiles c) (suspect_profiles c + n) (unknown_profiles c).
Definition add_unknown (n : nat) (c : Counters) : Counters :=
  mkCounters (failed_profiles c) (suspect_profiles c) (unknown_profiles c + n).

Definition assign (r : Ref) (d : Dataset) : M unit :=
  fun s => match r with
           | DS => Ok tt (mkState (status s) (skip s) (f2skip s) (Some d) (ds2 s)
                                  (summary s) (fs s) (trace s))
           | DS2 => Ok tt (mkState (status s) (skip s) (f2skip s) (ds s) (Some d)
                                   (summary s) (fs s) (trace s))
           end.

Definition deref (r : Ref) : M Dataset :=
  fun s => lift UnboundLocalError (match r with DS => ds s | DS2 => ds2 s end) s.

Definition log (e : Event) : M unit :=
  fun s => Ok tt (mkState (status s) (skip s) (f2skip s) (ds s) (ds2 s) (summary s)
                          (fs s) (trace s ++ [e])).

(** [dataset.to_netcdf(path)]; writing is taken to succeed, and the file
    written can be read afterwards. *)
Definition write_file (path : string) (d : Dataset) : M unit :=
  fun s => Ok tt (mkState (status s) (skip s) (f2skip s) (ds s) (ds2 s) (summary s)
                          (<[path := d]> (fs s)) (trace s)).

(** [xr.open_dataset(path)] followed by [load()]; [None] is the OSError of
    a file that cannot be read, a path the map [fs] does not hold. *)
Definition open_dataset (primary : bool) (path : string) : M (option Dataset) :=
  fun s => let r := fs s !! path in
           (log (EOpen primary path (bool_decide (is_Some r))) ;; ret r) s.

(** Line 55, [dataset[variable_name] = da] *)
Definition with_flags (d : Dataset) (variable_name : string)
  (flag_array : list float) : Dataset :=
  mkDataset (time d) (pressure d) (setitem (data_vars d) variable_name flag_array).

(** [save_ds], lines 51-58: the flag array becomes the variable
    [variable_name] of the dataset object, and the dataset is written to
    [save_file]. *)
Definition save_ds (dataset : Ref) (flag_array : list float)
  (variable_name save_file : string) : M unit :=
  d ← deref dataset;
  let d' := with_flags d variable_name flag_array in
  assign dataset d';;
  write_file save_file d';;
  log (ESave dataset save_file variable_name d').

Fixpoint for_each {A} (l : list A) (body : A -> M unit) : M unit :=
  match l with
  | [] => ret tt
  | x :: l' => body x;; for_each l' body
  end.

(** ** Configuration and deployments *)

(** The dictionary [loadconfig] returns: [<sensor>_hysteresis_test] to the
    thresholds of the sensor, themselves a dictionary. *)
Definition Thresholds := gmap string float.
Definition Config := gmap string (gmap string float).

(** What the file system holds for one deployment of [args.deployments]:
    whether [find_glider_deployment_datapath] finds the data path, whether
    [proc-logs] is a directory, the configuration of the deployment if its
    [ctd_hysteresis.yml] is a file, and the sorted paths of [qc_queue/*.nc]. *)
Record Deployment := mkDeployment {
  data_path_found : bool;
  proc_logs_isdir : bool;
  deployment_config : option Config;
  ncfiles : list string
}.

(** Whether [find_glider_deployments_rootdir] returns a path (a string),
    whether [<data_home>/qc/config] is a directory, and the default
    configuration if [<data_home>/qc/config/ctd_hysteresis.yml] is a file. *)
Record Env := mkEnv {
  deployments_root_is_str : bool;
  qc_config_root_isdir : bool;
  default_config : option Config
}.

Definition test_varnames : list string := ["conductivity"; "temperature"].

(** [np.timedelta64(5, 'm')] in nanoseconds *)
Definition five_minutes : Z := 300000000000%Z.

(** Line 180, [f2skip > 0], with the unbound local of the first iteration
    read as "no" (the handler of UnboundLocalError adds 0 to [skip]). *)
Definition marked_consumed (s : State) : bool :=
  match f2skip s with
  | Some k => 0 <? k
  | None => false
  end.

(** The name of the flag variable, line 215 *)
Definition qc_varname (testvar : string) : string :=
  (testvar ++ "_hysteresis_test")%string.

Inductive Orientation := DOWN | UP.

(** Line 227: the first profile is up when its first valid pressure is
    greater than its last one, and down otherwise. *)
Definition first_orientation (p_first p_last : float) : Orientation :=
  if PrimFloat.ltb p_last p_first then UP else DOWN.

(** Line 264: the second profile is down when its first valid pressure is
    less than its last one, and up otherwise. *)
Definition second_orientation (p_first p_last : float) : Orientation :=
  if PrimFloat.ltb p_first p_last then DOWN else UP.

(** Lines 227 and 264: the first and the last of the pressures that are
    not NaN, [values[idx][0]] and [values[idx][-1]]; [None] is the
    IndexError of a profile without a valid pressure. *)
Definition endpoints (d : Dataset) (pressure_idx : list nat)
  : option (float * float) :=
  let p := np.take (pressure d) pressure_idx in
  match head p, last p with
  | Some a, Some b => Some (a, b)
  | _, _ => None
  end.

Section Driver.

(** The area of [MultiPolygon(polygonize(exterior ∩ exterior))] as shapely
    computes it for a list of points; [None] when shapely raises. *)
Variable valid_polygons_area : list (float * float) -> option float.

(** [save_ds(ds, flag_vals, attrs, qc_varname, ncfiles[i], testvar)] *)
Definition save_first (testvar : string) (ncfiles : list string) (i : nat)
  (flag_vals : list float) : M unit :=
  f ← lift IndexError (ncfiles !! i);
  save_ds DS flag_vals (qc_varname testvar) f.

(** [save_ds(ds2, flag_vals2, attrs, qc_varname, f2, testvar)] *)
Definition save_second (testvar f2 : string) (flag_vals2 : list float) : M unit :=
  save_ds DS2 flag_vals2 (qc_varname testvar) f2.

(** Lines 299-330: the flag arrays of the two profiles; [total] is the
    area of the resolved polygons. *)
Definition hysteresis_flags (testvar : string) (hysteresis_thresholds : Thresholds)
  (df : list (float * float)) (pressure_range data_range : float)
  (data_idx data_idx2 : list nat) (flag_vals flag_vals2 : list float)
  : M (list float * list float) :=
  if PrimFloat.ltb 5 pressure_range then
    test_threshold ← lift KeyError (hysteresis_thresholds !! "test_threshold");
    if PrimFloat.ltb test_threshold data_range then
      polygon_points ← lift IndexError (polygon_points_of df);
      log (EPolygon polygon_points);;
      total ← lift ShapelyError (valid_polygons_area polygon_points);
      let area := (total / pressure_range)%float in
      fail_threshold ← lift KeyError (hysteresis_thresholds !! "fail_threshold");
      flag ←
        (if PrimFloat.ltb (data_range * fail_threshold) area then
           incr_summary testvar (add_failed 2);;
           mret QartodFlags.FAIL
         else
           suspect_threshold ←
             lift KeyError (hysteresis_thresholds !! "suspect_threshold");
           if PrimFloat.ltb (data_range * suspect_threshold) area then
             incr_summary testvar (add_suspect 2);;
             mret QartodFlags.SUSPECT
           else mret QartodFlags.GOOD);
      mret (np.set_idx flag_vals data_idx flag,
            np.set_idx flag_vals2 data_idx2 flag)
    else
      mret (np.set_idx flag_vals data_idx QartodFlags.GOOD,
            np.set_idx flag_vals2 data_idx2 QartodFlags.GOOD)
  else mret (flag_vals, flag_vals2).

(** Lines 332-338: both files saved, the second marked for skipping *)
Definition save_pair (testvar : string) (ncfiles : list string) (i : nat)
  (f2 : string) (flag_vals flag_vals2 : list float) : M unit :=
  save_first testvar ncfiles i flag_vals;;
  save_second testvar f2 flag_vals2;;
  (if np.contains 2 flag_vals
   then incr_summary testvar (add_unknown 2) else mret tt);;
  incr_f2skip.

(** Lines 283-338: both profiles have data left after the QARTOD mask. *)
Definition classify_pair (testvar : string) (hysteresis_thresholds : Thresholds)
  (ncfiles : list string) (i : nat) (f2 : string)
  (data_copy data_copy2 : list float)
  (data_idx data_idx2 : list nat) (flag_vals flag_vals2 : list float) : M unit :=
  d ← deref DS;
  d2 ← deref DS2;
  let df := combined_table d d2 data_copy data_copy2 in
  pressure_range ← lift ValueError (pressure_range_of df);
  data_range ← lift ValueError (data_range_of df);
  flags ← hysteresis_flags testvar hysteresis_thresholds df pressure_range
            data_range data_idx data_idx2 flag_vals flag_vals2;
  save_pair testvar ncfiles i f2 (fst flags) (snd flags).

(** Lines 341-345 and 347-352: no test, both files saved as they are *)
Definition leave_unknown (testvar : string) (ncfiles : list string) (i : nat)
  (f2 : string) (flag_vals flag_vals2 : list float) : M unit :=
  save_first testvar ncfiles i flag_vals;;
  save_second testvar f2 flag_vals2;;
  incr_summary testvar (add_unknown 2);;
  incr_f2skip.

(** Lines 230-231, 238-239, 257-258, 268-269: only the first file saved *)
Definition leave_first_unknown (testvar : string) (ncfiles : list string)
  (i : nat) (flag_vals : list float) : M unit :=
  save_first testvar ncfiles i flag_vals;;
  incr_summary testvar (add_unknown 1).

(** Lines 242-248: the lookahead file; on OSError [ds2] keeps what an
    earlier iteration bound to it. *)
Definition open_second (f2 : string) : M unit :=
  r ← open_dataset false f2;
  match r with
  | Some d2 => assign DS2 d2
  | None => set_status 1;; incr_f2skip
  end.

(** Lines 271-352: the first profile is down and the second is up *)
Definition down_up (testvar : string) (hysteresis_thresholds : Thresholds)
  (ncfiles : list string) (i : nat) (f2 : string) (d d2 : Dataset)
  (data_idx data_idx2 : list nat) (flag_vals flag_vals2 : list float) : M unit :=
  t2 ← lift IndexError (head (time d2));
  t1 ← lift IndexError (last (time d));
  if (t2 - t1 <? five_minutes)%Z then
    data_copy ← lift KeyError (apply_qartod_qc d testvar);
    data_copy2 ← lift KeyError (apply_qartod_qc d2 testvar);
    if (0 <? np.count_non_nan data_copy) && (0 <? np.count_non_nan data_copy2) then
      classify_pair testvar hysteresis_thresholds ncfiles i f2
        data_copy data_copy2 data_idx data_idx2 flag_vals flag_vals2
    else leave_unknown testvar ncfiles i f2 flag_vals flag_vals2
  else leave_unknown testvar ncfiles i f2 flag_vals flag_vals2.

(** Lines 250-352: what follows the attempt to read the second file *)
Definition second_profile (testvar : string) (hysteresis_thresholds : Thresholds)
  (ncfiles : list string) (i : nat) (f2 : string) (d : Dataset)
  (data_idx : list nat) (flag_vals : list float) : M unit :=
  d2 ← deref DS2;
  match getitem (data_vars d2) testvar with
  | None =>
    set_status 1;;
    leave_first_unknown testvar ncfiles i flag_vals
  | Some _ =>
    '(data_idx2, pressure_idx2, flag_vals2) ←
      lift KeyError (initialize_flags d2 testvar);
    '(p2_first, p2_last) ← lift IndexError (endpoints d2 pressure_idx2);
    match second_orientation p2_first p2_last with
    | DOWN => leave_first_unknown testvar ncfiles i flag_vals
    | UP =>
      down_up testvar hysteresis_thresholds ncfiles i f2 d d2
        data_idx data_idx2 flag_vals flag_vals2
    end
  end.

(** Lines 242-352: the first profile is down and a next file exists *)
Definition look_ahead (testvar : string) (hysteresis_thresholds : Thresholds)
  (ncfiles : list string) (i : nat) (f2 : string) (d : Dataset)
  (data_idx : list nat) (flag_vals : list float) : M unit :=
  open_second f2;;
  second_profile testvar hysteresis_thresholds ncfiles i f2 d data_idx flag_vals.

(** Lines 200-352: the body of the loop over the test variables *)
Definition test_variable (config_dict : Config) (ncfiles : list string)
  (i : nat) (testvar : string) : M unit :=
  hysteresis_thresholds ←
    lift KeyError (config_dict !! qc_varname testvar);
  d ← deref DS;
  match getitem (data_vars d) testvar with
  | None => set_status 1
  | Some _ =>
    '(data_idx, pressure_idx, flag_vals) ← lift KeyError (initialize_flags d testvar);
    if length data_idx =? 0 then set_status 1
    else
      '(p_first, p_last) ← lift IndexError (endpoints d pressure_idx);
      match first_orientation p_first p_last with
      | UP => leave_first_unknown testvar ncfiles i flag_vals
      | DOWN =>
        match ncfiles !! (i + 1) with
        | None => leave_first_unknown testvar ncfiles i flag_vals
        | Some f2 =>
          look_ahead testvar hysteresis_thresholds ncfiles i f2 d
            data_idx flag_vals
        end
      end
  end.

(** Lines 178-352: one iteration of the loop over [enumerate(ncfiles)] *)
Definition file_iteration (config_dict : Config) (ncfiles : list string)
  (i0 : nat) : M unit :=
  fun s =>
    let skip' := if marked_consumed s then skip s + 1 else skip s in
    let i := i0 + skip' in
    (set_skip skip';;
     match ncfiles !! i with
     | None => mret tt                                   (* IndexError *)
     | Some path =>
       r ← open_dataset true path;
       match r with
       | None => set_status 1                            (* OSError *)
       | Some d =>
         assign DS d;;
         set_f2skip 0;;
         for_each test_varnames (test_variable config_dict ncfiles i)
       end
     end) s.

(** Lines 168-173 *)
Definition new_summary : gmap string Counters :=
  list_to_map (map (fun tv => (tv, mkCounters 0 0 0)) test_varnames).

(** Lines 119-364: the body of the loop over [args.deployments] *)
Definition deployment_iteration (env : Env) (deployment : Deployment) : M unit :=
  if negb (data_path_found deployment) then mret tt
  else if negb (proc_logs_isdir deployment) then mret tt
  else
    match (match deployment_config deployment with
           | Some c => Some c
           | None => default_config env
           end) with
    | None => set_status 1
    | Some config_dict =>
      let ncfiles := ncfiles deployment in
      if length ncfiles =? 0 then set_status 1
      else
        set_summary new_summary;;
        set_skip 0;;
        for_each (seq 0 (length ncfiles)) (file_iteration config_dict ncfiles)
    end.

(** Lines 119-365: the loop over the deployments and the status returned *)
Definition process_deployments (env : Env) (deployments : list Deployment)
  : M Z :=
  for_each deployments (deployment_iteration env);;
  s ← get_state;
  mret (status s).

(** [main], lines 98-365; the result is the exit status. *)
Definition main (env : Env) (deployments : list Deployment) : M Z :=
  set_status 0;;
  if deployments_root_is_str env then
    if negb (qc_config_root_isdir env) then mret 1%Z
    else process_deployments env deployments
  else mret 0%Z.

(** The state in which [main] starts on a file system [files]: no local
    is bound. *)
Definition initial_state (files : gmap string Dataset) : State :=
  mkState 0 0 None None None ∅ files [].

End Driver.

(** ** Vocabulary of the statements *)

(** The valid-data indices and the initial flag array of a profile, the
    first and third results of [initialize_flags]. *)
Definition data_idx_of (d : Dataset) (testvar : string) : list nat :=
  match initialize_flags d testvar with
  | Some (data_idx, _, _) => data_idx
  | None => []
  end.

Definition flag_vals_of (d : Dataset) (testvar : string) : list float :=
  match initialize_flags d testvar with
  | Some (_, _, flag_vals) => flag_vals
  | None => []
  end.

(** The table of lines 284-287 for the pair [d], [d2] *)
Definition pair_table (testvar : string) (d d2 : Dataset) : list (float * float) :=
  match apply_qartod_qc d testvar, apply_qartod_qc d2 testvar with
  | Some data_copy, Some data_copy2 => combined_table d d2 data_copy data_copy2
  | _, _ => []
  end.

(** The orientation the driver gives a profile read as the first of an
    iteration, and as the second. *)
Definition orientation_as_first (d : Dataset) : option Orientation :=
  match endpoints d (press_non_nan_ind d) with
  | Some (a, b) => Some (first_orientation a b)
  | None => None
  end.

Definition orientation_as_second (d : Dataset) : option Orientation :=
  match endpoints d (press_non_nan_ind d) with
  | Some (a, b) => Some (second_orientation a b)
  | None => None
  end.

(** Whether the end of [d] and the start of [d2] are less than five minutes
    apart, line 274 *)
Definition within_window (d d2 : Dataset) : bool :=
  match head (time d2), last (time d) with
  | Some t2, Some t1 => (t2 - t1 <? five_minutes)%Z
  | _, _ => false
  end.

(** Whether both profiles have data left under the QARTOD mask, line 282 *)
Definition data_remaining (testvar : string) (d d2 : Dataset) : bool :=
  match apply_qartod_qc d testvar, apply_qartod_qc d2 testvar with
  | Some data_copy, Some data_copy2 =>
      (0 <? np.count_non_nan data_copy) && (0 <? np.count_non_nan data_copy2)
  | _, _ => false
  end.

(** A validated pair for [testvar]: the first profile has the variable and
    some data and is down, the second has the variable and is up, the two
    are within the window, and both keep data under the QARTOD mask.  These
    are the guards of lines 205, 221, 227, 251, 264, 274 and 282. *)
Definition validated_pair (testvar : string) (d d2 : Dataset) : bool :=
  negb (length (data_idx_of d testvar) =? 0)
  && match getitem (data_vars d2) testvar with Some _ => true | None => false end
  && match orientation_as_first d with Some DOWN => true | _ => false end
  && match orientation_as_second d2 with Some UP => true | _ => false end
  && within_window d d2
  && data_remaining testvar d d2.

(** The setting in which the body of the loop over the test variables runs
    on the pair of the files [f] and [f2]: the thresholds of the sensor are
    configured, [ds] holds the first profile, read from [ncfiles[i]], the
    next file holds the second, and the locals the loop updates are bound. *)
Record pair_context (config_dict : Config) (ncfiles : list string) (i : nat)
  (testvar : string) (s : State) (thresholds : Thresholds) (d d2 : Dataset)
  (f f2 : string) : Prop := mkPairContext {
  ctx_thresholds : config_dict !! qc_varname testvar = Some thresholds;
  ctx_first : ds s = Some d;
  ctx_file : ncfiles !! i = Some f;
  ctx_next : ncfiles !! (i + 1) = Some f2;
  ctx_second : fs s !! f2 = Some d2;
  ctx_f2skip : is_Some (f2skip s);
  ctx_summary : is_Some (summary s !! testvar);
  ctx_pair : validated_pair testvar d d2 = true
}.

(** The events of one pass over a pair whose flag arrays end as
    [flags] and [flags2], with or without the polygon. *)
Definition pair_events (testvar f f2 : string) (d d2 : Dataset)
  (polygon : list Event) (flags flags2 : list float) : list Event :=
  [EOpen false f2 true] ++ polygon ++
  [ESave DS f (qc_varname testvar) (with_flags d (qc_varname testvar) flags);
   ESave DS2 f2 (qc_varname testvar) (with_flags d2 (qc_varname testvar) flags2)].

(** A flag array that holds MISSING where the measurement is NaN and
    [flag] everywhere else *)
Definition flagged (values flags : list float) (flag : float) : Prop :=
  length flags = length values /\
  forall j x, values !! j = Some x ->
    flags !! j = Some (if np.isnan x then QartodFlags.MISSING else flag).

(** The state once the second file [f2] has been read into [ds2] *)
Definition opened (s : State) (f2 : string) (d2 : Dataset) : State :=
  mkState (status s) (skip s) (f2skip s) (ds s) (Some d2) (summary s) (fs s)
          (trace s ++ [EOpen false f2 true]).

(** ** Vocabulary of the invariants of a run *)

(** MISSING at every index whose measurement is NaN *)
Definition nan_missing (values flags : list float) : Prop :=
  length flags = length values /\
  forall j x, values !! j = Some x -> np.isnan x = true ->
    flags !! j = Some QartodFlags.MISSING.

(** A saved dataset whose flag variable for [testvar] is MISSING wherever
    the measurement of [testvar] is NaN *)
Definition saved_consistent (testvar : string) (saved : Dataset) : Prop :=
  exists values flags,
    getitem (data_vars saved) testvar = Some values /\
    getitem (data_vars saved) (qc_varname testvar) = Some flags /\
    nan_missing values flags.

(** The file an event marks as consumed: the target of a save as second
    profile, and the lookahead file whose read failed (line 248). *)
Definition consumed_of (e : Event) : option string :=
  match e with
  | ESave DS2 path _ _ => Some path
  | EOpen false path false => Some path
  | _ => None
  end.

Definition consumed_paths (t : list Event) : list string := omap consumed_of t.

(** The saves as second profile, by file and flag variable *)
Definition second_save_of (e : Event) : option (string * string) :=
  match e with
  | ESave DS2 path variable_name _ => Some (path, variable_name)
  | _ => None
  end.

Definition second_saves (t : list Event) : list (string * string) :=
  omap second_save_of t.

Definition primary_of (e : Event) : option string :=
  match e with
  | EOpen true path _ => Some path
  | _ => None
  end.

Definition primary_paths (t : list Event) : list string := omap primary_of t.

(** No file is opened as the first of an iteration after an event that
    marked it as consumed. *)
Fixpoint never_primary_after (t : list Event) : Prop :=
  match t with
  | [] => True
  | e :: t' =>
      (forall path, consumed_of e = Some path -> path ∉ primary_paths t') /\
      never_primary_after t'
  end.

(** What one pass of the body of the loop over the test variables may log
    when the first file is [ncfiles[i]]. *)
Definition pass_event (ncfiles : list string) (i : nat) (testvar : string)
  (e : Event) : Prop :=
  match e with
  | EOpen primary path _ => primary = false /\ ncfiles !! (i + 1) = Some path
  | ESave DS path variable_name saved =>
      ncfiles !! i = Some path /\ variable_name = qc_varname testvar /\
      saved_consistent testvar saved
  | ESave DS2 path variable_name saved =>
      ncfiles !! (i + 1) = Some path /\ variable_name = qc_varname testvar /\
      saved_consistent testvar saved
  | EPolygon _ => True
  end.

Definition is_ok {A} (o : Outcome A) : bool :=
  match o with
  | Ok _ _ => true
  | Raise _ _ => false
  end.

(** The effect of a part of one pass: it logs [pass_event]s, at most [n]
    of them saves as second profile, leaves [skip] alone, leaves [status]
    alone or sets it to 1, keeps [f2skip]
    bound and does not decrease it, and, when it returns after an event that
    consumes the next file, leaves [f2skip] positive. *)
Definition pass_effect {A} (ncfiles : list string) (i : nat) (testvar : string)
  (n : nat) (s : State) (o : Outcome A) : Prop :=
  exists new,
    trace (final_state o) = trace s ++ new /\
    skip (final_state o) = skip s /\
    (status (final_state o) = status s \/ status (final_state o) = 1%Z) /\
    Forall (pass_event ncfiles i testvar) new /\
    length (second_saves new) <= n /\
    forall k, f2skip s = Some k ->
      exists k', f2skip (final_state o) = Some k' /\ k <= k' /\
                 (is_ok o = true -> consumed_paths new <> [] -> 0 < k').

(** An initial flag array or a classified one fits the dataset it was
    computed from. *)
Definition fits (d : Dataset) (testvar : string) (flags : list float) : Prop :=
  exists values, getitem (data_vars d) testvar = Some values /\
                 nan_missing values flags.

(** The index of the file the next iteration of the loop over the files
    opens, when the loop counter is [k]. *)
Definition next_index (k : nat) (s : State) : nat :=
  k + skip s + (if marked_consumed s then 1 else 0).

(** The invariant of the loop over the files: the files marked as consumed
    or opened as first so far come before the next file to open, no file is
    saved twice as second profile for one flag variable, none is opened
    twice as first, and no consumed file was opened as first afterwards. *)
Definition files_invariant (ncfiles : list string) (k : nat) (s : State) : Prop :=
  (forall path, path ∈ consumed_paths (trace s) ++ primary_paths (trace s) ->
     exists j, j < next_index k s /\ ncfiles !! j = Some path) /\
  NoDup (second_saves (trace s)) /\
  NoDup (primary_paths (trace s)) /\
  never_primary_after (trace s).

(** An event of a run of [main]: every save writes a flag variable of one
    of the test variables, MISSING where the measurement is NaN. *)
Definition run_event (e : Event) : Prop :=
  match e with
  | ESave _ _ variable_name saved =>
      exists testvar, testvar ∈ test_varnames /\
                      variable_name = qc_varname testvar /\
                      saved_consistent testvar saved
  | _ => True
  end.

(** What one iteration of the loop over the files may log after it has
    opened its first file. *)
Definition iteration_event (ncfiles : list string) (i : nat) (e : Event) : Prop :=
  exists testvar, testvar ∈ test_varnames /\ pass_event ncfiles i testvar e.

(** The effect of the iteration with loop counter [k]: nothing is logged
    (no file is left at the index), or the file at the index is opened as
    first and the passes over the test variables follow; when the iteration
    returns, the next index is past the file, and past the next file too if
    an event consumed it. *)
Definition iteration_effect (ncfiles : list string) (k : nat) (s : State)
  (o : Outcome unit) : Prop :=
  let i := next_index k s in
  exists new,
    trace (final_state o) = trace s ++ new /\
    (new = [] \/
     exists path ok rest,
       ncfiles !! i = Some path /\ new = EOpen true path ok :: rest /\
       Forall (iteration_event ncfiles i) rest /\ NoDup (second_saves rest)) /\
    (is_ok o = true ->
     i + 1 <= next_index (S k) (final_state o) /\
     (consumed_paths new <> [] -> i + 2 <= next_index (S k) (final_state o))).

(** The outcome the claims about a whole run speak of *)
Definition good_trace (t : list Event) : Prop :=
  NoDup (second_saves t) /\ NoDup (primary_paths t) /\ never_primary_after t.

(** The first profile of an iteration is taken as a down-cast for
    [testvar]: it has data for the variable (lines 205 and 221) and line 227
    does not find it up. *)
Definition primary_down (testvar : string) (d : Dataset) : bool :=
  negb (length (data_idx_of d testvar) =? 0)
  && match orientation_as_first d with Some DOWN => true | _ => false end.

(** The pressures of a profile that are not NaN, in order *)
Definition valid_pressures (d : Dataset) : list float :=
  filter (fun p => negb (np.isnan p) = true) (pressure d).

(** ** A small deployment *)

Module Example.

(** A down-cast and the up-cast that follows it within the window; the
    up-cast ends above the surface, with a negative pressure. *)
Definition down_cast : Dataset :=
  mkDataset [0; 1; 2; 3]%Z [0; 5; 10; 20]%float
    [("conductivity", [1; 2; 3; 4]%float);
     ("temperature", [10; PrimFloat.nan; 8; 7]%float)].

Definition up_cast : Dataset :=
  mkDataset [4; 5; 6; 7]%Z [20; 10; 5; -1]%float
    [("conductivity", [5; 4; 3; 2]%float);
     ("temperature", [7; 8; 9; 10]%float)].

(** A pair that stays within three pressure units *)
Definition shallow_down : Dataset :=
  mkDataset [0; 1; 2; 3]%Z [0; 1; 2; 3]%float
    [("conductivity", [1; 2; 3; 4]%float);
     ("temperature", [10; 9; 8; 7]%float)].

Definition shallow_up : Dataset :=
  mkDataset [4; 5; 6; 7]%Z [3; 2; 1; 0]%float
    [("conductivity", [5; 4; 3; 2]%float);
     ("temperature", [7; 8; 9; 10]%float)].

(** A profile that ends at the pressure it starts from *)
Definition level_cast : Dataset :=
  mkDataset [0; 1; 2]%Z [3; 7; 3]%float
    [("conductivity", [1; 2; 3]%float);
     ("temperature", [10; 9; 8]%float)].

(** A later down-cast and up-cast *)
Definition later_down : Dataset :=
  mkDataset [20; 21; 22; 23]%Z [0; 6; 12; 18]%float
    [("conductivity", [1; 2; 3; 4]%float);
     ("temperature", [10; 9; 8; 7]%float)].

Definition later_up : Dataset :=
  mkDataset [30; 31; 32; 33]%Z [18; 12; 6; 0]%float
    [("conductivity", [4; 3; 2; 1]%float);
     ("temperature", [7; 8; 9; 10]%float)].

Definition thresholds : Thresholds :=
  list_to_map [("test_threshold", 0.5%float); ("suspect_threshold", 1%float);
               ("fail_threshold", 2%float)].

Definition config : Config :=
  list_to_map [("conductivity_hysteresis_test", thresholds);
               ("temperature_hysteresis_test", thresholds)].

(** Thresholds under which the data range of the casts is too small to
    be tested *)
Definition wide_thresholds : Thresholds :=
  list_to_map [("test_threshold", 10%float); ("suspect_threshold", 1%float);
               ("fail_threshold", 2%float)].

Definition wide_config : Config :=
  list_to_map [("conductivity_hysteresis_test", wide_thresholds);
               ("temperature_hysteresis_test", wide_thresholds)].

(** An area function that finds 100 square units in every polygon *)
Definition area (polygon_points : list (float * float)) : option float :=
  Some 100%float.

Definition files : gmap string Dataset :=
  list_to_map [("a.nc", down_cast); ("b.nc", up_cast)].

Definition shallow_files : gmap string Dataset :=
  list_to_map [("a.nc", shallow_down); ("b.nc", shallow_up)].

Definition level_files : gmap string Dataset :=
  list_to_map [("a.nc", level_cast); ("b.nc", up_cast)].

(** Five files of which the fourth cannot be read *)
Definition gap_files : gmap string Dataset :=
  list_to_map [("a.nc", down_cast); ("b.nc", up_cast); ("c.nc", later_down);
               ("e.nc", later_up)].

Definition gap_ncfiles : list string :=
  ["a.nc"; "b.nc"; "c.nc"; "d.nc"; "e.nc"].

(** The state of the loop over the test variables once the first file,
    holding [d], has been read (lines 188-197) *)
Definition first_read (d : Dataset) (disk : gmap string Dataset) : State :=
  mkState 0 0 (Some 0) (Some d) None new_summary disk [].

(** The state in which the loop over the files of a deployment starts
    in a first deployment (lines 168-176) *)
Definition start (disk : gmap string Dataset) : State :=
  mkState 0 0 None None None new_summary disk [].

Definition env : Env := mkEnv true true (Some config).

Definition deployment (paths : list string) : Deployment :=
  mkDeployment true true None paths.

(** An environment whose QC configuration root is not a directory *)
Definition env_without_root : Env := mkEnv true false (Some config).

(** An environment without default configuration *)
Definition env_without_config : Env := mkEnv true true None.

End Example.
From Stdlib Require Import Sorted.
From Stdlib Require Import DecimalString.

(** ** Vocabulary of further properties *)

(** The variables of a dataset that [apply_qartod_qc] reads as QARTOD flags
    of [varname], line 27 *)
Definition qartod_vars (d : Dataset) (varname : string)
  : list (string * list float) :=
  filter (fun x => str_in (varname ++ "_qartod")%string (fst x) = true)
         (data_vars d).

(** Whether one of the flag series [qvs] holds SUSPECT (3) or FAIL (4) at
    index [j], line 28 *)
Definition flagged_at (qvs : list (string * list float)) (j : nat) : bool :=
  existsb (fun qv => match snd qv !! j with
                     | Some q => PrimFloat.eqb q 3 || PrimFloat.eqb q 4
                     | None => false
                     end) qvs.

(** A profile read as the first of an iteration that has data for
    [testvar] and that line 227 finds up *)
Definition primary_up (testvar : string) (d : Dataset) : bool :=
  negb (length (data_idx_of d testvar) =? 0)
  && match orientation_as_first d with Some UP => true | _ => false end.

(** The state after [save_ds(ds, flag_vals, ...)] on the file [f] alone with
    the initial flags, and one more unknown profile counted (lines 230-231,
    238-239, 257-258, 268-269) *)
Definition saved_alone (testvar f : string) (d : Dataset) (c : Counters)
  (s : State) : State :=
  let d' := with_flags d (qc_varname testvar) (flag_vals_of d testvar) in
  mkState (status s) (skip s) (f2skip s) (Some d') (ds2 s)
          (<[testvar := add_unknown 1 c]> (summary s))
          (<[f := d']> (fs s))
          (trace s ++ [ESave DS f (qc_varname testvar) d']).

(** The state after both files are saved with their initial flags, two
    unknown profiles counted and the second file marked (lines 341-345 and
    347-352) *)
Definition saved_both_unknown (testvar f f2 : string) (d d2 : Dataset)
  (c : Counters) (k : nat) (s : State) : State :=
  let d' := with_flags d (qc_varname testvar) (flag_vals_of d testvar) in
  let d2' := with_flags d2 (qc_varname testvar) (flag_vals_of d2 testvar) in
  mkState (status s) (skip s) (Some (k + 1)) (Some d') (Some d2')
          (<[testvar := add_unknown 2 c]> (summary s))
          (<[f2 := d2']> (<[f := d']> (fs s)))
          (trace s ++ [EOpen false f2 true;
                       ESave DS f (qc_varname testvar) d';
                       ESave DS2 f2 (qc_varname testvar) d2']).

(** The state with the status set to [v] *)
Definition with_status (v : Z) (s : State) : State :=
  mkState v (skip s) (f2skip s) (ds s) (ds2 s) (summary s) (fs s) (trace s).

(** ** Further example data *)

Module Cases.

(** A down-cast whose upstream QARTOD tests flag the second conductivity
    sample as suspect and the fourth as failed *)
Definition flagged_cast : Dataset :=
  mkDataset [0; 1; 2; 3]%Z [0; 5; 10; 20]%float
    [("conductivity", [1; 2; PrimFloat.nan; 4]%float);
     ("conductivity_qartod_gross_range_test", [1; 3; 1; 1]%float);
     ("conductivity_qartod_spike_test", [1; 1; 1; 4]%float);
     ("temperature", [10; 9; 8; 7]%float);
     ("temperature_qartod_gross_range_test", [4; 1; 1; 1]%float)].

(** An up-cast without conductivity *)
Definition temperature_only : Dataset :=
  mkDataset [4; 5; 6; 7]%Z [20; 10; 5; 1]%float
    [("temperature", [7; 8; 9; 10]%float)].

(** An up-cast that starts 400 seconds after the time origin *)
Definition distant_up : Dataset :=
  mkDataset [400000000000; 400000000001; 400000000002]%Z [20; 10; 1]%float
    [("conductivity", [5; 4; 3]%float);
     ("temperature", [7; 8; 9]%float)].

(** A down-cast whose conductivity is suspect or failed throughout *)
Definition masked_down : Dataset :=
  mkDataset [0; 1; 2; 3]%Z [0; 5; 10; 20]%float
    [("conductivity", [1; 2; 3; 4]%float);
     ("conductivity_qartod_flat_line_test", [4; 4; 3; 3]%float);
     ("temperature", [10; 9; 8; 7]%float)].

(** A profile without a valid pressure *)
Definition no_pressure : Dataset :=
  mkDataset [0; 1]%Z [PrimFloat.nan; PrimFloat.nan]%float
    [("conductivity", [1; 2]%float);
     ("temperature", [10; 9]%float)].

Definition files : gmap string Dataset :=
  list_to_map [("a.nc", Example.down_cast); ("b.nc", temperature_only);
               ("c.nc", Example.later_down); ("d.nc", distant_up);
               ("e.nc", masked_down); ("f.nc", Example.up_cast)].

(** A configuration without the section of conductivity *)
Definition temperature_config : Config :=
  list_to_map [("temperature_hysteresis_test", Example.thresholds)].

Definition temperature_env : Env := mkEnv true true (Some temperature_config).

(** The state after an iteration that consumed a pair *)
Definition after_pair (disk : gmap string Dataset) : State :=
  mkState 0 0 (Some 1) None None new_summary disk [].

(** The state of the loop over the test variables once [later_down] has
    been read, in a run that has read [up_cast] as a second profile before *)
Definition stale_read (disk : gmap string Dataset) : State :=
  mkState 0 0 (Some 0) (Some Example.later_down) (Some Example.up_cast)
          new_summary disk [].

(** The state after the first iteration over five files of which the
    fourth cannot be read: the first two files were a pair *)
Definition after_first_pair : State :=
  final_state (file_iteration Example.area Example.config Example.gap_ncfiles 0
                 (Example.start Example.gap_files)).

(** The state after the second iteration, which read the third file and
    could not read the fourth *)
Definition after_failed_lookahead : State :=
  final_state (file_iteration Example.area Example.config Example.gap_ncfiles 1
                 after_first_pair).

(** A deployment with a configuration of its own *)
Definition configured (paths : list string) : Deployment :=
  mkDeployment true true (Some Example.config) paths.

End Cases.

(** Whether the start of [d2] is five minutes or more after the end of
    [d], the else branch of line 274 *)
Definition beyond_window (d d2 : Dataset) : bool :=
  match head (time d2), last (time d) with
  | Some t2, Some t1 => negb (t2 - t1 <? five_minutes)%Z
  | _, _ => false
  end.

(** A profile read as the second of a pair that has the variable and that
    line 264 finds up *)
Definition second_up (testvar : string) (d2 : Dataset) : bool :=
  match getitem (data_vars d2) testvar with Some _ => true | None => false end
  && match orientation_as_second d2 with Some UP => true | _ => false end.

(** A profile read as the second of a pair that has the variable and that
    line 264 finds down *)
Definition second_down (testvar : string) (d2 : Dataset) : bool :=
  match getitem (data_vars d2) testvar with Some _ => true | None => false end
  && match orientation_as_second d2 with Some DOWN => true | _ => false end.

(** ** Vocabulary of the invariants of the data *)

(** The names of the flag variables the test writes *)
Definition flag_names : list string := map qc_varname test_varnames.

(** [d] is [d0] up to the flag variables of the test: the time stamps, the
    pressures and every other variable are those of [d0]. *)
Definition extends (d0 d : Dataset) : Prop :=
  time d = time d0 /\ pressure d = pressure d0 /\
  forall name, name ∉ flag_names ->
    getitem (data_vars d) name = getitem (data_vars d0) name.

(** Every file of [files0] is still there, with its data *)
Definition files_kept (files0 : gmap string Dataset) (s : State) : Prop :=
  forall path d0, files0 !! path = Some d0 ->
    exists d, fs s !! path = Some d /\ extends d0 d.

(** The object [ds] holds the data of the file [ncfiles[i]] *)
Definition first_kept (files0 : gmap string Dataset) (ncfiles : list string)
  (i : nat) (s : State) : Prop :=
  forall path d0 d, ncfiles !! i = Some path -> files0 !! path = Some d0 ->
    ds s = Some d -> extends d0 d.

(** The object [ds2] holds the data of the file [f2] *)
Definition second_kept (files0 : gmap string Dataset) (f2 : string)
  (s : State) : Prop :=
  forall d0 d2, files0 !! f2 = Some d0 -> ds2 s = Some d2 -> extends d0 d2.

(** An event that is not a failed read *)
Definition open_ok (e : Event) : Prop :=
  match e with
  | EOpen _ _ ok => ok = true
  | _ => True
  end.

(** A status that is still 0 tells that no read has failed *)
Definition status_sound (s : State) : Prop :=
  status s = 0%Z -> Forall open_ok (trace s).

(** The invariant of a run over the file system [files0], between two
    iterations of the loop over the files *)
Definition run_inv (files0 : gmap string Dataset) (s : State) : Prop :=
  files_kept files0 s /\ status_sound s.

(** The invariant of the passes of the iteration that read [ncfiles[i]];
    [lookahead] is the second file once line 243 has run. *)
Definition pass_inv (files0 : gmap string Dataset) (ncfiles : list string)
  (i : nat) (lookahead : option string) (s : State) : Prop :=
  run_inv files0 s /\ first_kept files0 ncfiles i s /\
  forall f2, lookahead = Some f2 -> second_kept files0 f2 s.

(** [m] keeps the invariant [I], whether it returns or raises *)
Definition preserves {A} (I : State -> Prop) (m : M A) : Prop :=
  forall s, I s -> I (final_state (m s)).

(** An invariant that looks at the files, at the two dataset objects, at
    whether the status is 0 and at the failed reads only *)
Definition framed (I : State -> Prop) : Prop :=
  forall s s',
    fs s' = fs s -> ds s' = ds s -> ds2 s' = ds2 s ->
    (status s' = status s \/ status s' = 1%Z) ->
    (exists new, trace s' = trace s ++ new /\ Forall open_ok new) ->
    I s -> I s'.

(** What a step that touches neither the files nor the dataset objects
    and reads no file does *)
Definition quiet {A} (m : M A) : Prop :=
  forall s,
    fs (final_state (m s)) = fs s /\ ds (final_state (m s)) = ds s /\
    ds2 (final_state (m s)) = ds2 s /\
    (status (final_state (m s)) = status s \/ status (final_state (m s)) = 1%Z) /\
    exists new, trace (final_state (m s)) = trace s ++ new /\ Forall open_ok new.

(** The state after the read of the lookahead file [f2] has failed (lines
    245-248), when [f2skip] was [k] *)
Definition lookahead_failed (s : State) (f2 : string) (k : nat) : State :=
  mkState 1 (skip s) (Some (k + 1)) (ds s) (ds2 s) (summary s) (fs s)
          (trace s ++ [EOpen false f2 false]).

(** ** Vocabulary of the counters *)

(** The profiles the summary counts for [testvar]: failed, suspect and
    unknown ones (lines 356-364) *)
Definition counted (testvar : string) (s : State) : nat :=
  match summary s !! testvar with
  | Some c => failed_profiles c + suspect_profiles c + unknown_profiles c
  | None => 0
  end.

(** The counters of the other test variables are those of [s] *)
Definition others_kept (testvar : string) (s s' : State) : Prop :=
  forall tv', tv' <> testvar -> summary s' !! tv' = summary s !! tv'.

(** What one pass for [testvar] over the file [ncfiles[i]] adds to the
    counters: one profile at most, or two when there is a next file, which a
    pass that returns has marked as consumed. *)
Definition count_effect {A} (ncfiles : list string) (i : nat) (testvar : string)
  (s : State) (o : Outcome A) : Prop :=
  others_kept testvar s (final_state o) /\
  (counted testvar (final_state o) <= counted testvar s + 1 \/
   (counted testvar (final_state o) <= counted testvar s + 2 /\
    is_Some (ncfiles !! (i + 1)) /\
    (is_ok o = true -> marked_consumed (final_state o) = true))).

(** The invariant of the loop over the files on the counters, when the
    loop counter is [k] *)
Definition counters_bounded (ncfiles : list string) (k : nat) (s : State) : Prop :=
  forall tv, tv ∈ test_varnames ->
    counted tv s <= next_index k s /\ counted tv s <= length ncfiles.

(** * [rugliderqc/common.py]: the encoding of a data array *)

Module common.

(** A numpy dtype as [set_encoding] reads it: the character code of its
    kind and the size of an item in bytes *)
Record DType := mkDType {
  kind : string;
  itemsize : nat
}.

(** What an encoding dictionary holds *)
Inductive Value :=
| VDtype (t : DType)
| VInt (z : Z)
| VFloat (x : float)
| VStr (text : string).

(** An [xarray.DataArray], as far as [set_encoding] looks at it *)
Record DataArray := mkDataArray {
  dtype : DType;
  encoding : gmap string Value
}.

(** How a call ends: it returns, having changed the array in place, or an
    exception leaves the array as changed so far *)
Inductive Completion :=
| Returned (data_array : DataArray)
| Raised (e : Exn) (data_array : DataArray).

(** Line 98, [f'{data_array.dtype.kind}{data_array.dtype.itemsize}'] *)
Definition data_type (t : DType) : string :=
  (kind t ++ NilEmpty.string_of_uint (Nat.to_uint (itemsize t)))%string.

(** Lines 86-87: the encoding the array has after [if original_encoding:],
    a dictionary being true when it is not empty *)
Definition base_encoding (data_array : DataArray)
  (original_encoding : option (gmap string Value)) : gmap string Value :=
  match original_encoding with
  | Some e => if decide (map_to_list e = []) then encoding data_array else e
  | None => encoding data_array
  end.

(** Lines 89-92 *)
Definition with_dtype (t : DType) (e : gmap string Value) : gmap string Value :=
  match e !! "dtype" with
  | Some _ => e
  | None => <["dtype" := VDtype t]> e
  end.

Section SetEncoding.

(** [netCDF4.default_fillvals] *)
Variable default_fillvals : gmap string Value.

(** [set_encoding], lines 79-99 *)
Definition set_encoding (data_array : DataArray)
  (original_encoding : option (gmap string Value)) : Completion :=
  let t := dtype data_array in
  let e := with_dtype t (base_encoding data_array original_encoding) in
  match e !! "_FillValue" with
  | Some _ => Returned (mkDataArray t e)
  | None =>
      match default_fillvals !! data_type t with
      | Some v => Returned (mkDataArray t (<["_FillValue" := v]> e))
      | None => Raised KeyError (mkDataArray t e)
      end
  end.

End SetEncoding.

(** A part of the table of netCDF4 *)
Definition example_fillvals : gmap string Value :=
  list_to_map [("f8", VFloat 0x1.ep+122%float);
               ("f4", VFloat 0x1.ep+122%float);
               ("i4", VInt (-2147483647)%Z); ("i1", VInt (-127)%Z)].

Definition float64 : DType := mkDType "f" 8.
Definition complex128 : DType := mkDType "c" 16.

(** The encoding of a variable read from a file *)
Definition depth_encoding : gmap string Value :=
  list_to_map [("dtype", VDtype (mkDType "f" 4)); ("units", VStr "m")].

Definition fresh_array : DataArray := mkDataArray float64 ∅.
Definition complex_array : DataArray := mkDataArray complex128 ∅.

End common.


(** * Properties *)

(** ** Comparisons of binary64 values *)

Lemma SFcompare_antisym x y :
  SFcompare y x = option_map CompOpp (SFcompare x y).
Proof.
  destruct x as [[]|[]| |[] mx ex], y as [[]|[]| |[] my ey]; simpl; try reflexivity.
  all: rewrite (Z.compare_antisym ey ex); destruct (Z.compare ey ex); simpl;
    try reflexivity.
  all: change (Pos.compare_cont Eq ?a ?b) with (Pos.compare a b).
  all: rewrite (Pos.compare_antisym my mx); try reflexivity.
  all: destruct (Pos.compare my mx); reflexivity.
Qed.

Lemma leb_true_ltb_false x y :
  PrimFloat.leb x y = true -> PrimFloat.ltb y x = false.
Proof.
  rewrite leb_spec, ltb_spec. unfold SFleb, SFltb.
  rewrite (SFcompare_antisym (Prim2SF x) (Prim2SF y)).
  destruct (SFcompare (Prim2SF x) (Prim2SF y)) as [[]|]; simpl; congruence.
Qed.

Lemma eqb_true_ltb_false x y :
  PrimFloat.eqb x y = true -> PrimFloat.ltb y x = false.
Proof.
  rewrite FloatAxioms.eqb_spec, ltb_spec. unfold SFeqb, SFltb.
  rewrite (SFcompare_antisym (Prim2SF x) (Prim2SF y)).
  destruct (SFcompare (Prim2SF x) (Prim2SF y)) as [[]|]; simpl; congruence.
Qed.

(** Two float literals that [eqb] tells apart are different. *)
Ltac float_neq :=
  let H := fresh in
  intros H;
  match type of H with
  | ?a = ?b =>
      assert (PrimFloat.eqb a a = PrimFloat.eqb b a) by (rewrite H; reflexivity)
  end;
  discriminate.

Lemma FAIL_neq_SUSPECT : QartodFlags.FAIL <> QartodFlags.SUSPECT.
Proof. float_neq. Qed.
Lemma FAIL_neq_GOOD : QartodFlags.FAIL <> QartodFlags.GOOD.
Proof. float_neq. Qed.
Lemma SUSPECT_neq_GOOD : QartodFlags.SUSPECT <> QartodFlags.GOOD.
Proof. float_neq. Qed.

(** ** Index arrays and flag arrays *)

Lemma elem_of_where_from mask k j :
  j ∈ np.where_from k mask <-> exists n, j = k + n /\ mask !! n = Some true.
Proof.
  revert k. induction mask as [|b mask IH]; intros k; simpl.
  - split; [intros H; inversion H|intros (n & _ & H); discriminate].
  - assert (Hrec : (exists n, j = S k + n /\ mask !! n = Some true) <->
                   (exists n, j = k + S n /\ mask !! n = Some true)).
    { split; intros (n & -> & H); exists n; split; auto; lia. }
    destruct b.
    + rewrite elem_of_cons, IH, Hrec. split.
      * intros [->|(n & -> & H)]; [exists 0|exists (S n)]; split; auto; lia.
      * intros ([|n] & -> & H); [left; lia|right; eauto].
    + rewrite IH, Hrec. split.
      * intros (n & -> & H). exists (S n). auto.
      * intros ([|n] & -> & H); [discriminate|eauto].
Qed.

Lemma elem_of_where mask j : j ∈ np.where_ mask <-> mask !! j = Some true.
Proof.
  unfold np.where_. rewrite elem_of_where_from. split.
  - intros (n & -> & H). exact H.
  - intros H. exists j. auto.
Qed.

Lemma length_set_mask a mask v : length (np.set_mask a mask v) = length a.
Proof.
  revert mask. induction a as [|x a IH]; intros [|b mask]; simpl; auto.
Qed.

Lemma lookup_initial_flags values j :
  np.set_mask (np.full (length values) 2)
              (np.invert (np.invert (map np.isnan values))) QartodFlags.MISSING !! j
  = (fun x => if np.isnan x then QartodFlags.MISSING else QartodFlags.UNKNOWN)
      <$> values !! j.
Proof.
  revert j. induction values as [|x values IH]; intros j; simpl; [reflexivity|].
  destruct j as [|j]; simpl.
  - destruct (np.isnan x); reflexivity.
  - apply IH.
Qed.

Lemma length_set_idx a idx v : length (np.set_idx a idx v) = length a.
Proof.
  unfold np.set_idx. revert a. induction idx as [|i idx IH]; intros a; simpl; auto.
  rewrite IH. apply length_insert.
Qed.

Lemma lookup_insert_same (a : list float) j v :
  <[j:=v]> a !! j = (fun _ => v) <$> a !! j.
Proof.
  destruct (a !! j) eqn:E.
  - rewrite list_lookup_insert_eq by (eapply lookup_lt_Some; eauto). reflexivity.
  - rewrite list_insert_ge by (apply lookup_ge_None; auto). rewrite E. reflexivity.
Qed.

Lemma lookup_set_idx idx a v j :
  np.set_idx a idx v !! j
  = if decide (j ∈ idx) then (fun _ => v) <$> a !! j else a !! j.
Proof.
  unfold np.set_idx. revert a. induction idx as [|i idx IH]; intros a; simpl.
  - destruct (decide (j ∈ [])) as [H|]; [inversion H|reflexivity].
  - rewrite IH. destruct (decide (i = j)) as [->|Hne].
    + rewrite lookup_insert_same.
      destruct (decide (j ∈ idx)), (decide (j ∈ j :: idx)) as [|Hn]; auto.
      * destruct (a !! j); reflexivity.
      * exfalso. apply Hn. left.
      * exfalso. apply Hn. left.
    + rewrite list_lookup_insert_ne by auto.
      destruct (decide (j ∈ idx)) as [Hin|Hin], (decide (j ∈ i :: idx)) as [Hin'|Hin'];
        auto.
      * exfalso. apply Hin'. right. auto.
      * exfalso. apply elem_of_cons in Hin' as [->|]; auto.
Qed.

Lemma initialize_flags_spec d tv data_idx pidx flags values :
  initialize_flags d tv = Some (data_idx, pidx, flags) ->
  getitem (data_vars d) tv = Some values ->
  flagged values flags QartodFlags.UNKNOWN /\
  (forall j, j ∈ data_idx <-> exists x, values !! j = Some x /\ np.isnan x = false).
Proof.
  unfold initialize_flags. intros H Hv. rewrite Hv in H.
  injection H as <- _ <-. split; [split|].
  - rewrite length_set_mask. unfold np.full. apply repeat_length.
  - intros j x Hx. rewrite lookup_initial_flags, Hx. reflexivity.
  - intros j. rewrite elem_of_where. unfold np.invert.
    rewrite !list_lookup_fmap. destruct (values !! j) as [x|]; simpl.
    + split.
      * intros [= H]. exists x. split; auto. apply negb_true_iff. exact H.
      * intros (y & [= <-] & ->). reflexivity.
    + split; [discriminate|intros (y & [=] & _)].
Qed.

Lemma flagged_set_idx d tv data_idx pidx flags values flag :
  initialize_flags d tv = Some (data_idx, pidx, flags) ->
  getitem (data_vars d) tv = Some values ->
  flagged values (np.set_idx flags data_idx flag) flag.
Proof.
  intros H Hv. destruct (initialize_flags_spec _ _ _ _ _ _ H Hv) as [[Hlen Hfl] Hidx].
  split.
  - rewrite length_set_idx. exact Hlen.
  - intros j x Hx. rewrite lookup_set_idx, (Hfl _ _ Hx).
    destruct (decide (j ∈ data_idx)) as [Hin|Hin].
    + apply Hidx in Hin as (y & Hy & Hnan). rewrite Hx in Hy. injection Hy as <-.
      rewrite Hnan. reflexivity.
    + destruct (np.isnan x) eqn:Hnan; [reflexivity|].
      exfalso. apply Hin, Hidx. eauto.
Qed.

Lemma flagged_no_unknown values flags flag :
  flagged values flags flag ->
  PrimFloat.eqb flag 2 = false ->
  np.contains 2 flags = false.
Proof.
  intros [Hlen H] Hflag. unfold np.contains.
  apply not_true_is_false. intros Hex.
  apply existsb_exists in Hex as (y & Hin & Hy).
  apply list_elem_of_In, list_elem_of_lookup in Hin as [j Hj].
  destruct (values !! j) as [x|] eqn:Hx.
  - rewrite (H _ _ Hx) in Hj. injection Hj as <-.
    destruct (np.isnan x); [discriminate Hy|congruence].
  - apply lookup_lt_Some in Hj. apply lookup_ge_None in Hx. lia.
Qed.

Lemma initialize_flags_getitem d tv r :
  initialize_flags d tv = Some r -> is_Some (getitem (data_vars d) tv).
Proof.
  unfold initialize_flags. destruct (getitem (data_vars d) tv); [eauto|discriminate].
Qed.

Lemma initialize_flags_pressure d tv a b c :
  initialize_flags d tv = Some (a, b, c) -> b = press_non_nan_ind d.
Proof.
  unfold initialize_flags. destruct (getitem (data_vars d) tv); [|discriminate].
  intros [= _ <- _]. reflexivity.
Qed.

Lemma getitem_initialize_flags d tv :
  is_Some (getitem (data_vars d) tv) -> is_Some (initialize_flags d tv).
Proof.
  unfold initialize_flags. intros [v ->]. eauto.
Qed.

Lemma flagged_of_pair_member d tv values flag :
  getitem (data_vars d) tv = Some values ->
  flagged values (np.set_idx (flag_vals_of d tv) (data_idx_of d tv) flag) flag /\
  flagged values (flag_vals_of d tv) QartodFlags.UNKNOWN.
Proof.
  intros Hv. unfold flag_vals_of, data_idx_of.
  destruct (getitem_initialize_flags d tv) as [[[idx pidx] fl] Hi]; [rewrite Hv; eauto|].
  rewrite Hi. split.
  - eapply flagged_set_idx; eauto.
  - eapply initialize_flags_spec; eauto.
Qed.

(** ** Running the driver *)

Lemma bind_eq {A B} (m : M A) (k : A -> M B) s :
  (m ≫= k) s = match m s with Ok a s' => k a s' | Raise e s' => Raise e s' end.
Proof. reflexivity. Qed.

Lemma bind_ok {A B} (m : M A) (k : A -> M B) s a s' :
  m s = Ok a s' -> (m ≫= k) s = k a s'.
Proof. intros H. rewrite bind_eq, H. reflexivity. Qed.

(** Unfolds the plumbing of the monad and the accessors of the state, and
    nothing of the computations on arrays. *)
Ltac run1 :=
  unfold mbind, mret, M_bind, M_ret, bind, ret, lift, deref, assign, write_file,
    log, set_status, set_skip, set_f2skip, set_summary, incr_f2skip,
    incr_summary, get_state, open_dataset;
  cbn beta iota zeta delta [status skip f2skip ds ds2 summary fs trace fst snd].
Ltac run := repeat progress run1.

Ltac destruct_state s :=
  let st := fresh "st" in
  let sk := fresh "sk" in
  let fk := fresh "fk" in
  let dx := fresh "dx" in
  let d2x := fresh "d2x" in
  let sm := fresh "sm" in
  let files := fresh "files" in
  let tr := fresh "tr" in
  destruct s as [st sk fk dx d2x sm files tr];
  cbn [status skip f2skip ds ds2 summary fs trace] in *.

Section Pair.

Variable valid_polygons_area : list (float * float) -> option float.

Lemma save_pair_run tv ncfiles i f f2 flags flags2 s d d2 k :
  ncfiles !! i = Some f -> ds s = Some d -> ds2 s = Some d2 ->
  f2skip s = Some k -> is_Some (summary s !! tv) ->
  exists sm,
    save_pair tv ncfiles i f2 flags flags2 s =
    Ok tt (mkState (status s) (skip s) (Some (k + 1))
             (Some (with_flags d (qc_varname tv) flags))
             (Some (with_flags d2 (qc_varname tv) flags2))
             sm
             (<[f2 := with_flags d2 (qc_varname tv) flags2]>
                (<[f := with_flags d (qc_varname tv) flags]> (fs s)))
             (trace s ++
                [ESave DS f (qc_varname tv) (with_flags d (qc_varname tv) flags);
                 ESave DS2 f2 (qc_varname tv)
                   (with_flags d2 (qc_varname tv) flags2)])).
Proof.
  destruct_state s. intros Hf -> -> -> [c Hc].
  unfold save_pair, save_first, save_second, save_ds.
  run. rewrite Hf. run.
  destruct (np.contains 2 flags); run.
  - rewrite Hc. run. rewrite <- app_assoc. eauto.
  - rewrite <- app_assoc. eauto.
Qed.

Lemma test_variable_pair cfg ncfiles i tv s thr d d2 f f2 :
  pair_context cfg ncfiles i tv s thr d d2 f f2 ->
  exists c c2,
    pair_table tv d d2 = combined_table d d2 c c2 /\
    test_variable valid_polygons_area cfg ncfiles i tv s =
    classify_pair valid_polygons_area tv thr ncfiles i f2 c c2
      (data_idx_of d tv) (data_idx_of d2 tv)
      (flag_vals_of d tv) (flag_vals_of d2 tv) (opened s f2 d2).
Proof.
  intros [H1 H2 H3 H4 H5 _ _ H8].
  unfold validated_pair in H8.
  repeat (apply andb_prop in H8; destruct H8 as [H8 ?]).
  unfold pair_table, data_idx_of, flag_vals_of in *.
  destruct (initialize_flags d tv) as [[[data_idx pidx] flags]|] eqn:Hinit;
    [|discriminate].
  destruct (initialize_flags_getitem _ _ _ Hinit) as [v Hv].
  destruct (getitem (data_vars d2) tv) as [v2|] eqn:Hv2; [|discriminate].
  destruct (getitem_initialize_flags d2 tv) as [[[data_idx2 pidx2] flags2] Hinit2];
    [rewrite Hv2; eauto|].
  rewrite Hinit2.
  pose proof (initialize_flags_pressure _ _ _ _ _ Hinit) as ->.
  pose proof (initialize_flags_pressure _ _ _ _ _ Hinit2) as ->.
  unfold orientation_as_first, orientation_as_second in *.
  destruct (endpoints d (press_non_nan_ind d)) as [[a b]|] eqn:He; [|discriminate].
  destruct (endpoints d2 (press_non_nan_ind d2)) as [[a2 b2]|] eqn:He2;
    [|discriminate].
  destruct (first_orientation a b) eqn:Ho; [|discriminate].
  destruct (second_orientation a2 b2) eqn:Ho2; [discriminate|].
  unfold within_window, data_remaining in *.
  destruct (head (time d2)) as [t2|] eqn:Ht2; [|discriminate].
  destruct (last (time d)) as [t1|] eqn:Ht1; [|discriminate].
  destruct (apply_qartod_qc d tv) as [c|] eqn:Hc; [|discriminate].
  destruct (apply_qartod_qc d2 tv) as [c2|] eqn:Hc2; [|discriminate].
  exists c, c2. split; [reflexivity|].
  destruct_state s. subst dx.
  unfold test_variable, opened. run. rewrite H1. run. rewrite Hv, Hinit. run.
  destruct (length data_idx =? 0)%nat; [discriminate|].
  rewrite He. run. rewrite Ho, H4.
  unfold look_ahead, second_profile, open_second. run. rewrite H5. run.
  rewrite Hv2, Hinit2. run. rewrite He2. run. rewrite Ho2.
  unfold down_up. run. rewrite Ht2, Ht1. run. rewrite H0. rewrite Hc, Hc2. run.
  rewrite H. reflexivity.
Qed.

(** A validated pair whose flag arrays [hysteresis_flags] returns: both
    files are saved with them and the second file is marked. *)
Lemma pair_run cfg ncfiles i tv s thr d d2 f f2 pr dr flags flags2 sm' poly :
  pair_context cfg ncfiles i tv s thr d d2 f f2 ->
  pressure_range_of (pair_table tv d d2) = Some pr ->
  data_range_of (pair_table tv d d2) = Some dr ->
  hysteresis_flags valid_polygons_area tv thr (pair_table tv d d2) pr dr
    (data_idx_of d tv) (data_idx_of d2 tv) (flag_vals_of d tv) (flag_vals_of d2 tv)
    (opened s f2 d2)
  = Ok (flags, flags2)
       (mkState (status s) (skip s) (f2skip s) (ds s) (Some d2) sm' (fs s)
                (trace s ++ [EOpen false f2 true] ++ poly)) ->
  is_Some (sm' !! tv) ->
  exists s',
    test_variable valid_polygons_area cfg ncfiles i tv s = Ok tt s' /\
    trace s' = trace s ++ pair_events tv f f2 d d2 poly flags flags2 /\
    marked_consumed s' = true /\
    status s' = status s /\
    fs s' !! f2 = Some (with_flags d2 (qc_varname tv) flags2).
Proof.
  intros Hctx Hpr Hdr Hh Hsm.
  destruct (test_variable_pair _ _ _ _ _ _ _ _ _ _ Hctx) as (c & c2 & Htab & ->).
  destruct Hctx as [_ H2 H3 _ _ [k Hk] _ _].
  rewrite Htab in *.
  unfold classify_pair.
  rewrite (bind_ok _ _ _ d (opened s f2 d2))
    by (unfold deref, opened; cbn [ds]; rewrite H2; reflexivity).
  rewrite (bind_ok _ _ _ d2 (opened s f2 d2)) by reflexivity.
  cbv zeta. rewrite Hpr, Hdr.
  rewrite (bind_ok _ _ _ pr (opened s f2 d2)) by reflexivity.
  rewrite (bind_ok _ _ _ dr (opened s f2 d2)) by reflexivity.
  rewrite (bind_ok _ _ _ _ _ Hh). cbn [fst snd].
  edestruct (save_pair_run tv ncfiles i f f2 flags flags2) as [sm'' ->];
    [exact H3| | | |exact Hsm|].
  1-3: cbn [ds ds2 f2skip]; eauto.
  eexists. split; [reflexivity|].
  cbn [status skip f2skip ds ds2 summary fs trace]. unfold pair_events.
  rewrite <- !app_assoc. split; [reflexivity|].
  split; [unfold marked_consumed; cbn [f2skip]; apply Nat.ltb_lt; lia|].
  split; [reflexivity|]. apply lookup_insert_eq.
Qed.

Lemma pair_reduce cfg ncfiles i tv s thr d d2 f f2 pr dr :
  pair_context cfg ncfiles i tv s thr d d2 f f2 ->
  pressure_range_of (pair_table tv d d2) = Some pr ->
  data_range_of (pair_table tv d d2) = Some dr ->
  test_variable valid_polygons_area cfg ncfiles i tv s =
  (flags ← hysteresis_flags valid_polygons_area tv thr (pair_table tv d d2) pr dr
             (data_idx_of d tv) (data_idx_of d2 tv)
             (flag_vals_of d tv) (flag_vals_of d2 tv);
   save_pair tv ncfiles i f2 (fst flags) (snd flags)) (opened s f2 d2).
Proof.
  intros Hctx Hpr Hdr.
  destruct (test_variable_pair _ _ _ _ _ _ _ _ _ _ Hctx) as (c & c2 & Htab & ->).
  destruct Hctx as [_ H2 _ _ _ _ _ _].
  rewrite Htab in *.
  unfold classify_pair.
  rewrite (bind_ok _ _ _ d (opened s f2 d2))
    by (unfold deref, opened; cbn [ds]; rewrite H2; reflexivity).
  rewrite (bind_ok _ _ _ d2 (opened s f2 d2)) by reflexivity.
  cbv zeta. rewrite Hpr, Hdr.
  rewrite (bind_ok _ _ _ pr (opened s f2 d2)) by reflexivity.
  rewrite (bind_ok _ _ _ dr (opened s f2 d2)) by reflexivity.
  reflexivity.
Qed.

(** What [hysteresis_flags] does, whether it returns or raises: it
    changes the counters and logs at most the polygon, and the arrays it
    returns are the initial ones or carry one of GOOD, SUSPECT and FAIL at
    the valid-data indices. *)
Lemma hysteresis_flags_effect tv thr df pr dr idx idx2 fl fl2 s1 :
  exists poly sm',
    final_state (hysteresis_flags valid_polygons_area tv thr df pr dr
                   idx idx2 fl fl2 s1)
    = mkState (status s1) (skip s1) (f2skip s1) (ds s1) (ds2 s1) sm' (fs s1)
              (trace s1 ++ poly) /\
    (poly = [] \/ exists pts, poly = [EPolygon pts]) /\
    (is_Some (summary s1 !! tv) -> is_Some (sm' !! tv)) /\
    match hysteresis_flags valid_polygons_area tv thr df pr dr
            idx idx2 fl fl2 s1 with
    | Ok flags _ =>
        (PrimFloat.ltb 5 pr = false /\ flags = (fl, fl2) /\ poly = []) \/
        (PrimFloat.ltb 5 pr = true /\
         exists flag,
           (flag = QartodFlags.GOOD \/ flag = QartodFlags.SUSPECT \/
            flag = QartodFlags.FAIL) /\
           flags = (np.set_idx fl idx flag, np.set_idx fl2 idx2 flag))
    | Raise _ _ => True
    end.
Proof.
  destruct_state s1. unfold hysteresis_flags.
  assert (Hnil : forall (l : list Event), l = l ++ []) by (intros; rewrite app_nil_r; auto).
  assert (Hins : forall (c : Counters) m, is_Some (<[tv := c]> m !! tv))
    by (intros c m; rewrite lookup_insert_eq; eauto).
  destruct (PrimFloat.ltb 5 pr) eqn:Hp; run;
    [|exists [], sm; rewrite <- Hnil; repeat split; auto].
  destruct (thr !! "test_threshold") as [tt'|]; run;
    [|exists [], sm; rewrite <- Hnil; repeat split; auto].
  destruct (PrimFloat.ltb tt' dr); run;
    [|exists [], sm; rewrite <- Hnil; repeat split; eauto 10].
  destruct (polygon_points_of df) as [pts|]; run;
    [|exists [], sm; rewrite <- Hnil; repeat split; auto].
  destruct (valid_polygons_area pts) as [total|]; run;
    [|exists [EPolygon pts], sm; repeat split; eauto].
  destruct (thr !! "fail_threshold") as [ft|]; run;
    [|exists [EPolygon pts], sm; repeat split; eauto].
  destruct (PrimFloat.ltb (dr * ft) (total / pr)); run.
  - destruct (sm !! tv) as [c|]; run.
    + eexists [EPolygon pts], _. repeat split; eauto 10.
    + exists [EPolygon pts], sm. repeat split; eauto. intros [? [=]].
  - destruct (thr !! "suspect_threshold") as [st'|]; run;
      [|exists [EPolygon pts], sm; repeat split; eauto].
    destruct (PrimFloat.ltb (dr * st') (total / pr)); run.
    + destruct (sm !! tv) as [c|]; run.
      * eexists [EPolygon pts], _. repeat split; eauto 10.
      * exists [EPolygon pts], sm. repeat split; eauto. intros [? [=]].
    + exists [EPolygon pts], sm. repeat split; eauto 10.
Qed.

Lemma table_ranges df pr :
  pressure_range_of df = Some pr -> is_Some (data_range_of df) /\ df <> [].
Proof.
  unfold pressure_range_of, data_range_of, clamp_negative.
  destruct df as [|r df]; simpl; [discriminate|]. eauto.
Qed.

End Pair.

(** ** The classification of a validated pair *)

(** C1: for a validated down/up pair with pressure_range > 5 and
    data_range > test_threshold, both profiles are saved with one flag at
    their valid-data indices; the flag is FAIL exactly when
    normalized_area > data_range * fail_threshold, otherwise SUSPECT
    exactly when normalized_area > data_range * suspect_threshold, otherwise
    GOOD; the comparisons are strict, so a normalized area equal to a
    threshold product does not give the flag of that threshold. *)
Theorem pair_flag_by_thresholds
    (valid_polygons_area : list (float * float) -> option float)
    cfg ncfiles i tv s thr d d2 f f2 values values2
    pr dr test_threshold fail_threshold suspect_threshold pts total :
  pair_context cfg ncfiles i tv s thr d d2 f f2 ->
  getitem (data_vars d) tv = Some values ->
  getitem (data_vars d2) tv = Some values2 ->
  pressure_range_of (pair_table tv d d2) = Some pr ->
  data_range_of (pair_table tv d d2) = Some dr ->
  thr !! "test_threshold" = Some test_threshold ->
  thr !! "fail_threshold" = Some fail_threshold ->
  thr !! "suspect_threshold" = Some suspect_threshold ->
  PrimFloat.ltb 5 pr = true ->
  PrimFloat.ltb test_threshold dr = true ->
  polygon_points_of (pair_table tv d d2) = Some pts ->
  valid_polygons_area pts = Some total ->
  let normalized_area := (total / pr)%float in
  exists s' flag flags flags2,
    test_variable valid_polygons_area cfg ncfiles i tv s = Ok tt s' /\
    trace s' = trace s ++ pair_events tv f f2 d d2 [EPolygon pts] flags flags2 /\
    flagged values flags flag /\
    flagged values2 flags2 flag /\
    (flag = QartodFlags.FAIL <->
     PrimFloat.ltb (dr * fail_threshold) normalized_area = true) /\
    (flag = QartodFlags.SUSPECT <->
     PrimFloat.ltb (dr * fail_threshold) normalized_area = false /\
     PrimFloat.ltb (dr * suspect_threshold) normalized_area = true) /\
    (flag = QartodFlags.GOOD <->
     PrimFloat.ltb (dr * fail_threshold) normalized_area = false /\
     PrimFloat.ltb (dr * suspect_threshold) normalized_area = false) /\
    (PrimFloat.eqb normalized_area (dr * fail_threshold) = true ->
     flag <> QartodFlags.FAIL) /\
    (PrimFloat.eqb normalized_area (dr * suspect_threshold) = true ->
     flag <> QartodFlags.SUSPECT).
Proof.
  intros Hctx Hv Hv2 Hpr Hdr Htt Hft Hst Hp Ht Hpts Harea area.
  pose proof FAIL_neq_SUSPECT. pose proof FAIL_neq_GOOD. pose proof SUSPECT_neq_GOOD.
  pose proof (fun flag => proj1 (flagged_of_pair_member d tv values flag Hv)) as Hfl.
  pose proof (fun flag => proj1 (flagged_of_pair_member d2 tv values2 flag Hv2)) as Hfl2.
  pose proof Hctx as [_ _ _ _ _ _ [c Hc] _].
  destruct (PrimFloat.ltb (dr * fail_threshold) area) eqn:Hfail;
    [|destruct (PrimFloat.ltb (dr * suspect_threshold) area) eqn:Hsus].
  - edestruct (pair_run valid_polygons_area cfg ncfiles i tv s thr d d2 f f2 pr dr
                 (np.set_idx (flag_vals_of d tv) (data_idx_of d tv) QartodFlags.FAIL)
                 (np.set_idx (flag_vals_of d2 tv) (data_idx_of d2 tv) QartodFlags.FAIL)
                 (<[tv := add_failed 2 c]> (summary s)) [EPolygon pts])
      as (s' & Hrun & Htr & _); eauto.
    { destruct_state s. unfold hysteresis_flags, opened. run.
      rewrite Hp, Htt. run. rewrite Ht, Hpts. run. rewrite Harea, Hft. run.
      fold area. rewrite Hfail. run. rewrite Hc. run.
      rewrite <- app_assoc. reflexivity. }
    { rewrite lookup_insert_eq. eauto. }
    exists s', QartodFlags.FAIL. do 2 eexists.
    split; [exact Hrun|]. split; [exact Htr|].
    split; [apply Hfl|]. split; [apply Hfl2|].
    repeat split; try congruence; try tauto.
    + intros [? _]; congruence.
    + intros [? _]; congruence.
    + intros He%eqb_true_ltb_false. congruence.
  - edestruct (pair_run valid_polygons_area cfg ncfiles i tv s thr d d2 f f2 pr dr
                 (np.set_idx (flag_vals_of d tv) (data_idx_of d tv) QartodFlags.SUSPECT)
                 (np.set_idx (flag_vals_of d2 tv) (data_idx_of d2 tv) QartodFlags.SUSPECT)
                 (<[tv := add_suspect 2 c]> (summary s)) [EPolygon pts])
      as (s' & Hrun & Htr & _); eauto.
    { destruct_state s. unfold hysteresis_flags, opened. run.
      rewrite Hp, Htt. run. rewrite Ht, Hpts. run. rewrite Harea, Hft. run.
      fold area. rewrite Hfail, Hst. run. rewrite Hsus. run. rewrite Hc. run.
      rewrite <- app_assoc. reflexivity. }
    { rewrite lookup_insert_eq. eauto. }
    exists s', QartodFlags.SUSPECT. do 2 eexists.
    split; [exact Hrun|]. split; [exact Htr|].
    split; [apply Hfl|]. split; [apply Hfl2|].
    repeat split; try congruence; try tauto.
    + intros [_ ?]; congruence.
    + intros He%eqb_true_ltb_false. congruence.
  - edestruct (pair_run valid_polygons_area cfg ncfiles i tv s thr d d2 f f2 pr dr
                 (np.set_idx (flag_vals_of d tv) (data_idx_of d tv) QartodFlags.GOOD)
                 (np.set_idx (flag_vals_of d2 tv) (data_idx_of d2 tv) QartodFlags.GOOD)
                 (summary s) [EPolygon pts])
      as (s' & Hrun & Htr & _); eauto.
    { destruct_state s. unfold hysteresis_flags, opened. run.
      rewrite Hp, Htt. run. rewrite Ht, Hpts. run. rewrite Harea, Hft. run.
      fold area. rewrite Hfail, Hst. run. rewrite Hsus. run.
      rewrite <- app_assoc. reflexivity. }
    exists s', QartodFlags.GOOD. do 2 eexists.
    split; [exact Hrun|]. split; [exact Htr|].
    split; [apply Hfl|]. split; [apply Hfl2|].
    repeat split; try congruence; try tauto.
    intros [_ ?]; congruence.
Qed.

Lemma hysteresis_flags_shallow area tv thr df pr dr idx idx2 fl fl2 s1 :
  PrimFloat.ltb 5 pr = false ->
  hysteresis_flags area tv thr df pr dr idx idx2 fl fl2 s1 = Ok (fl, fl2) s1.
Proof. intros H. unfold hysteresis_flags. rewrite H. reflexivity. Qed.

Lemma hysteresis_flags_well_mixed area tv thr df pr dr idx idx2 fl fl2 s1 tt' :
  PrimFloat.ltb 5 pr = true ->
  thr !! "test_threshold" = Some tt' ->
  PrimFloat.ltb tt' dr = false ->
  hysteresis_flags area tv thr df pr dr idx idx2 fl fl2 s1
  = Ok (np.set_idx fl idx QartodFlags.GOOD, np.set_idx fl2 idx2 QartodFlags.GOOD) s1.
Proof.
  intros H Ht Hd. unfold hysteresis_flags. rewrite H. run. rewrite Ht. run.
  rewrite Hd. reflexivity.
Qed.

(** A validated pair for which [hysteresis_flags] returns without the
    polygon, whatever the area function is. *)
Lemma pair_without_polygon cfg ncfiles i tv s thr d d2 f f2 pr dr flags flags2 :
  pair_context cfg ncfiles i tv s thr d d2 f f2 ->
  pressure_range_of (pair_table tv d d2) = Some pr ->
  data_range_of (pair_table tv d d2) = Some dr ->
  (forall area,
     hysteresis_flags area tv thr (pair_table tv d d2) pr dr
       (data_idx_of d tv) (data_idx_of d2 tv) (flag_vals_of d tv) (flag_vals_of d2 tv)
       (opened s f2 d2) = Ok (flags, flags2) (opened s f2 d2)) ->
  exists s',
    (forall area, test_variable area cfg ncfiles i tv s = Ok tt s') /\
    trace s' = trace s ++ pair_events tv f f2 d d2 [] flags flags2.
Proof.
  intros Hctx Hpr Hdr Hh.
  pose proof Hctx as [_ H2 H3 _ _ [k Hk] Hsm _].
  destruct (save_pair_run tv ncfiles i f f2 flags flags2 (opened s f2 d2) d d2 k)
    as [sm Hsave]; auto.
  eexists. split.
  - intros area. rewrite (pair_reduce area _ _ _ _ _ _ _ _ _ _ _ _ Hctx Hpr Hdr).
    rewrite (bind_ok _ _ _ _ _ (Hh area)). exact Hsave.
  - cbn [trace opened pair_events app]. rewrite <- app_assoc. reflexivity.
Qed.

(** C4: for a validated down/up pair whose pressure range is at most 5,
    both profiles are saved with UNKNOWN at their valid-data indices, and
    the polygon is not built: no polygon is logged and the run is the same
    for every area function. *)
Theorem shallow_pair_left_unknown
    cfg ncfiles i tv s thr d d2 f f2 values values2 pr :
  pair_context cfg ncfiles i tv s thr d d2 f f2 ->
  getitem (data_vars d) tv = Some values ->
  getitem (data_vars d2) tv = Some values2 ->
  pressure_range_of (pair_table tv d d2) = Some pr ->
  PrimFloat.leb pr 5 = true ->
  exists s' flags flags2,
    (forall valid_polygons_area,
       test_variable valid_polygons_area cfg ncfiles i tv s = Ok tt s') /\
    trace s' = trace s ++ pair_events tv f f2 d d2 [] flags flags2 /\
    flagged values flags QartodFlags.UNKNOWN /\
    flagged values2 flags2 QartodFlags.UNKNOWN.
Proof.
  intros Hctx Hv Hv2 Hpr Hle.
  destruct (table_ranges _ _ Hpr) as [[dr Hdr] _].
  destruct (pair_without_polygon cfg ncfiles i tv s thr d d2 f f2 pr dr
              (flag_vals_of d tv) (flag_vals_of d2 tv) Hctx Hpr Hdr)
    as (s' & Hrun & Htr).
  { intros area. apply hysteresis_flags_shallow, leb_true_ltb_false, Hle. }
  exists s', (flag_vals_of d tv), (flag_vals_of d2 tv).
  split; [exact Hrun|]. split; [exact Htr|].
  split; eapply flagged_of_pair_member; eauto.
  Unshelve. all: exact 0%float.
Qed.

(** C5: for a validated down/up pair with pressure_range > 5 and
    data_range at most the test threshold, both profiles are saved with GOOD
    at all their valid-data indices, and the polygon is not built. *)
Theorem well_mixed_pair_good
    cfg ncfiles i tv s thr d d2 f f2 values values2 pr dr test_threshold :
  pair_context cfg ncfiles i tv s thr d d2 f f2 ->
  getitem (data_vars d) tv = Some values ->
  getitem (data_vars d2) tv = Some values2 ->
  pressure_range_of (pair_table tv d d2) = Some pr ->
  data_range_of (pair_table tv d d2) = Some dr ->
  thr !! "test_threshold" = Some test_threshold ->
  PrimFloat.ltb 5 pr = true ->
  PrimFloat.leb dr test_threshold = true ->
  exists s' flags flags2,
    (forall valid_polygons_area,
       test_variable valid_polygons_area cfg ncfiles i tv s = Ok tt s') /\
    trace s' = trace s ++ pair_events tv f f2 d d2 [] flags flags2 /\
    flagged values flags QartodFlags.GOOD /\
    flagged values2 flags2 QartodFlags.GOOD.
Proof.
  intros Hctx Hv Hv2 Hpr Hdr Htt Hp Hle.
  edestruct (pair_without_polygon cfg ncfiles i tv s thr d d2 f f2 pr dr)
    as (s' & Hrun & Htr); eauto.
  { intros area. eapply hysteresis_flags_well_mixed; eauto.
    apply leb_true_ltb_false, Hle. }
  do 3 eexists.
  split; [exact Hrun|]. split; [exact Htr|].
  split; eapply flagged_of_pair_member; eauto.
Qed.

(** C10: when the classification of a validated pair with
    pressure_range > 5 completes, one flag among GOOD, SUSPECT and FAIL has
    been assigned, and the flag array saved for each of the two profiles
    holds that flag at every index whose measurement is not NaN and MISSING
    at every NaN index, so that no UNKNOWN is left in either array. *)
Theorem classified_pair_two_values
    (valid_polygons_area : list (float * float) -> option float)
    cfg ncfiles i tv s thr d d2 f f2 values values2 pr s' :
  pair_context cfg ncfiles i tv s thr d d2 f f2 ->
  getitem (data_vars d) tv = Some values ->
  getitem (data_vars d2) tv = Some values2 ->
  pressure_range_of (pair_table tv d d2) = Some pr ->
  PrimFloat.ltb 5 pr = true ->
  test_variable valid_polygons_area cfg ncfiles i tv s = Ok tt s' ->
  exists flag poly flags flags2,
    (flag = QartodFlags.GOOD \/ flag = QartodFlags.SUSPECT \/
     flag = QartodFlags.FAIL) /\
    trace s' = trace s ++ pair_events tv f f2 d d2 poly flags flags2 /\
    flagged values flags flag /\
    flagged values2 flags2 flag /\
    np.contains QartodFlags.UNKNOWN flags = false /\
    np.contains QartodFlags.UNKNOWN flags2 = false.
Proof.
  intros Hctx Hv Hv2 Hpr Hp Hrun.
  destruct (table_ranges _ _ Hpr) as [[dr Hdr] _].
  rewrite (pair_reduce valid_polygons_area _ _ _ _ _ _ _ _ _ _ _ _ Hctx Hpr Hdr),
    bind_eq in Hrun.
  pose proof Hctx as [_ H2 H3 _ _ [k Hk] Hsm _].
  destruct (hysteresis_flags_effect valid_polygons_area tv thr (pair_table tv d d2)
              pr dr (data_idx_of d tv) (data_idx_of d2 tv)
              (flag_vals_of d tv) (flag_vals_of d2 tv) (opened s f2 d2))
    as (poly & sm' & Hfin & _ & Hsm' & Hcase).
  destruct (hysteresis_flags _ _ _ _ _ _ _ _ _ _ _) as [flags sh|]; [|discriminate].
  cbn [final_state] in Hfin. subst sh.
  destruct Hcase as [(Hp' & _)|(_ & flag & Hflag & ->)]; [congruence|].
  cbn [fst snd] in Hrun.
  edestruct (save_pair_run tv ncfiles i f f2) as [sm'' Hsave];
    [exact H3| | | | |rewrite Hsave in Hrun].
  1-4: cbn [ds ds2 f2skip summary opened]; eauto.
  injection Hrun as <-.
  assert (Hne : PrimFloat.eqb flag 2 = false)
    by (destruct Hflag as [->|[->| ->]]; reflexivity).
  pose proof (proj1 (flagged_of_pair_member d tv values flag Hv)) as Hfl.
  pose proof (proj1 (flagged_of_pair_member d2 tv values2 flag Hv2)) as Hfl2.
  exists flag, poly. do 2 eexists.
  split; [exact Hflag|]. split.
  { cbn [trace opened pair_events]. rewrite <- !app_assoc. reflexivity. }
  split; [exact Hfl|]. split; [exact Hfl2|].
  split; eapply flagged_no_unknown; eauto.
Qed.

(** ** The effect of one pass over a test variable *)

Lemma string_length_app (a b : string) :
  String.length (a ++ b)%string = String.length a + String.length b.
Proof. induction a as [|c a IH]; simpl; [reflexivity|]. rewrite IH. reflexivity. Qed.

Lemma qc_varname_neq tv : qc_varname tv <> tv.
Proof.
  unfold qc_varname. intros H. apply (f_equal String.length) in H.
  rewrite string_length_app in H. simpl in H. lia.
Qed.

Lemma getitem_setitem_eq vars name values :
  getitem (setitem vars name values) name = Some values.
Proof.
  induction vars as [|[n v] vars IH]; simpl.
  - rewrite String.eqb_refl. reflexivity.
  - destruct (String.eqb n name) eqn:E; simpl; rewrite E; auto.
Qed.

Lemma getitem_setitem_ne vars name name' values :
  name <> name' ->
  getitem (setitem vars name values) name' = getitem vars name'.
Proof.
  intros Hne. induction vars as [|[n v] vars IH]; simpl.
  - destruct (String.eqb_spec name name'); [contradiction|reflexivity].
  - destruct (String.eqb_spec n name) as [->|Hn]; simpl.
    + destruct (String.eqb_spec name name'); [contradiction|reflexivity].
    + destruct (String.eqb n name'); auto.
Qed.

Lemma fits_saved d tv flags :
  fits d tv flags -> saved_consistent tv (with_flags d (qc_varname tv) flags).
Proof.
  intros (values & Hv & Hnan). exists values, flags. unfold with_flags. simpl.
  rewrite getitem_setitem_ne by apply qc_varname_neq.
  rewrite getitem_setitem_eq. auto.
Qed.

Lemma flagged_nan_missing values flags flag :
  flagged values flags flag -> nan_missing values flags.
Proof.
  intros [Hlen H]. split; [exact Hlen|].
  intros j x Hx Hnan. rewrite (H _ _ Hx), Hnan. reflexivity.
Qed.

Lemma initialize_flags_fits d tv idx pidx fl :
  initialize_flags d tv = Some (idx, pidx, fl) ->
  fits d tv fl /\ forall flag, fits d tv (np.set_idx fl idx flag).
Proof.
  intros H. destruct (initialize_flags_getitem _ _ _ H) as [values Hv].
  split; [|intros flag]; exists values; (split; [exact Hv|]).
  - eapply flagged_nan_missing, initialize_flags_spec; eauto.
  - eapply flagged_nan_missing, flagged_set_idx; eauto.
Qed.

Section Effects.

Variable valid_polygons_area : list (float * float) -> option float.
Variable ncfiles : list string.
Variable i : nat.
Variable tv : string.

Lemma pass_effect_silent {A} (o : Outcome A) s :
  trace (final_state o) = trace s ->
  skip (final_state o) = skip s ->
  (status (final_state o) = status s \/ status (final_state o) = 1%Z) ->
  f2skip (final_state o) = f2skip s ->
  pass_effect ncfiles i tv 0 s o.
Proof.
  intros Ht Hs Hst Hf. exists []. rewrite app_nil_r.
  repeat split; auto.
  intros k Hk. exists k. rewrite Hf. repeat split; auto. intros _ []; reflexivity.
Qed.

Lemma pass_effect_mono {A} (o : Outcome A) s n n' :
  n <= n' -> pass_effect ncfiles i tv n s o -> pass_effect ncfiles i tv n' s o.
Proof.
  intros Hn (new & ? & ? & ? & ? & ? & ?). exists new. repeat split; auto. lia.
Qed.

Lemma pass_effect_bind {A B} (m : M A) (k : A -> M B) s n1 n2 :
  pass_effect ncfiles i tv n1 s (m s) ->
  (forall a s1, m s = Ok a s1 -> pass_effect ncfiles i tv n2 s1 (k a s1)) ->
  pass_effect ncfiles i tv (n1 + n2) s ((m ≫= k) s).
Proof.
  intros H1 H2. rewrite bind_eq. destruct (m s) as [a s1|e s1] eqn:Hm.
  - destruct H1 as (new1 & Ht1 & Hs1 & Hst1 & Hf1 & Hc1 & Hk1).
    destruct (H2 a s1 eq_refl) as (new2 & Ht2 & Hs2 & Hst2 & Hf2 & Hc2 & Hk2).
    cbn [final_state] in *.
    exists (new1 ++ new2). split; [rewrite Ht2, Ht1, app_assoc; reflexivity|].
    split; [congruence|].
    split; [destruct Hst2 as [->|]; auto|].
    split; [apply Forall_app; auto|].
    split; [unfold second_saves in *; rewrite omap_app, length_app; lia|].
    intros k0 Hk0. destruct (Hk1 _ Hk0) as (k1 & Hf & Hle & Hpos).
    destruct (Hk2 _ Hf) as (k2 & Hf' & Hle' & Hpos').
    exists k2. split; [exact Hf'|]. split; [lia|].
    intros Hok Hcons. unfold consumed_paths in *. rewrite omap_app in Hcons.
    destruct (omap consumed_of new2) eqn:E2.
    + rewrite app_nil_r in Hcons. specialize (Hpos eq_refl Hcons). lia.
    + apply Hpos'; auto.
  - destruct H1 as (new1 & Ht1 & Hs1 & Hst1 & Hf1 & Hc1 & Hk1).
    cbn [final_state] in *.
    exists new1. do 4 (split; [assumption|]). split; [lia|].
    intros k0 Hk0. destruct (Hk1 _ Hk0) as (k1 & Hf & Hle & _).
    exists k1. repeat split; auto. discriminate.
Qed.

Ltac silent :=
  apply pass_effect_silent;
  first [reflexivity|left; reflexivity|right; reflexivity].

Lemma pass_effect_lift {A B} e (o : option A) (k : A -> M B) s n :
  (forall a, o = Some a -> pass_effect ncfiles i tv n s (k a s)) ->
  pass_effect ncfiles i tv n s ((lift e o ≫= k) s).
Proof.
  intros H. destruct o as [a|].
  - apply (H a eq_refl).
  - eapply pass_effect_mono; [|silent]. lia.
Qed.

(** Closes a goal [pass_effect] between two explicit states whose traces
    differ by the events [evs]. *)
Ltac effect_leaf evs :=
  unfold pass_effect; cbn [final_state trace skip f2skip is_ok];
  exists evs;
  split; [rewrite <- ?app_assoc, ?app_nil_r; reflexivity|];
  split; [reflexivity|];
  split; [first [left; reflexivity|right; reflexivity]|];
  split; [repeat (apply List.Forall_cons;
                    [cbn [pass_event]; auto 6 using fits_saved|]);
          apply List.Forall_nil|];
  split; [cbn; lia|];
  let k0 := fresh "k0" in
  let H := fresh "H" in
  intros k0 H;
  first [ discriminate H
        | try (injection H as <-);
          eexists; split; [first [reflexivity|eassumption]|];
          split; [lia|];
          let Hok := fresh "Hok" in
          intros Hok ?; first [discriminate Hok|lia|cbn in *; congruence] ].

Lemma save_pair_effect f2 fl fl2 s d d2 :
  ds s = Some d -> ds2 s = Some d2 ->
  fits d tv fl -> fits d2 tv fl2 ->
  ncfiles !! (i + 1) = Some f2 ->
  pass_effect ncfiles i tv 1 s (save_pair tv ncfiles i f2 fl fl2 s).
Proof.
  destruct_state s. intros -> -> Hfit Hfit2 Hf2.
  unfold save_pair, save_first, save_second, save_ds. run.
  destruct (ncfiles !! i) as [f|] eqn:Hf; run; [|effect_leaf (@nil Event)].
  destruct (np.contains 2 fl); run.
  - destruct (sm !! tv); run;
      [|effect_leaf [ESave DS f (qc_varname tv) (with_flags d (qc_varname tv) fl);
                     ESave DS2 f2 (qc_varname tv) (with_flags d2 (qc_varname tv) fl2)]].
    destruct fk; run;
      effect_leaf [ESave DS f (qc_varname tv) (with_flags d (qc_varname tv) fl);
                   ESave DS2 f2 (qc_varname tv) (with_flags d2 (qc_varname tv) fl2)].
  - destruct fk; run;
      effect_leaf [ESave DS f (qc_varname tv) (with_flags d (qc_varname tv) fl);
                   ESave DS2 f2 (qc_varname tv) (with_flags d2 (qc_varname tv) fl2)].
Qed.

Lemma leave_unknown_effect f2 fl fl2 s d d2 :
  ds s = Some d -> ds2 s = Some d2 ->
  fits d tv fl -> fits d2 tv fl2 ->
  ncfiles !! (i + 1) = Some f2 ->
  pass_effect ncfiles i tv 1 s (leave_unknown tv ncfiles i f2 fl fl2 s).
Proof.
  destruct_state s. intros -> -> Hfit Hfit2 Hf2.
  unfold leave_unknown, save_first, save_second, save_ds. run.
  destruct (ncfiles !! i) as [f|] eqn:Hf; run; [|effect_leaf (@nil Event)].
  destruct (sm !! tv); run;
    [|effect_leaf [ESave DS f (qc_varname tv) (with_flags d (qc_varname tv) fl);
                   ESave DS2 f2 (qc_varname tv) (with_flags d2 (qc_varname tv) fl2)]].
  destruct fk; run;
    effect_leaf [ESave DS f (qc_varname tv) (with_flags d (qc_varname tv) fl);
                 ESave DS2 f2 (qc_varname tv) (with_flags d2 (qc_varname tv) fl2)].
Qed.

Lemma leave_first_unknown_effect fl s d :
  ds s = Some d -> fits d tv fl ->
  pass_effect ncfiles i tv 0 s (leave_first_unknown tv ncfiles i fl s).
Proof.
  destruct_state s. intros -> Hfit.
  unfold leave_first_unknown, save_first, save_ds. run.
  destruct (ncfiles !! i) as [f|] eqn:Hf; run; [|effect_leaf (@nil Event)].
  destruct (sm !! tv); run;
    effect_leaf [ESave DS f (qc_varname tv) (with_flags d (qc_varname tv) fl)].
Qed.

Lemma hysteresis_flags_pass thr df pr dr idx idx2 fl fl2 s :
  pass_effect ncfiles i tv 0 s
    (hysteresis_flags valid_polygons_area tv thr df pr dr idx idx2 fl fl2 s).
Proof.
  destruct (hysteresis_flags_effect valid_polygons_area tv thr df pr dr
              idx idx2 fl fl2 s) as (poly & sm' & Hfin & Hpoly & _).
  exists poly. rewrite Hfin. cbn [trace skip f2skip status].
  split; [reflexivity|]. split; [reflexivity|]. split; [left; reflexivity|].
  split; [destruct Hpoly as [->|[pts ->]]; repeat constructor|].
  split; [destruct Hpoly as [->|[pts ->]]; cbn; lia|].
  intros k Hk. exists k. split; [exact Hk|]. split; [lia|].
  intros _ Hc. destruct Hpoly as [->|[pts ->]]; cbn in Hc; congruence.
Qed.

Lemma classify_pair_effect thr f2 c c2 idx idx2 pidx pidx2 fl fl2 s d d2 :
  ds s = Some d -> ds2 s = Some d2 ->
  initialize_flags d tv = Some (idx, pidx, fl) ->
  initialize_flags d2 tv = Some (idx2, pidx2, fl2) ->
  ncfiles !! (i + 1) = Some f2 ->
  pass_effect ncfiles i tv 1 s
    (classify_pair valid_polygons_area tv thr ncfiles i f2 c c2
       idx idx2 fl fl2 s).
Proof.
  intros Hd Hd2 Hi Hi2 Hf2. unfold classify_pair.
  rewrite (bind_ok _ _ s d s) by (unfold deref; rewrite Hd; reflexivity).
  rewrite (bind_ok _ _ s d2 s) by (unfold deref; rewrite Hd2; reflexivity).
  cbv zeta.
  apply pass_effect_lift. intros pr _.
  apply pass_effect_lift. intros dr _.
  apply (pass_effect_bind _ _ _ 0 1); [apply hysteresis_flags_pass|].
  intros flags s1 Hh.
  destruct (hysteresis_flags_effect valid_polygons_area tv thr
              (combined_table d d2 c c2) pr dr idx idx2 fl fl2 s)
    as (poly & sm' & Hfin & _ & _ & Hcase).
  rewrite Hh in Hfin, Hcase. cbn [final_state] in Hfin. subst s1.
  destruct (initialize_flags_fits _ _ _ _ _ Hi) as [Hfit Hfit'].
  destruct (initialize_flags_fits _ _ _ _ _ Hi2) as [Hfit2 Hfit2'].
  destruct Hcase as [(_ & -> & _)|(_ & flag & _ & ->)]; cbn [fst snd];
    eapply save_pair_effect; cbn [ds ds2]; eauto.
Qed.

Lemma down_up_effect thr f2 idx idx2 pidx pidx2 fl fl2 s d d2 :
  ds s = Some d -> ds2 s = Some d2 ->
  initialize_flags d tv = Some (idx, pidx, fl) ->
  initialize_flags d2 tv = Some (idx2, pidx2, fl2) ->
  ncfiles !! (i + 1) = Some f2 ->
  pass_effect ncfiles i tv 1 s
    (down_up valid_polygons_area tv thr ncfiles i f2 d d2 idx idx2 fl fl2 s).
Proof.
  intros Hd Hd2 Hi Hi2 Hf2. unfold down_up.
  destruct (initialize_flags_fits _ _ _ _ _ Hi) as [Hfit _].
  destruct (initialize_flags_fits _ _ _ _ _ Hi2) as [Hfit2 _].
  apply pass_effect_lift. intros t2 _.
  apply pass_effect_lift. intros t1 _.
  destruct (t2 - t1 <? five_minutes)%Z;
    [|eapply leave_unknown_effect; eauto].
  apply pass_effect_lift. intros c _.
  apply pass_effect_lift. intros c2 _.
  destruct ((0 <? np.count_non_nan c) && (0 <? np.count_non_nan c2));
    [eapply classify_pair_effect; eauto|eapply leave_unknown_effect; eauto].
Qed.

Lemma open_second_effect f2 s :
  ncfiles !! (i + 1) = Some f2 ->
  pass_effect ncfiles i tv 0 s (open_second f2 s) /\
  forall s1, open_second f2 s = Ok tt s1 -> ds s1 = ds s.
Proof.
  intros Hf2. destruct_state s. unfold open_second. run.
  destruct (files !! f2) as [d2|]; run.
  - split; [|intros s1 [= <-]; reflexivity].
    effect_leaf [EOpen false f2 (bool_decide (is_Some (Some d2)))].
  - destruct fk; run.
    + split; [|intros s1 [= <-]; reflexivity].
      effect_leaf [EOpen false f2 (bool_decide (is_Some (@None Dataset)))].
    + split; [|discriminate].
      effect_leaf [EOpen false f2 (bool_decide (is_Some (@None Dataset)))].
Qed.

Lemma set_status_effect s :
  pass_effect ncfiles i tv 0 s (set_status 1 s) /\
  forall s1, set_status 1 s = Ok tt s1 -> ds s1 = ds s /\ ds2 s1 = ds2 s.
Proof.
  split; [silent|].
  intros s1 [= <-]. split; reflexivity.
Qed.

Lemma second_profile_effect thr f2 idx pidx fl s1 d :
  ds s1 = Some d ->
  initialize_flags d tv = Some (idx, pidx, fl) ->
  ncfiles !! (i + 1) = Some f2 ->
  pass_effect ncfiles i tv 1 s1
    (second_profile valid_polygons_area tv thr ncfiles i f2 d idx fl s1).
Proof.
  intros Hd Hi Hf2. unfold second_profile.
  destruct (initialize_flags_fits _ _ _ _ _ Hi) as [Hfit _].
  rewrite bind_eq. unfold deref at 1.
  destruct (ds2 s1) as [d2|] eqn:Hd2; cbn [lift];
    [|eapply pass_effect_mono; [|silent]; lia].
  destruct (getitem (data_vars d2) tv).
  - apply pass_effect_lift. intros [[idx2 pidx2] fl2] Hi2.
    apply pass_effect_lift. intros [a b] _.
    destruct (second_orientation a b).
    + eapply pass_effect_mono; [|eapply leave_first_unknown_effect; eauto]. lia.
    + eapply down_up_effect; eauto.
  - destruct (set_status_effect s1) as [Hst Hst'].
    apply (pass_effect_bind _ _ _ 0 1); [exact Hst|].
    intros [] s2 Hs2. destruct (Hst' _ Hs2) as [Hds2 _].
    eapply pass_effect_mono; [|eapply leave_first_unknown_effect; eauto; congruence].
    lia.
Qed.

Lemma look_ahead_effect thr f2 idx pidx fl s d :
  ds s = Some d ->
  initialize_flags d tv = Some (idx, pidx, fl) ->
  ncfiles !! (i + 1) = Some f2 ->
  pass_effect ncfiles i tv 1 s
    (look_ahead valid_polygons_area tv thr ncfiles i f2 d idx fl s).
Proof.
  intros Hd Hi Hf2. unfold look_ahead.
  destruct (open_second_effect f2 s Hf2) as [Hopen Hds].
  apply (pass_effect_bind _ _ _ 0 1); [exact Hopen|].
  intros [] s1 Hs1. specialize (Hds _ Hs1). rewrite Hd in Hds.
  eapply second_profile_effect; eauto.
Qed.

(** Whatever the state, one pass of the body logs only events of the
    pass, among them at most one save as second profile. *)
Lemma test_variable_effect cfg s :
  pass_effect ncfiles i tv 1 s
    (test_variable valid_polygons_area cfg ncfiles i tv s).
Proof.
  unfold test_variable.
  apply pass_effect_lift. intros thr _.
  rewrite bind_eq. unfold deref at 1.
  destruct (ds s) as [d|] eqn:Hd; cbn [lift];
    [|eapply pass_effect_mono; [|silent]; lia].
  destruct (getitem (data_vars d) tv);
    [|eapply pass_effect_mono; [|apply set_status_effect]; lia].
  apply pass_effect_lift. intros [[idx pidx] fl] Hi.
  destruct (initialize_flags_fits _ _ _ _ _ Hi) as [Hfit _].
  destruct (length idx =? 0)%nat;
    [eapply pass_effect_mono; [|apply set_status_effect]; lia|].
  apply pass_effect_lift. intros [a b] _.
  destruct (first_orientation a b).
  - destruct (ncfiles !! (i + 1)) as [f2|] eqn:Hf2.
    + eapply look_ahead_effect; eauto.
    + eapply pass_effect_mono; [|eapply leave_first_unknown_effect; eauto]. lia.
  - eapply pass_effect_mono; [|eapply leave_first_unknown_effect; eauto]. lia.
Qed.

End Effects.

(** ** The effect of one iteration of the loop over the files *)

Lemma qc_varnames_differ :
  qc_varname "conductivity" <> qc_varname "temperature".
Proof. discriminate. Qed.

Lemma pass_event_second_saves ncfiles i tv new :
  Forall (pass_event ncfiles i tv) new ->
  forall key, key ∈ second_saves new ->
    ncfiles !! (i + 1) = Some (fst key) /\ snd key = qc_varname tv.
Proof.
  intros HF key Hin. apply list_elem_of_omap in Hin as (e & He & Hk).
  rewrite Forall_forall in HF. specialize (HF e He).
  destruct e as [| [] path v saved |]; try discriminate.
  injection Hk as <-. cbn in *. tauto.
Qed.

Lemma short_list_NoDup {A} (l : list A) : length l <= 1 -> NoDup l.
Proof.
  destruct l as [|x [|y l]]; simpl; intros H.
  - constructor.
  - apply NoDup_singleton.
  - lia.
Qed.

Section Iteration.

Variable valid_polygons_area : list (float * float) -> option float.
Variable cfg : Config.
Variable ncfiles : list string.

Lemma passes_effect i s0 k0 :
  f2skip s0 = Some k0 ->
  let o := for_each test_varnames
             (test_variable valid_polygons_area cfg ncfiles i) s0 in
  exists rest,
    trace (final_state o) = trace s0 ++ rest /\
    skip (final_state o) = skip s0 /\
    Forall (iteration_event ncfiles i) rest /\
    NoDup (second_saves rest) /\
    (is_ok o = true ->
     exists k', f2skip (final_state o) = Some k' /\
                (consumed_paths rest <> [] -> 0 < k')).
Proof.
  intros Hk0 o. subst o. cbn [for_each test_varnames].
  pose proof (test_variable_effect valid_polygons_area ncfiles i "conductivity"
                cfg s0) as (new1 & Ht1 & Hs1 & _ & HF1 & Hc1 & Hk1).
  destruct (Hk1 _ Hk0) as (k1 & Hf1 & Hle1 & Hpos1).
  assert (Hev : forall tv new, tv ∈ test_varnames ->
            Forall (pass_event ncfiles i tv) new ->
            Forall (iteration_event ncfiles i) new).
  { intros tv new Hin HF. eapply Forall_impl; [exact HF|].
    intros e He. exists tv. auto. }
  assert (Hin1 : "conductivity" ∈ test_varnames) by (left).
  assert (Hin2 : "temperature" ∈ test_varnames) by (right; left).
  rewrite bind_eq.
  destruct (test_variable valid_polygons_area cfg ncfiles i "conductivity" s0)
    as [[] s1|e s1]; cbn [final_state is_ok] in *.
  - pose proof (test_variable_effect valid_polygons_area ncfiles i "temperature"
                  cfg s1) as (new2 & Ht2 & Hs2 & _ & HF2 & Hc2 & Hk2).
    destruct (Hk2 _ Hf1) as (k2 & Hf2 & Hle2 & Hpos2).
    rewrite bind_eq.
    assert (Hfin : final_state
              (match test_variable valid_polygons_area cfg ncfiles i
                       "temperature" s1 with
               | Ok a s' => ret tt s'
               | Raise e s' => Raise e s'
               end)
            = final_state (test_variable valid_polygons_area cfg ncfiles i
                             "temperature" s1))
      by (destruct (test_variable _ _ _ _ "temperature" s1); reflexivity).
    assert (Hok : is_ok
              (match test_variable valid_polygons_area cfg ncfiles i
                       "temperature" s1 with
               | Ok a s' => ret tt s'
               | Raise e s' => Raise e s'
               end)
            = is_ok (test_variable valid_polygons_area cfg ncfiles i
                             "temperature" s1))
      by (destruct (test_variable _ _ _ _ "temperature" s1); reflexivity).
    change (mret tt) with (ret tt). rewrite Hfin, Hok.
    exists (new1 ++ new2).
    split; [rewrite Ht2, Ht1, app_assoc; reflexivity|].
    split; [congruence|].
    split; [apply Forall_app; eauto|].
    split.
    { unfold second_saves. rewrite omap_app. apply NoDup_app.
      split; [apply short_list_NoDup, Hc1|].
      split; [|apply short_list_NoDup, Hc2].
      intros key Hk Hk'.
      apply (pass_event_second_saves _ _ _ _ HF1) in Hk as [_ Hv1].
      apply (pass_event_second_saves _ _ _ _ HF2) in Hk' as [_ Hv2].
      apply qc_varnames_differ. congruence. }
    intros Hok2. exists k2. split; [exact Hf2|].
    intros Hcons. unfold consumed_paths in Hcons. rewrite omap_app in Hcons.
    destruct (omap consumed_of new2) eqn:E2.
    + rewrite app_nil_r in Hcons. specialize (Hpos1 eq_refl Hcons). lia.
    + apply Hpos2; [exact Hok2|]. unfold consumed_paths. rewrite E2. discriminate.
  - exists new1. split; [exact Ht1|]. split; [exact Hs1|].
    split; [eauto|]. split; [apply short_list_NoDup, Hc1|]. discriminate.
Qed.

Lemma file_iteration_effect k s :
  iteration_effect ncfiles k s
    (file_iteration valid_polygons_area cfg ncfiles k s).
Proof.
  unfold iteration_effect, file_iteration.
  set (skip' := if marked_consumed s then skip s + 1 else skip s).
  assert (Hi : k + skip' = next_index k s)
    by (unfold next_index, skip'; destruct (marked_consumed s); lia).
  rewrite Hi. set (i := next_index k s) in *.
  rewrite (bind_ok _ _ s tt
             (mkState (status s) skip' (f2skip s) (ds s) (ds2 s) (summary s)
                      (fs s) (trace s))) by reflexivity.
  assert (Hnext : forall s', skip s' = skip' -> f2skip s' = f2skip s ->
            i + 1 <= next_index (S k) s').
  { intros s' Hs Hf. unfold next_index, marked_consumed. rewrite Hs, Hf.
    subst i. unfold next_index, marked_consumed, skip'.
    unfold marked_consumed.
    destruct (f2skip s) as [n|]; [destruct (0 <? n)|]; lia. }
  destruct (ncfiles !! i) as [path|] eqn:Hpath.
  - unfold open_dataset. run.
    destruct (fs s !! path) as [d|] eqn:Hd; run.
    + pose proof (passes_effect i
                    (mkState (status s) skip' (Some 0) (Some d) (ds2 s)
                       (summary s) (fs s)
                       (trace s ++ [EOpen true path (bool_decide (is_Some (Some d)))]))
                    0 eq_refl) as (rest & Ht & Hs & HF & Hnd & Hok).
      cbn [trace skip] in Ht, Hs.
      exists (EOpen true path (bool_decide (is_Some (Some d))) :: rest).
      split; [rewrite Ht, <- app_assoc; reflexivity|].
      split; [right; eauto 10|].
      intros Hisok. destruct (Hok Hisok) as (k' & Hf & Hpos).
      assert (Hnx : next_index (S k) (final_state
                (for_each test_varnames
                   (test_variable valid_polygons_area cfg ncfiles i)
                   (mkState (status s) skip' (Some 0) (Some d) (ds2 s)
                      (summary s) (fs s)
                      (trace s ++
                         [EOpen true path (bool_decide (is_Some (Some d)))]))))
              = i + 1 + (if 0 <? k' then 1 else 0)).
      { unfold next_index at 1, marked_consumed. rewrite Hs, Hf. lia. }
      rewrite Hnx. split; [lia|].
      intros Hcons. cbn in Hcons.
      assert (0 < k') as ->%Nat.ltb_lt by (apply Hpos; exact Hcons). lia.
    + exists [EOpen true path (bool_decide (is_Some (@None Dataset)))].
      cbn [final_state trace]. split; [reflexivity|].
      split; [right; exists path; eexists; exists []; repeat split; auto;
              constructor|].
      intros _. split; [apply Hnext; reflexivity|]. cbn. congruence.
  - run. exists []. rewrite app_nil_r. cbn [final_state trace].
    split; [reflexivity|]. split; [left; reflexivity|].
    intros _. split; [apply Hnext; reflexivity|]. cbn. congruence.
Qed.

End Iteration.

(** ** Traces of a whole run *)

Lemma primary_paths_app t t' :
  primary_paths (t ++ t') = primary_paths t ++ primary_paths t'.
Proof. apply omap_app. Qed.

Lemma consumed_paths_app t t' :
  consumed_paths (t ++ t') = consumed_paths t ++ consumed_paths t'.
Proof. apply omap_app. Qed.

Lemma second_saves_app t t' :
  second_saves (t ++ t') = second_saves t ++ second_saves t'.
Proof. apply omap_app. Qed.

Lemma never_primary_after_app t t' :
  never_primary_after (t ++ t') <->
  never_primary_after t /\ never_primary_after t' /\
  (forall path, path ∈ consumed_paths t -> path ∉ primary_paths t').
Proof.
  induction t as [|e t IH]; simpl.
  - split; [intros H; repeat split; auto; intros p Hp; inversion Hp|tauto].
  - rewrite IH, primary_paths_app. split.
    + intros (He & Ht & Ht' & Hcross). repeat split; auto.
      * intros p Hp Hin. apply (He p Hp). apply elem_of_app. auto.
      * intros p Hp. unfold consumed_paths in Hp. simpl in Hp.
        destruct (consumed_of e) as [q|] eqn:Hq; [|auto].
        apply elem_of_cons in Hp as [->|Hp]; [|auto].
        intros Hin. apply (He q eq_refl). apply elem_of_app. auto.
    + intros ((He & Ht) & Ht' & Hcross). repeat split; auto.
      * intros p Hp Hin. apply elem_of_app in Hin as [Hin|Hin].
        -- exact (He p Hp Hin).
        -- apply (Hcross p); [|exact Hin]. unfold consumed_paths. simpl.
           rewrite Hp. left.
      * intros p Hp. apply Hcross. unfold consumed_paths. simpl.
        destruct (consumed_of e); [right|]; exact Hp.
Qed.

Lemma never_primary_after_split t1 e t2 path :
  never_primary_after (t1 ++ e :: t2) ->
  consumed_of e = Some path ->
  forall ok, EOpen true path ok ∉ t2.
Proof.
  intros H He ok Hin.
  apply never_primary_after_app in H as (_ & [H _] & _).
  apply (H path He). apply list_elem_of_omap. exists (EOpen true path ok). auto.
Qed.

Lemma no_primary_paths t :
  Forall (fun e => primary_of e = None) t ->
  primary_paths t = [] /\ never_primary_after t.
Proof.
  induction 1 as [|e t He Ht [IH1 IH2]]; simpl; [auto|].
  unfold primary_paths in *. simpl. rewrite He, IH1.
  repeat split; auto. intros p _ Hin. inversion Hin.
Qed.

Lemma second_saves_consumed t key :
  key ∈ second_saves t -> fst key ∈ consumed_paths t.
Proof.
  intros (e & He & Hk)%list_elem_of_omap. apply list_elem_of_omap.
  exists e. split; [exact He|].
  destruct e as [| [] path v saved |]; try discriminate.
  injection Hk as <-. reflexivity.
Qed.

Section Run.

Variable valid_polygons_area : list (float * float) -> option float.
Variable cfg : Config.
Variable ncfiles : list string.

Lemma iteration_event_run i e : iteration_event ncfiles i e -> run_event e.
Proof.
  intros (tv & Hin & He). destruct e as [| r path v saved |]; cbn; auto.
  exists tv. destruct r; cbn in He; tauto.
Qed.

Lemma iteration_event_primary i e :
  iteration_event ncfiles i e -> primary_of e = None.
Proof.
  intros (tv & _ & He). destruct e as [[] path ok| |]; cbn in *; auto.
  destruct He; discriminate.
Qed.

Lemma iteration_event_consumed i e path :
  iteration_event ncfiles i e -> consumed_of e = Some path ->
  ncfiles !! (i + 1) = Some path.
Proof.
  intros (tv & _ & He) Hc.
  destruct e as [[] p []| [] p v saved |]; cbn in *; try discriminate;
    injection Hc as <-; tauto.
Qed.

Lemma file_iteration_run_events k s :
  Forall run_event (trace s) ->
  Forall run_event
    (trace (final_state (file_iteration valid_polygons_area cfg ncfiles k s))).
Proof.
  intros H.
  destruct (file_iteration_effect valid_polygons_area cfg ncfiles k s)
    as (new & -> & Hshape & _).
  apply Forall_app. split; [exact H|].
  destruct Hshape as [->|(path & ok & rest & _ & -> & HF & _)]; [constructor|].
  constructor; [exact I|].
  eapply Forall_impl; [exact HF|]. intros e. apply iteration_event_run.
Qed.

Lemma file_iteration_step k s :
  NoDup ncfiles ->
  files_invariant ncfiles k s ->
  let o := file_iteration valid_polygons_area cfg ncfiles k s in
  good_trace (trace (final_state o)) /\
  (is_ok o = true -> files_invariant ncfiles (S k) (final_state o)).
Proof.
  intros Hnd (Hidx & Hss & Hpp & Hnever) o. subst o.
  destruct (file_iteration_effect valid_polygons_area cfg ncfiles k s)
    as (new & Ht & Hshape & Hok).
  set (o := file_iteration valid_polygons_area cfg ncfiles k s) in *.
  set (i := next_index k s) in *.
  destruct Hshape as [->|(path & ok & rest & Hpath & -> & HF & Hndr)].
  - rewrite app_nil_r in Ht. rewrite Ht.
    split; [repeat split; auto|].
    intros Hisok. destruct (Hok Hisok) as [Hle _].
    unfold files_invariant. rewrite Ht.
    repeat split; auto.
    intros p Hp. destruct (Hidx p Hp) as (j & Hj & Hjp). exists j. split; [lia|auto].
  - assert (HFp : Forall (fun e => primary_of e = None) rest)
      by (eapply Forall_impl; [exact HF|]; intros e; apply iteration_event_primary).
    destruct (no_primary_paths _ HFp) as [Hprest Hnrest].
    assert (Hold : forall p, p ∈ consumed_paths (trace s) ++ primary_paths (trace s) ->
              p <> path).
    { intros p Hp ->. destruct (Hidx _ Hp) as (j & Hj & Hjp).
      pose proof (NoDup_lookup _ _ _ _ Hnd Hjp Hpath). lia. }
    assert (Hnew : forall p, p ∈ consumed_paths rest -> ncfiles !! (i + 1) = Some p).
    { intros p (e & He & Hc)%list_elem_of_omap.
      rewrite Forall_forall in HF. eapply iteration_event_consumed; eauto. }
    assert (Ep : primary_paths (EOpen true path ok :: rest) = [path])
      by (rewrite <- Hprest; reflexivity).
    assert (Ec : consumed_paths (EOpen true path ok :: rest) = consumed_paths rest)
      by reflexivity.
    assert (Es : second_saves (EOpen true path ok :: rest) = second_saves rest)
      by reflexivity.
    assert (Hgood : good_trace (trace (final_state o))).
    { rewrite Ht. split; [|split].
      - rewrite second_saves_app, Es.
        apply NoDup_app. split; [exact Hss|]. split; [|exact Hndr].
        intros key Hk Hk'.
        apply second_saves_consumed in Hk, Hk'.
        apply Hnew in Hk'.
        destruct (Hidx (fst key)) as (j & Hj & Hjp); [apply elem_of_app; auto|].
        pose proof (NoDup_lookup _ _ _ _ Hnd Hjp Hk'). lia.
      - rewrite primary_paths_app, Ep.
        apply NoDup_app. split; [exact Hpp|].
        split; [|apply NoDup_singleton].
        intros p Hp ->%list_elem_of_singleton.
        apply (Hold path); [apply elem_of_app; auto|reflexivity].
      - apply never_primary_after_app. split; [exact Hnever|]. split.
        + cbn. split; [discriminate|exact Hnrest].
        + intros p Hp. rewrite Ep.
          intros ->%list_elem_of_singleton.
          apply (Hold path); [apply elem_of_app; auto|reflexivity]. }
    split; [exact Hgood|].
    intros Hisok. destruct (Hok Hisok) as [Hle Hle2].
    destruct Hgood as (G1 & G2 & G3).
    split; [|repeat split; auto].
    intros p Hp. rewrite Ht, consumed_paths_app, primary_paths_app, Ep, Ec in Hp.
    rewrite !elem_of_app in Hp.
    destruct Hp as [[Hp|Hp]|[Hp|Hp]].
    + destruct (Hidx p) as (j & Hj & Hjp); [apply elem_of_app; auto|].
      exists j. split; [lia|auto].
    + exists (i + 1). split; [|apply Hnew, Hp].
      assert (consumed_paths (EOpen true path ok :: rest) <> []).
      { rewrite Ec. intros E. rewrite E in Hp. inversion Hp. }
      specialize (Hle2 H). lia.
    + destruct (Hidx p) as (j & Hj & Hjp); [apply elem_of_app; auto|].
      exists j. split; [lia|auto].
    + apply list_elem_of_singleton in Hp as ->. exists i. split; [lia|auto].
Qed.

Lemma files_loop n :
  NoDup ncfiles ->
  forall k s,
    files_invariant ncfiles k s ->
    good_trace
      (trace (final_state
                (for_each (seq k n)
                   (file_iteration valid_polygons_area cfg ncfiles) s))).
Proof.
  intros Hnd. induction n as [|n IH]; intros k s Hinv; cbn [seq for_each].
  - destruct Hinv as (_ & ? & ? & ?). repeat split; auto.
  - destruct (file_iteration_step k s Hnd Hinv) as [Hgood Hnext].
    rewrite bind_eq.
    destruct (file_iteration valid_polygons_area cfg ncfiles k s) as [[] s'|e s'].
    + apply IH. apply Hnext. reflexivity.
    + exact Hgood.
Qed.

Lemma files_loop_run_events l :
  forall s,
    Forall run_event (trace s) ->
    Forall run_event
      (trace (final_state
                (for_each l (file_iteration valid_polygons_area cfg ncfiles) s))).
Proof.
  induction l as [|k l IH]; intros s H; cbn [for_each]; [exact H|].
  pose proof (file_iteration_run_events k s H) as H'.
  rewrite bind_eq.
  destruct (file_iteration valid_polygons_area cfg ncfiles k s) as [[] s'|e s'];
    [apply IH|]; exact H'.
Qed.

End Run.

Lemma deployment_iteration_run_events area env dep s :
  Forall run_event (trace s) ->
  Forall run_event (trace (final_state (deployment_iteration area env dep s))).
Proof.
  intros H. unfold deployment_iteration.
  destruct (negb (data_path_found dep)); [exact H|].
  destruct (negb (proc_logs_isdir dep)); [exact H|].
  destruct (match deployment_config dep with
            | Some c => Some c
            | None => default_config env
            end) as [config_dict|]; [|exact H].
  destruct (length (ncfiles dep) =? 0)%nat; [exact H|].
  run. apply files_loop_run_events. exact H.
Qed.

Lemma main_run_events area env deployments s :
  Forall run_event (trace s) ->
  Forall run_event (trace (final_state (main area env deployments s))).
Proof.
  intros H. unfold main, process_deployments. run.
  destruct (deployments_root_is_str env); [|exact H].
  destruct (negb (qc_config_root_isdir env)); [exact H|].
  assert (Hloop : forall l s0, Forall run_event (trace s0) ->
            Forall run_event
              (trace (final_state (for_each l (deployment_iteration area env) s0)))).
  { induction l as [|dep l IH]; intros s0 H0; cbn [for_each]; [exact H0|].
    pose proof (deployment_iteration_run_events area env dep s0 H0) as H'.
    rewrite bind_eq.
    destruct (deployment_iteration area env dep s0) as [[] s'|e s'];
      [apply IH|]; exact H'. }
  specialize (Hloop deployments
                (mkState 0 (skip s) (f2skip s) (ds s) (ds2 s) (summary s) (fs s)
                         (trace s)) H).
  destruct (for_each deployments (deployment_iteration area env) _) as [[] s'|e s'];
    exact Hloop.
Qed.

(** C7: in a run of [main], every flag array that is saved holds MISSING
    (9) at every index at which the measurement of its sensor is NaN,
    whatever the outcome of the pairing. *)
Theorem saved_flags_missing_at_nan
    (valid_polygons_area : list (float * float) -> option float)
    env deployments files r save_file variable_name saved :
  ESave r save_file variable_name saved
    ∈ trace (final_state (main valid_polygons_area env deployments
                            (initial_state files))) ->
  exists testvar values flags,
    testvar ∈ test_varnames /\
    variable_name = qc_varname testvar /\
    getitem (data_vars saved) testvar = Some values /\
    getitem (data_vars saved) variable_name = Some flags /\
    length flags = length values /\
    forall j x, values !! j = Some x -> np.isnan x = true ->
      flags !! j = Some QartodFlags.MISSING.
Proof.
  intros Hin.
  pose proof (main_run_events valid_polygons_area env deployments
                (initial_state files) (List.Forall_nil _)) as H.
  rewrite Forall_forall in H. specialize (H _ Hin).
  destruct H as (tv & Htv & -> & values & flags & Hv & Hf & Hlen & Hnan).
  exists tv, values, flags. repeat split; auto.
Qed.

(** C3 (as amended): over the file list of one deployment, no file is
    saved twice as the second profile of a pair for one flag variable, no
    file is opened twice as the first of an iteration, a file saved as second
    is never opened as first afterwards, and neither is a file whose read as
    the lookahead failed: the failure marks it as consumed. *)
Theorem consumed_files_not_reopened
    (valid_polygons_area : list (float * float) -> option float)
    env deployment s :
  NoDup (ncfiles deployment) ->
  trace s = [] ->
  let t := trace (final_state
                    (deployment_iteration valid_polygons_area env deployment s)) in
  NoDup (second_saves t) /\
  NoDup (primary_paths t) /\
  (forall t1 t2 path variable_name saved,
     t = t1 ++ ESave DS2 path variable_name saved :: t2 ->
     forall ok, EOpen true path ok ∉ t2) /\
  (forall t1 t2 path,
     t = t1 ++ EOpen false path false :: t2 ->
     forall ok, EOpen true path ok ∉ t2).
Proof.
  intros Hnd Htr t.
  assert (Hgood : good_trace t).
  { subst t. unfold deployment_iteration.
    assert (Hnil : good_trace (trace s))
      by (rewrite Htr; repeat split; constructor).
    destruct (negb (data_path_found deployment)); [exact Hnil|].
    destruct (negb (proc_logs_isdir deployment)); [exact Hnil|].
    destruct (match deployment_config deployment with
              | Some c => Some c
              | None => default_config env
              end) as [config_dict|]; [|exact Hnil].
    destruct (length (ncfiles deployment) =? 0)%nat; [exact Hnil|].
    run. apply files_loop; [exact Hnd|].
    unfold files_invariant. cbn [trace]. rewrite Htr.
    repeat split; try constructor.
    intros p Hp. inversion Hp. }
  destruct Hgood as (H1 & H2 & H3).
  split; [exact H1|]. split; [exact H2|]. split.
  - intros t1 t2 path v saved E. rewrite E in H3.
    eapply never_primary_after_split; [exact H3|reflexivity].
  - intros t1 t2 path E. rewrite E in H3.
    eapply never_primary_after_split; [exact H3|reflexivity].
Qed.

(** ** A lookahead file that cannot be read *)

(** One pass whose lookahead read fails, whether it then returns or
    raises: the status is 1, [f2skip] is positive, and the failed read is the
    first event of the pass. *)
Lemma lookahead_failure_pass
    (valid_polygons_area : list (float * float) -> option float)
    (cfg : Config) ncfiles i tv s (thr : Thresholds) d f2 k :
  cfg !! qc_varname tv = Some thr ->
  ds s = Some d ->
  primary_down tv d = true ->
  ncfiles !! (i + 1) = Some f2 ->
  fs s !! f2 = None ->
  f2skip s = Some k ->
  let s' := final_state (test_variable valid_polygons_area cfg ncfiles i tv s) in
  status s' = 1%Z /\
  marked_consumed s' = true /\
  (exists rest, trace s' = trace s ++ EOpen false f2 false :: rest) /\
  (forall k0, k0 + skip s = i -> next_index (S k0) s' = i + 2).
Proof.
  intros Hthr Hd Hdown Hf2 Hfs Hk s'.
  unfold primary_down, data_idx_of, orientation_as_first in Hdown.
  apply andb_prop in Hdown as [Hdata Hor].
  destruct (initialize_flags d tv) as [[[idx pidx] fl]|] eqn:Hi; [|discriminate].
  destruct (initialize_flags_getitem _ _ _ Hi) as [values Hv].
  pose proof (initialize_flags_pressure _ _ _ _ _ Hi) as ->.
  destruct (endpoints d (press_non_nan_ind d)) as [[a b]|] eqn:He; [|discriminate].
  destruct (first_orientation a b) eqn:Ho; [|discriminate].
  set (s1 := mkState 1 (skip s) (Some (k + 1)) (ds s) (ds2 s) (summary s) (fs s)
               (trace s ++ [EOpen false f2 false])).
  assert (Hrun : test_variable valid_polygons_area cfg ncfiles i tv s
                 = second_profile valid_polygons_area tv thr ncfiles i f2 d idx fl s1).
  { subst s1. destruct_state s. subst dx fk.
    unfold test_variable. run. rewrite Hthr. run. rewrite Hv, Hi. run.
    destruct (length idx =? 0)%nat; [discriminate|].
    rewrite He. run. rewrite Ho, Hf2. unfold look_ahead, open_second. run.
    rewrite Hfs. run. reflexivity. }
  destruct (second_profile_effect valid_polygons_area ncfiles i tv thr f2 idx
              (press_non_nan_ind d) fl s1 d Hd Hi Hf2)
    as (new & Ht & Hs & Hst & _ & _ & Hf).
  destruct (Hf (k + 1) eq_refl) as (k' & Hk' & Hle & _).
  subst s'. rewrite Hrun.
  assert (Hm : marked_consumed
                 (final_state
                    (second_profile valid_polygons_area tv thr ncfiles i f2 d idx fl s1))
               = true).
  { unfold marked_consumed. rewrite Hk'. apply Nat.ltb_lt. lia. }
  split; [destruct Hst as [->|]; auto|].
  split; [exact Hm|]. split.
  - exists new. rewrite Ht. cbn [trace s1]. rewrite <- app_assoc. reflexivity.
  - intros k0 <-. unfold next_index. rewrite Hm, Hs. cbn [skip s1]. lia.
Qed.

(** ** Orientation of a profile *)

Lemma take_where_from pre l :
  np.take (pre ++ l)
    (np.where_from (length pre) (np.invert (map np.isnan l)))
  = filter (fun p => negb (np.isnan p) = true) l.
Proof.
  revert pre. induction l as [|x l IH]; intros pre; [reflexivity|].
  specialize (IH (pre ++ [x])).
  rewrite <- app_assoc in IH. cbn [app] in IH.
  rewrite List.length_app in IH. cbn [length] in IH.
  replace (length pre + 1) with (S (length pre)) in IH by lia.
  cbn [map np.invert np.where_from]. rewrite filter_cons.
  destruct (negb (np.isnan x)) eqn:Hx.
  - destruct (decide (true = true)) as [_|]; [|congruence].
    unfold np.take in *. cbn [omap list_omap].
    rewrite lookup_app_r by lia. rewrite Nat.sub_diag. cbn [lookup list_lookup].
    f_equal. exact IH.
  - destruct (decide (false = true)) as [|_]; [discriminate|]. exact IH.
Qed.

Lemma take_valid_pressures d :
  np.take (pressure d) (press_non_nan_ind d) = valid_pressures d.
Proof. apply (take_where_from [] (pressure d)). Qed.

(** C6 (as amended): for a profile with at least two valid pressure
    samples, the profile read as the first of an iteration is UP exactly
    when its first valid pressure is greater than its last one, and DOWN in
    every other case, so that equal first and last valid pressures make it
    DOWN; the profile read as the second is DOWN exactly when its first valid
    pressure is less than its last one, and UP in every other case, so that
    equal first and last valid pressures make it UP. *)
Theorem orientation_by_endpoints d :
  2 <= length (valid_pressures d) ->
  exists a b,
    head (valid_pressures d) = Some a /\
    last (valid_pressures d) = Some b /\
    (orientation_as_first d = Some UP <-> PrimFloat.ltb b a = true) /\
    (orientation_as_first d = Some DOWN <-> PrimFloat.ltb b a = false) /\
    (orientation_as_second d = Some DOWN <-> PrimFloat.ltb a b = true) /\
    (orientation_as_second d = Some UP <-> PrimFloat.ltb a b = false) /\
    (PrimFloat.eqb a b = true ->
     orientation_as_first d = Some DOWN /\ orientation_as_second d = Some UP).
Proof.
  intros Hlen.
  unfold orientation_as_first, orientation_as_second, endpoints.
  rewrite take_valid_pressures.
  destruct (valid_pressures d) as [|a l] eqn:E; [simpl in Hlen; lia|].
  destruct (last (a :: l)) as [b|] eqn:Hb;
    [|apply last_None in Hb; discriminate].
  exists a, b. cbn [head]. split; [reflexivity|]. split; [reflexivity|].
  unfold first_orientation, second_orientation.
  assert (Heq : PrimFloat.eqb a b = true ->
                PrimFloat.ltb b a = false /\ PrimFloat.ltb a b = false).
  { intros H. split; [apply eqb_true_ltb_false; exact H|].
    apply eqb_true_ltb_false.
    rewrite FloatAxioms.eqb_spec in *. unfold SFeqb in *.
    rewrite (SFcompare_antisym (Prim2SF a) (Prim2SF b)).
    destruct (SFcompare (Prim2SF a) (Prim2SF b)) as [[]|]; simpl; congruence. }
  destruct (PrimFloat.ltb b a) eqn:H1, (PrimFloat.ltb a b) eqn:H2;
    repeat split; try congruence;
    match goal with
    | Hq : PrimFloat.eqb a b = true |- _ => destruct (Heq Hq); congruence
    end.
Qed.

(** ** The polygon of a tested pair *)

Lemma hysteresis_flags_polygon area tv (thr : Thresholds) df pr dr idx idx2 fl fl2 s1
    tt' pts :
  PrimFloat.ltb 5 pr = true ->
  thr !! "test_threshold" = Some tt' ->
  PrimFloat.ltb tt' dr = true ->
  polygon_points_of df = Some pts ->
  exists sm',
    final_state (hysteresis_flags area tv thr df pr dr idx idx2 fl fl2 s1)
    = mkState (status s1) (skip s1) (f2skip s1) (ds s1) (ds2 s1) sm' (fs s1)
              (trace s1 ++ [EPolygon pts]).
Proof.
  intros Hp Htt Ht Hpts. destruct_state s1. unfold hysteresis_flags.
  rewrite Hp. run. rewrite Htt. run. rewrite Ht, Hpts. run.
  destruct (area pts) as [total|]; run; [|eexists; reflexivity].
  destruct (thr !! "fail_threshold") as [ft|]; run; [|eexists; reflexivity].
  destruct (PrimFloat.ltb (dr * ft) (total / pr)); run.
  - destruct (sm !! tv); run; eexists; reflexivity.
  - destruct (thr !! "suspect_threshold") as [st'|]; run; [|eexists; reflexivity].
    destruct (PrimFloat.ltb (dr * st') (total / pr)); run; [|eexists; reflexivity].
    destruct (sm !! tv); run; eexists; reflexivity.
Qed.

Lemma save_pair_trace tv ncfiles i f2 fl fl2 s :
  exists more,
    trace (final_state (save_pair tv ncfiles i f2 fl fl2 s)) = trace s ++ more.
Proof.
  destruct_state s. unfold save_pair, save_first, save_second, save_ds. run.
  assert (Hnil : tr = tr ++ []) by (rewrite app_nil_r; reflexivity).
  destruct (ncfiles !! i); run; [|eexists; exact Hnil].
  destruct dx; run; [|eexists; exact Hnil].
  destruct d2x; run; [|eexists; reflexivity].
  destruct (np.contains 2 fl); run.
  - destruct (sm !! tv); run; [|eexists; rewrite <- app_assoc; reflexivity].
    destruct fk; run; eexists; rewrite <- app_assoc; reflexivity.
  - destruct fk; run; eexists; rewrite <- app_assoc; reflexivity.
Qed.

(** C8 (as amended): in the test of a validated pair, the negative
    pressures are clamped to 0 in a copy of the pressure column, from which
    pressure_range is computed; the polygon is built from the rows of the
    combined table itself, with the pressures as they are, the first row
    repeated at the end. *)
Theorem polygon_from_table_rows
    (valid_polygons_area : list (float * float) -> option float)
    cfg ncfiles i tv s thr d d2 f f2 pr dr test_threshold :
  pair_context cfg ncfiles i tv s thr d d2 f f2 ->
  pressure_range_of (pair_table tv d d2) = Some pr ->
  data_range_of (pair_table tv d d2) = Some dr ->
  thr !! "test_threshold" = Some test_threshold ->
  PrimFloat.ltb 5 pr = true ->
  PrimFloat.ltb test_threshold dr = true ->
  exists r rest hi lo more,
    pair_table tv d d2 = r :: rest /\
    np.nanmax (clamp_negative (map snd (pair_table tv d d2))) = Some hi /\
    np.nanmin (clamp_negative (map snd (pair_table tv d d2))) = Some lo /\
    pr = (hi - lo)%float /\
    trace (final_state (test_variable valid_polygons_area cfg ncfiles i tv s))
    = trace s ++ EOpen false f2 true
                 :: EPolygon (pair_table tv d d2 ++ [r]) :: more.
Proof.
  intros Hctx Hpr Hdr Htt Hp Ht.
  destruct (pair_table tv d d2) as [|r rest] eqn:Htab; [discriminate Hpr|].
  rewrite <- Htab in *.
  assert (Hpts : polygon_points_of (pair_table tv d d2)
                 = Some (pair_table tv d d2 ++ [r]))
    by (rewrite Htab; reflexivity).
  assert (Hrange : exists hi lo,
             np.nanmax (clamp_negative (map snd (pair_table tv d d2))) = Some hi /\
             np.nanmin (clamp_negative (map snd (pair_table tv d d2))) = Some lo /\
             pr = (hi - lo)%float).
  { unfold pressure_range_of in Hpr.
    destruct (np.nanmax _) as [hi|]; [|discriminate].
    destruct (np.nanmin _) as [lo|]; [|discriminate].
    injection Hpr as <-. eauto. }
  destruct Hrange as (hi & lo & Hhi & Hlo & Hprv).
  exists r, rest, hi, lo.
  rewrite (pair_reduce valid_polygons_area _ _ _ _ _ _ _ _ _ _ _ _ Hctx Hpr Hdr),
    bind_eq.
  destruct (hysteresis_flags_polygon valid_polygons_area tv thr
              (pair_table tv d d2) pr dr (data_idx_of d tv) (data_idx_of d2 tv)
              (flag_vals_of d tv) (flag_vals_of d2 tv) (opened s f2 d2)
              test_threshold _ Hp Htt Ht Hpts) as [sm' Hfin].
  destruct (hysteresis_flags _ _ _ _ _ _ _ _ _ _ _) as [flags sh|e sh];
    cbn [final_state] in Hfin; subst sh.
  - destruct (save_pair_trace tv ncfiles i f2 (fst flags) (snd flags)
                (mkState (status (opened s f2 d2)) (skip (opened s f2 d2))
                   (f2skip (opened s f2 d2)) (ds (opened s f2 d2))
                   (ds2 (opened s f2 d2)) sm' (fs (opened s f2 d2))
                   (trace (opened s f2 d2)
                      ++ [EPolygon (pair_table tv d d2 ++ [r])])))
      as [more Hmore].
    exists more. repeat split; auto.
    rewrite Hmore. cbn [trace opened]. rewrite <- !app_assoc. reflexivity.
  - exists []. repeat split; auto.
    cbn [final_state trace opened]. rewrite <- !app_assoc. reflexivity.
Qed.

(** * Instances on a small deployment *)

Lemma example_pair_context :
  pair_context Example.config ["a.nc"; "b.nc"] 0 "conductivity"
    (Example.first_read Example.down_cast Example.files) Example.thresholds
    Example.down_cast Example.up_cast "a.nc" "b.nc".
Proof.
  constructor; try reflexivity; vm_compute; eauto.
Defined.

Lemma pair_flag_by_thresholds_witness :
  exists s' flags flags2,
    test_variable Example.area Example.config ["a.nc"; "b.nc"] 0 "conductivity"
      (Example.first_read Example.down_cast Example.files) = Ok tt s' /\
    flagged [1; 2; 3; 4]%float flags QartodFlags.SUSPECT /\
    flagged [5; 4; 3; 2]%float flags2 QartodFlags.SUSPECT.
Proof.
  destruct (pair_flag_by_thresholds Example.area
              Example.config ["a.nc"; "b.nc"] 0 "conductivity"
              (Example.first_read Example.down_cast Example.files)
              Example.thresholds Example.down_cast Example.up_cast "a.nc" "b.nc"
              [1; 2; 3; 4]%float [5; 4; 3; 2]%float
              20%float 4%float 0.5%float 2%float 1%float
              [(1, 0); (2, 5); (3, 10); (4, 20); (5, 20); (4, 10); (3, 5);
               (2, -1); (1, 0)]%float 100%float
              example_pair_context)
    as (s' & flag & flags & flags2 & Hrun & _ & Hfl & Hfl2 & _ & Hsus & _);
    try (vm_compute; reflexivity).
  assert (Hflag : flag = QartodFlags.SUSPECT)
    by (apply Hsus; split; vm_compute; reflexivity).
  subst flag. exists s', flags, flags2.
  split; [exact Hrun|]. split; [exact Hfl|exact Hfl2].
Defined.

Lemma shallow_pair_left_unknown_witness :
  exists s' flags flags2,
    (forall valid_polygons_area,
       test_variable valid_polygons_area Example.config ["a.nc"; "b.nc"] 0
         "conductivity"
         (Example.first_read Example.shallow_down Example.shallow_files)
       = Ok tt s') /\
    trace s'
    = pair_events "conductivity" "a.nc" "b.nc"
        Example.shallow_down Example.shallow_up [] flags flags2 /\
    flagged [1; 2; 3; 4]%float flags QartodFlags.UNKNOWN /\
    flagged [5; 4; 3; 2]%float flags2 QartodFlags.UNKNOWN.
Proof.
  apply (shallow_pair_left_unknown Example.config ["a.nc"; "b.nc"] 0 "conductivity"
           (Example.first_read Example.shallow_down Example.shallow_files)
           Example.thresholds Example.shallow_down Example.shallow_up
           "a.nc" "b.nc" [1; 2; 3; 4]%float [5; 4; 3; 2]%float 3%float);
    try (vm_compute; reflexivity).
  constructor; try reflexivity; vm_compute; eauto.
Defined.

Lemma well_mixed_pair_good_witness :
  exists s' flags flags2,
    (forall valid_polygons_area,
       test_variable valid_polygons_area Example.wide_config ["a.nc"; "b.nc"] 0
         "conductivity" (Example.first_read Example.down_cast Example.files)
       = Ok tt s') /\
    trace s'
    = pair_events "conductivity" "a.nc" "b.nc"
        Example.down_cast Example.up_cast [] flags flags2 /\
    flagged [1; 2; 3; 4]%float flags QartodFlags.GOOD /\
    flagged [5; 4; 3; 2]%float flags2 QartodFlags.GOOD.
Proof.
  apply (well_mixed_pair_good Example.wide_config ["a.nc"; "b.nc"] 0 "conductivity"
           (Example.first_read Example.down_cast Example.files)
           Example.wide_thresholds Example.down_cast Example.up_cast
           "a.nc" "b.nc" [1; 2; 3; 4]%float [5; 4; 3; 2]%float
           20%float 4%float 10%float);
    try (vm_compute; reflexivity).
  constructor; try reflexivity; vm_compute; eauto.
Defined.

Lemma classified_pair_two_values_witness :
  exists flag poly flags flags2,
    (flag = QartodFlags.GOOD \/ flag = QartodFlags.SUSPECT \/
     flag = QartodFlags.FAIL) /\
    trace (final_state
             (test_variable Example.area Example.config ["a.nc"; "b.nc"] 0
                "temperature" (Example.first_read Example.down_cast Example.files)))
    = pair_events "temperature" "a.nc" "b.nc"
        Example.down_cast Example.up_cast poly flags flags2 /\
    flagged [10; PrimFloat.nan; 8; 7]%float flags flag /\
    flagged [7; 8; 9; 10]%float flags2 flag /\
    np.contains QartodFlags.UNKNOWN flags = false /\
    np.contains QartodFlags.UNKNOWN flags2 = false.
Proof.
  apply (classified_pair_two_values Example.area
           Example.config ["a.nc"; "b.nc"] 0 "temperature"
           (Example.first_read Example.down_cast Example.files)
           Example.thresholds Example.down_cast Example.up_cast
           "a.nc" "b.nc" [10; PrimFloat.nan; 8; 7]%float [7; 8; 9; 10]%float
           20%float);
    try (vm_compute; reflexivity).
  constructor; try reflexivity; vm_compute; eauto.
Defined.

Lemma saved_flags_missing_at_nan_witness :
  exists testvar values flags,
    testvar ∈ test_varnames /\
    "temperature_hysteresis_test" = qc_varname testvar /\
    getitem (data_vars
               (with_flags
                  (with_flags Example.down_cast "conductivity_hysteresis_test"
                     [3; 3; 3; 3]%float)
                  "temperature_hysteresis_test" [3; 9; 3; 3]%float))
            testvar = Some values /\
    getitem (data_vars
               (with_flags
                  (with_flags Example.down_cast "conductivity_hysteresis_test"
                     [3; 3; 3; 3]%float)
                  "temperature_hysteresis_test" [3; 9; 3; 3]%float))
            "temperature_hysteresis_test" = Some flags /\
    length flags = length values /\
    forall j x, values !! j = Some x -> np.isnan x = true ->
      flags !! j = Some QartodFlags.MISSING.
Proof.
  apply (saved_flags_missing_at_nan Example.area Example.env
           [Example.deployment ["a.nc"; "b.nc"]] Example.files DS "a.nc").
  apply list_elem_of_In. vm_compute. do 7 right. left. reflexivity.
Defined.

Lemma consumed_files_not_reopened_witness :
  let t := trace (final_state
                    (deployment_iteration Example.area Example.env
                       (Example.deployment Example.gap_ncfiles)
                       (initial_state Example.gap_files))) in
  NoDup (second_saves t) /\
  NoDup (primary_paths t) /\
  (forall t1 t2 path variable_name saved,
     t = t1 ++ ESave DS2 path variable_name saved :: t2 ->
     forall ok, EOpen true path ok ∉ t2) /\
  (forall t1 t2 path,
     t = t1 ++ EOpen false path false :: t2 ->
     forall ok, EOpen true path ok ∉ t2).
Proof.
  apply (consumed_files_not_reopened Example.area Example.env
           (Example.deployment Example.gap_ncfiles)
           (initial_state Example.gap_files)).
  - apply (bool_decide_unpack _). vm_compute. exact I.
  - reflexivity.
Defined.

Lemma orientation_by_endpoints_witness :
  exists a b,
    head (valid_pressures Example.level_cast) = Some a /\
    last (valid_pressures Example.level_cast) = Some b /\
    (orientation_as_first Example.level_cast = Some UP <->
     PrimFloat.ltb b a = true) /\
    (orientation_as_first Example.level_cast = Some DOWN <->
     PrimFloat.ltb b a = false) /\
    (orientation_as_second Example.level_cast = Some DOWN <->
     PrimFloat.ltb a b = true) /\
    (orientation_as_second Example.level_cast = Some UP <->
     PrimFloat.ltb a b = false) /\
    (PrimFloat.eqb a b = true ->
     orientation_as_first Example.level_cast = Some DOWN /\
     orientation_as_second Example.level_cast = Some UP).
Proof.
  apply (orientation_by_endpoints Example.level_cast). vm_compute. lia.
Defined.

Lemma polygon_from_table_rows_witness :
  exists r rest hi lo more,
    pair_table "conductivity" Example.down_cast Example.up_cast = r :: rest /\
    np.nanmax (clamp_negative
                 (map snd (pair_table "conductivity" Example.down_cast
                             Example.up_cast))) = Some hi /\
    np.nanmin (clamp_negative
                 (map snd (pair_table "conductivity" Example.down_cast
                             Example.up_cast))) = Some lo /\
    20%float = (hi - lo)%float /\
    trace (final_state
             (test_variable Example.area Example.config ["a.nc"; "b.nc"] 0
                "conductivity"
                (Example.first_read Example.down_cast Example.files)))
    = trace (Example.first_read Example.down_cast Example.files)
      ++ EOpen false "b.nc" true
         :: EPolygon (pair_table "conductivity" Example.down_cast Example.up_cast
                      ++ [r]) :: more.
Proof.
  apply (polygon_from_table_rows Example.area Example.config ["a.nc"; "b.nc"] 0
           "conductivity" (Example.first_read Example.down_cast Example.files)
           Example.thresholds Example.down_cast Example.up_cast "a.nc" "b.nc"
           20%float 4%float 0.5%float example_pair_context);
    vm_compute; reflexivity.
Defined.

(** * Where the code departs from the specification *)

(** C2, counterexample: in a deployment of five files of which the fourth
    cannot be read, the third file is a down-cast whose lookahead fails; the
    unreadable file is never opened as first although the loop goes on to
    the fifth file, and the flags saved for the third file are not UNKNOWN. *)
Lemma lookahead_failure_counterexample :
  let s' := final_state
              (deployment_iteration Example.area Example.env
                 (Example.deployment Example.gap_ncfiles)
                 (initial_state Example.gap_files)) in
  Example.gap_ncfiles !! 2 = Some "c.nc" /\
  Example.gap_ncfiles !! 3 = Some "d.nc" /\
  primary_down "conductivity" Example.later_down = true /\
  EOpen false "d.nc" false ∈ trace s' /\
  primary_paths (trace s') = ["a.nc"; "c.nc"; "e.nc"] /\
  (fs s' !! "c.nc" ≫= fun d => getitem (data_vars d) "conductivity_hysteresis_test")
  = Some [3; 3; 3; 3]%float.
Proof.
  cbv zeta. repeat split; try (vm_compute; reflexivity).
  apply list_elem_of_In. vm_compute. do 10 right. left. reflexivity.
Qed.

(** C3, counterexample: after the iteration whose lookahead read of the
    fourth file failed, [f2skip] is positive, so the file whose read failed
    is marked as consumed and the next index to open is that of the fifth
    file. *)
Lemma failed_read_marked_counterexample :
  let s2 := final_state
              (for_each (seq 0 2)
                 (file_iteration Example.area Example.config Example.gap_ncfiles)
                 (Example.start Example.gap_files)) in
  Example.gap_files !! "d.nc" = None /\
  EOpen false "d.nc" false ∈ trace s2 /\
  marked_consumed s2 = true /\
  next_index 2 s2 = 4 /\
  Example.gap_ncfiles !! 4 = Some "e.nc".
Proof.
  cbv zeta. repeat split; try (vm_compute; reflexivity).
  apply list_elem_of_In. vm_compute. do 10 right. left. reflexivity.
Qed.

(** C6, counterexample: a profile with three valid pressure samples whose
    first and last are equal is DOWN when read as the first of an iteration,
    and the driver looks ahead and pairs it with the next file. *)
Lemma level_first_profile_counterexample :
  valid_pressures Example.level_cast = [3; 7; 3]%float /\
  orientation_as_first Example.level_cast = Some DOWN /\
  orientation_as_first Example.level_cast <> Some UP /\
  EOpen false "b.nc" true
    ∈ trace (final_state
               (deployment_iteration Example.area Example.env
                  (Example.deployment ["a.nc"; "b.nc"])
                  (initial_state Example.level_files))).
Proof.
  repeat split; try (vm_compute; reflexivity).
  - vm_compute. discriminate.
  - apply list_elem_of_In. vm_compute. right. left. reflexivity.
Qed.

(** C8, counterexample: the up-cast ends at pressure -1; the pressure range
    is taken from the clamped copy (20, not 21), while the polygon holds the
    point with the negative pressure. *)
Lemma polygon_keeps_negative_pressure_counterexample :
  pressure_range_of (pair_table "conductivity" Example.down_cast Example.up_cast)
  = Some 20%float /\
  exists polygon_points,
    EPolygon polygon_points
      ∈ trace (final_state
                 (deployment_iteration Example.area Example.env
                    (Example.deployment ["a.nc"; "b.nc"])
                    (initial_state Example.files))) /\
    (2, -1)%float ∈ polygon_points /\
    PrimFloat.ltb (-1) 0 = true.
Proof.
  split; [vm_compute; reflexivity|].
  exists [(1, 0); (2, 5); (3, 10); (4, 20); (5, 20); (4, 10); (3, 5); (2, -1);
          (1, 0)]%float.
  split; [|split; [|reflexivity]].
  - apply list_elem_of_In. vm_compute. do 2 right. left. reflexivity.
  - apply list_elem_of_In. vm_compute. do 7 right. left. reflexivity.
Qed.

(** * Further properties of the hysteresis test *)

(** ** The QARTOD mask *)

Lemma lookup_qartod_fold qvs acc j :
  fold_left
    (fun datacopy (qv : string * list float) =>
       np.set_idx datacopy
         (np.where_ (map (fun q => PrimFloat.eqb q 3 || PrimFloat.eqb q 4) (snd qv)))
         PrimFloat.nan)
    qvs acc !! j
  = (fun x => if flagged_at qvs j then PrimFloat.nan else x) <$> acc !! j.
Proof.
  revert acc. induction qvs as [|qv qvs IH]; intros acc; cbn [fold_left].
  - unfold flagged_at. cbn. destruct (acc !! j); reflexivity.
  - rewrite IH, lookup_set_idx. unfold flagged_at. cbn [existsb].
    destruct (decide (j ∈ np.where_ _)) as [Hin|Hin].
    + apply elem_of_where in Hin. rewrite list_lookup_fmap in Hin.
      destruct (snd qv !! j) as [q|]; [|discriminate]. cbn in Hin.
      injection Hin as ->. cbn [orb].
      destruct (acc !! j); cbn; [|reflexivity].
      destruct (existsb _ qvs); reflexivity.
    + assert (Hq : match snd qv !! j with
                   | Some q => PrimFloat.eqb q 3 || PrimFloat.eqb q 4
                   | None => false
                   end = false).
      { destruct (snd qv !! j) as [q|] eqn:Hq; [|reflexivity].
        apply not_true_is_false. intros Ht. apply Hin, elem_of_where.
        rewrite list_lookup_fmap, Hq. cbn. rewrite Ht. reflexivity. }
      rewrite Hq. reflexivity.
Qed.

Lemma length_qartod_fold qvs acc :
  length
    (fold_left
       (fun datacopy (qv : string * list float) =>
          np.set_idx datacopy
            (np.where_ (map (fun q => PrimFloat.eqb q 3 || PrimFloat.eqb q 4) (snd qv)))
            PrimFloat.nan)
       qvs acc)
  = length acc.
Proof.
  revert acc. induction qvs as [|qv qvs IH]; intros acc; cbn [fold_left];
    [reflexivity|].
  rewrite IH. apply length_set_idx.
Qed.

Lemma apply_qartod_qc_some d varname values :
  getitem (data_vars d) varname = Some values ->
  exists datacopy, apply_qartod_qc d varname = Some datacopy.
Proof. intros Hv. unfold apply_qartod_qc. rewrite Hv. eauto. Qed.

(** X1: on a dataset that has the variable, the copy [apply_qartod_qc]
    returns has the length of the series, holds NaN at every index
    at which one of the [<varname>_qartod...] series is 3 or 4, and holds the
    measurement itself at every other index, so that masking never turns a
    NaN into data. *)
Theorem apply_qartod_qc_pointwise d varname values :
  getitem (data_vars d) varname = Some values ->
  exists datacopy,
    apply_qartod_qc d varname = Some datacopy /\
    length datacopy = length values /\
    (forall j x, values !! j = Some x ->
       datacopy !! j
       = Some (if flagged_at (qartod_vars d varname) j then PrimFloat.nan else x)) /\
    (forall j x y, values !! j = Some x -> datacopy !! j = Some y ->
       np.isnan x = true -> np.isnan y = true).
Proof.
  intros Hv. unfold apply_qartod_qc. rewrite Hv. eexists. split; [reflexivity|].
  fold (qartod_vars d varname).
  split; [apply length_qartod_fold|].
  split.
  - intros j x Hx. rewrite lookup_qartod_fold, Hx. reflexivity.
  - intros j x y Hx Hy Hnan. rewrite lookup_qartod_fold, Hx in Hy.
    injection Hy as <-.
    destruct (flagged_at _ j); [reflexivity|exact Hnan].
Qed.

(** ** The initial flags *)

Lemma where_from_bounds mask k j : j ∈ np.where_from k mask -> k <= j.
Proof.
  revert k. induction mask as [|b mask IH]; intros k; cbn [np.where_from].
  - intros H. inversion H.
  - destruct b.
    + intros [->|H]%elem_of_cons; [lia|]. apply IH in H. lia.
    + intros H. apply IH in H. lia.
Qed.

Lemma where_from_sorted mask k : StronglySorted lt (np.where_from k mask).
Proof.
  revert k. induction mask as [|b mask IH]; intros k; cbn [np.where_from].
  - constructor.
  - destruct b; [|apply IH]. constructor; [apply IH|].
    apply List.Forall_forall. intros j Hj.
    apply list_elem_of_In, where_from_bounds in Hj. lia.
Qed.

Lemma elem_of_non_nan (values : list float) j :
  j ∈ np.where_ (np.invert (map np.isnan values))
  <-> exists x, values !! j = Some x /\ np.isnan x = false.
Proof.
  rewrite elem_of_where. unfold np.invert.
  rewrite !list_lookup_fmap. destruct (values !! j) as [x|]; simpl.
  - split.
    + intros [= H]. exists x. split; auto. apply negb_true_iff. exact H.
    + intros (y & [= <-] & ->). reflexivity.
  - split; [discriminate|intros (y & [=] & _)].
Qed.

(** X2: on a dataset that has the variable, [initialize_flags] returns the
    ascending indices of the measurements that are not NaN, the ascending
    indices of the pressures that are not NaN, and a flag array of the length
    of the series that holds MISSING where the measurement is NaN and UNKNOWN
    everywhere else. *)
Theorem initialize_flags_result d varname values :
  getitem (data_vars d) varname = Some values ->
  exists non_nan_i pressure_idx flags,
    initialize_flags d varname = Some (non_nan_i, pressure_idx, flags) /\
    flagged values flags QartodFlags.UNKNOWN /\
    (forall j, j ∈ non_nan_i
               <-> exists x, values !! j = Some x /\ np.isnan x = false) /\
    (forall j, j ∈ pressure_idx
               <-> exists p, pressure d !! j = Some p /\ np.isnan p = false) /\
    StronglySorted lt non_nan_i /\ StronglySorted lt pressure_idx.
Proof.
  intros Hv. unfold initialize_flags. rewrite Hv.
  eexists _, _, _. split; [reflexivity|].
  split; [split|split; [|split; [|split]]].
  - rewrite length_set_mask. unfold np.full. apply repeat_length.
  - intros j x Hx. rewrite lookup_initial_flags, Hx. reflexivity.
  - intros j. apply elem_of_non_nan.
  - intros j. apply elem_of_non_nan.
  - apply where_from_sorted.
  - apply where_from_sorted.
Qed.

(** ** Saving a dataset *)

Lemma getitem_setitem vars name name' values :
  getitem (setitem vars name values) name'
  = if String.eqb name name' then Some values else getitem vars name'.
Proof.
  destruct (String.eqb_spec name name') as [<-|Hne].
  - apply getitem_setitem_eq.
  - apply getitem_setitem_ne. exact Hne.
Qed.

(** X3: [save_ds] on a dataset object leaves in the file exactly what the
    object then holds: the dataset with the flag array under the name of the
    flag variable, every other variable, the time stamps and the pressures
    as they were; no other file changes. *)
Theorem save_ds_round_trip r flag_array variable_name save_file s d :
  match r with DS => ds s | DS2 => ds2 s end = Some d ->
  exists s',
    save_ds r flag_array variable_name save_file s = Ok tt s' /\
    match r with DS => ds s' | DS2 => ds2 s' end = fs s' !! save_file /\
    (exists d', fs s' !! save_file = Some d' /\
       getitem (data_vars d') variable_name = Some flag_array /\
       (forall name, name <> variable_name ->
          getitem (data_vars d') name = getitem (data_vars d) name) /\
       time d' = time d /\ pressure d' = pressure d) /\
    (forall path, path <> save_file -> fs s' !! path = fs s !! path).
Proof.
  intros Hd. destruct_state s. unfold save_ds. cbn in Hd.
  destruct r; run; rewrite Hd; run; (eexists; split; [reflexivity|]); cbn;
    rewrite lookup_insert_eq;
    (split; [reflexivity|split]);
    try (eexists; split; [reflexivity|]; cbn;
         split; [apply getitem_setitem_eq|];
         split; [|split; reflexivity];
         intros name Hne; apply getitem_setitem_ne; congruence);
    intros path Hne; apply lookup_insert_ne; congruence.
Qed.

(** ** The table of a profile *)

Lemma filter_key_fresh (t0 : Z) (times : list Z) (press : list float) :
  t0 ∉ times ->
  filter (fun r : Z * float => fst r = t0) (zip times press) = [].
Proof.
  revert press. induction times as [|t times IH]; intros press Hn; [reflexivity|].
  destruct press as [|p press]; [reflexivity|]. cbn [zip zip_with].
  rewrite filter_cons_False.
  - apply IH. intros H. apply Hn. right. exact H.
  - cbn. intros ->. apply Hn. left.
Qed.

Lemma merge_on_time_cons t times v values p press :
  t ∉ times ->
  merge_on_time (t :: times) (v :: values) (p :: press)
  = (v, p) :: merge_on_time times values press.
Proof.
  intros Hn. unfold merge_on_time. cbn [zip zip_with flat_map].
  rewrite filter_cons_True by reflexivity.
  rewrite filter_key_fresh by exact Hn. cbn [map app fst snd].
  f_equal.
  assert (Hin : forall l : Z * float, l ∈ zip times values -> fst l <> t).
  { intros [t' x] Hl Heq. cbn in Heq. subst t'.
    apply Hn. apply (elem_of_zip_l _ _ _ _ Hl). }
  revert Hin. generalize (zip times values) as left.
  induction left as [|l left IH]; intros Hin; [reflexivity|].
  cbn [flat_map]. rewrite IH by (intros l' Hl'; apply Hin; right; exact Hl').
  f_equal. rewrite filter_cons_False; [reflexivity|].
  cbn. intros Heq. apply (Hin l); [left|]. congruence.
Qed.

(** X4: when the time stamps of a profile are distinct and the series and
    the pressures have one value per time stamp, the join on the time stamp
    pairs each measurement with the pressure of the same index, in order. *)
Theorem merge_on_time_rows times values press :
  NoDup times ->
  length values = length times ->
  length press = length times ->
  merge_on_time times values press = zip values press.
Proof.
  intros Hnd. revert values press.
  induction Hnd as [|t times Hn Hnd IH]; intros values press Hv Hp.
  - destruct values; [|discriminate]. reflexivity.
  - destruct values as [|v values]; [discriminate|].
    destruct press as [|p press]; [discriminate|].
    rewrite merge_on_time_cons by exact Hn. cbn [zip zip_with].
    f_equal. apply IH; cbn in *; lia.
Qed.

(** ** The branches of the loop over the test variables *)

Section Branches.

Variable valid_polygons_area : list (float * float) -> option float.
Variable config_dict : Config.
Variable ncfiles : list string.
Variable i : nat.
Variable testvar : string.

Lemma data_idx_initialize d :
  data_idx_of d testvar <> [] ->
  exists values,
    getitem (data_vars d) testvar = Some values /\
    initialize_flags d testvar
    = Some (data_idx_of d testvar, press_non_nan_ind d, flag_vals_of d testvar).
Proof.
  unfold data_idx_of, flag_vals_of.
  destruct (initialize_flags d testvar) as [[[idx pidx] fl]|] eqn:Hi;
    [|congruence].
  intros _. destruct (initialize_flags_getitem _ _ _ Hi) as [v Hv].
  rewrite (initialize_flags_pressure _ _ _ _ _ Hi). eauto.
Qed.

Lemma primary_has_data d b :
  negb (length (data_idx_of d testvar) =? 0) && b = true ->
  data_idx_of d testvar <> [] /\ b = true.
Proof.
  intros [H ->]%andb_prop. split; [|reflexivity].
  intros E. rewrite E in H. discriminate.
Qed.

(** The body of the loop up to the test of line 227 *)
Lemma test_variable_primary s (thr : Thresholds) d a b :
  config_dict !! qc_varname testvar = Some thr ->
  ds s = Some d ->
  data_idx_of d testvar <> [] ->
  endpoints d (press_non_nan_ind d) = Some (a, b) ->
  test_variable valid_polygons_area config_dict ncfiles i testvar s
  = match first_orientation a b with
    | UP => leave_first_unknown testvar ncfiles i (flag_vals_of d testvar) s
    | DOWN =>
        match ncfiles !! (i + 1) with
        | None => leave_first_unknown testvar ncfiles i (flag_vals_of d testvar) s
        | Some f2 =>
            look_ahead valid_polygons_area testvar thr ncfiles i f2 d
              (data_idx_of d testvar) (flag_vals_of d testvar) s
        end
    end.
Proof.
  intros Hc Hd Hidx He.
  destruct (data_idx_initialize d Hidx) as (v & Hv & Hi).
  destruct_state s. subst dx. unfold test_variable. run.
  rewrite Hc. run. rewrite Hv, Hi. run.
  destruct (data_idx_of d testvar) as [|j idx] eqn:E; [congruence|].
  cbn [length Nat.eqb]. rewrite He. run.
  destruct (first_orientation a b); [destruct (ncfiles !! (i + 1))|]; reflexivity.
Qed.

Lemma leave_first_unknown_run s d f c flags :
  ds s = Some d ->
  ncfiles !! i = Some f ->
  summary s !! testvar = Some c ->
  leave_first_unknown testvar ncfiles i flags s
  = Ok tt (mkState (status s) (skip s) (f2skip s)
             (Some (with_flags d (qc_varname testvar) flags)) (ds2 s)
             (<[testvar := add_unknown 1 c]> (summary s))
             (<[f := with_flags d (qc_varname testvar) flags]> (fs s))
             (trace s ++ [ESave DS f (qc_varname testvar)
                            (with_flags d (qc_varname testvar) flags)])).
Proof.
  intros Hd Hf Hc. destruct_state s. subst dx.
  unfold leave_first_unknown, save_first, save_ds. run. rewrite Hf. run.
  rewrite Hc. run. reflexivity.
Qed.

Lemma leave_unknown_run s d d2 f f2 c k flags flags2 :
  ds s = Some d ->
  ds2 s = Some d2 ->
  ncfiles !! i = Some f ->
  summary s !! testvar = Some c ->
  f2skip s = Some k ->
  leave_unknown testvar ncfiles i f2 flags flags2 s
  = Ok tt (mkState (status s) (skip s) (Some (k + 1))
             (Some (with_flags d (qc_varname testvar) flags))
             (Some (with_flags d2 (qc_varname testvar) flags2))
             (<[testvar := add_unknown 2 c]> (summary s))
             (<[f2 := with_flags d2 (qc_varname testvar) flags2]>
                (<[f := with_flags d (qc_varname testvar) flags]> (fs s)))
             (trace s ++ [ESave DS f (qc_varname testvar)
                            (with_flags d (qc_varname testvar) flags);
                          ESave DS2 f2 (qc_varname testvar)
                            (with_flags d2 (qc_varname testvar) flags2)])).
Proof.
  intros Hd Hd2 Hf Hc Hk. destruct_state s. subst dx d2x fk.
  unfold leave_unknown, save_first, save_second, save_ds. run. rewrite Hf. run.
  rewrite Hc. run. rewrite <- app_assoc. reflexivity.
Qed.

(** The lookahead once the second file has been read and has the
    variable: the test of line 264 *)
Lemma look_ahead_second s (thr : Thresholds) d d2 f2 idx fl a2 b2 v2 :
  fs s !! f2 = Some d2 ->
  getitem (data_vars d2) testvar = Some v2 ->
  endpoints d2 (press_non_nan_ind d2) = Some (a2, b2) ->
  look_ahead valid_polygons_area testvar thr ncfiles i f2 d idx fl s
  = match second_orientation a2 b2 with
    | DOWN => leave_first_unknown testvar ncfiles i fl (opened s f2 d2)
    | UP =>
        down_up valid_polygons_area testvar thr ncfiles i f2 d d2 idx
          (data_idx_of d2 testvar) fl (flag_vals_of d2 testvar) (opened s f2 d2)
    end.
Proof.
  intros Hf2 Hv2 He2.
  destruct (getitem_initialize_flags d2 testvar) as [[[idx2 pidx2] fl2] Hi2];
    [rewrite Hv2; eauto|].
  pose proof (initialize_flags_pressure _ _ _ _ _ Hi2) as ->.
  unfold data_idx_of, flag_vals_of. rewrite Hi2.
  destruct_state s. unfold look_ahead, second_profile, open_second, opened. run.
  rewrite Hf2. run. rewrite Hv2, Hi2. run. rewrite He2. run.
  destruct (second_orientation a2 b2); reflexivity.
Qed.

(** X5: a first profile that is up is saved alone with its initial flags
    (UNKNOWN, MISSING at NaN) and counted as one unknown profile; the next
    file is not opened and nothing else changes. *)
Theorem up_cast_saved_alone s (thr : Thresholds) d f c :
  config_dict !! qc_varname testvar = Some thr ->
  ds s = Some d ->
  ncfiles !! i = Some f ->
  summary s !! testvar = Some c ->
  primary_up testvar d = true ->
  test_variable valid_polygons_area config_dict ncfiles i testvar s
  = Ok tt (saved_alone testvar f d c s).
Proof.
  intros Hc Hd Hf Hs Hup. unfold primary_up in Hup.
  apply primary_has_data in Hup as [Hidx Hup].
  unfold orientation_as_first in Hup.
  destruct (endpoints d (press_non_nan_ind d)) as [[a b]|] eqn:He; [|discriminate].
  rewrite (test_variable_primary s thr d a b Hc Hd Hidx He).
  destruct (first_orientation a b); [discriminate|].
  apply leave_first_unknown_run; assumption.
Qed.

(** X6: a first profile that is down and is the last file of the list is
    saved alone with its initial flags and counted as one unknown profile. *)
Theorem last_file_saved_alone s (thr : Thresholds) d f c :
  config_dict !! qc_varname testvar = Some thr ->
  ds s = Some d ->
  ncfiles !! i = Some f ->
  ncfiles !! (i + 1) = None ->
  summary s !! testvar = Some c ->
  primary_down testvar d = true ->
  test_variable valid_polygons_area config_dict ncfiles i testvar s
  = Ok tt (saved_alone testvar f d c s).
Proof.
  intros Hc Hd Hf Hn Hs Hdown. unfold primary_down in Hdown.
  apply primary_has_data in Hdown as [Hidx Hdown].
  unfold orientation_as_first in Hdown.
  destruct (endpoints d (press_non_nan_ind d)) as [[a b]|] eqn:He; [|discriminate].
  rewrite (test_variable_primary s thr d a b Hc Hd Hidx He).
  destruct (first_orientation a b); [|discriminate].
  rewrite Hn. apply leave_first_unknown_run; assumption.
Qed.

(** X7: when the file after a down profile is a down profile too, only the
    first file is saved, with its initial flags, and [f2skip] is left as it
    was, so that the second file is not marked as consumed by this pass. *)
Theorem two_down_casts_first_saved s (thr : Thresholds) d d2 f f2 c :
  config_dict !! qc_varname testvar = Some thr ->
  ds s = Some d ->
  ncfiles !! i = Some f ->
  ncfiles !! (i + 1) = Some f2 ->
  fs s !! f2 = Some d2 ->
  summary s !! testvar = Some c ->
  primary_down testvar d = true ->
  second_down testvar d2 = true ->
  test_variable valid_polygons_area config_dict ncfiles i testvar s
  = Ok tt (saved_alone testvar f d c (opened s f2 d2)) /\
  f2skip (saved_alone testvar f d c (opened s f2 d2)) = f2skip s.
Proof.
  intros Hc Hd Hf Hn Hf2 Hs Hdown Hsec. split; [|reflexivity].
  unfold primary_down in Hdown.
  apply primary_has_data in Hdown as [Hidx Hdown].
  unfold orientation_as_first in Hdown.
  destruct (endpoints d (press_non_nan_ind d)) as [[a b]|] eqn:He; [|discriminate].
  rewrite (test_variable_primary s thr d a b Hc Hd Hidx He).
  destruct (first_orientation a b); [|discriminate].
  rewrite Hn. unfold second_down in Hsec. apply andb_prop in Hsec as [Hv2 Ho2].
  destruct (getitem (data_vars d2) testvar) as [v2|] eqn:Ev2; [|discriminate].
  unfold orientation_as_second in Ho2.
  destruct (endpoints d2 (press_non_nan_ind d2)) as [[a2 b2]|] eqn:He2;
    [|discriminate].
  rewrite (look_ahead_second s thr d d2 f2 _ _ a2 b2 v2 Hf2 Ev2 He2).
  destruct (second_orientation a2 b2); [|discriminate].
  apply leave_first_unknown_run; assumption.
Qed.

(** X8: when the file after a down profile can be read but lacks the
    variable, the status becomes 1, only the first file is saved, with its
    initial flags, and the second file is not marked as consumed. *)
Theorem lookahead_without_variable s (thr : Thresholds) d d2 f f2 c :
  config_dict !! qc_varname testvar = Some thr ->
  ds s = Some d ->
  ncfiles !! i = Some f ->
  ncfiles !! (i + 1) = Some f2 ->
  fs s !! f2 = Some d2 ->
  summary s !! testvar = Some c ->
  primary_down testvar d = true ->
  getitem (data_vars d2) testvar = None ->
  test_variable valid_polygons_area config_dict ncfiles i testvar s
  = Ok tt (saved_alone testvar f d c (with_status 1 (opened s f2 d2))) /\
  f2skip (saved_alone testvar f d c (with_status 1 (opened s f2 d2))) = f2skip s.
Proof.
  intros Hc Hd Hf Hn Hf2 Hs Hdown Hv2. split; [|reflexivity].
  unfold primary_down in Hdown.
  apply primary_has_data in Hdown as [Hidx Hdown].
  unfold orientation_as_first in Hdown.
  destruct (endpoints d (press_non_nan_ind d)) as [[a b]|] eqn:He; [|discriminate].
  rewrite (test_variable_primary s thr d a b Hc Hd Hidx He).
  destruct (first_orientation a b); [|discriminate].
  rewrite Hn.
  transitivity (leave_first_unknown testvar ncfiles i (flag_vals_of d testvar)
                  (with_status 1 (opened s f2 d2))).
  - destruct_state s. unfold look_ahead, second_profile, open_second, opened,
      with_status. run. rewrite Hf2. run. rewrite Hv2. run. reflexivity.
  - apply leave_first_unknown_run; assumption.
Qed.

Lemma down_up_pair_prefix s (thr : Thresholds) d d2 f2 :
  config_dict !! qc_varname testvar = Some thr ->
  ds s = Some d ->
  ncfiles !! (i + 1) = Some f2 ->
  fs s !! f2 = Some d2 ->
  primary_down testvar d = true ->
  second_up testvar d2 = true ->
  test_variable valid_polygons_area config_dict ncfiles i testvar s
  = down_up valid_polygons_area testvar thr ncfiles i f2 d d2
      (data_idx_of d testvar) (data_idx_of d2 testvar)
      (flag_vals_of d testvar) (flag_vals_of d2 testvar) (opened s f2 d2).
Proof.
  intros Hc Hd Hn Hf2 Hdown Hsec.
  unfold primary_down in Hdown.
  apply primary_has_data in Hdown as [Hidx Hdown].
  unfold orientation_as_first in Hdown.
  destruct (endpoints d (press_non_nan_ind d)) as [[a b]|] eqn:He; [|discriminate].
  rewrite (test_variable_primary s thr d a b Hc Hd Hidx He).
  destruct (first_orientation a b); [|discriminate].
  rewrite Hn. unfold second_up in Hsec. apply andb_prop in Hsec as [Hv2 Ho2].
  destruct (getitem (data_vars d2) testvar) as [v2|] eqn:Ev2; [|discriminate].
  unfold orientation_as_second in Ho2.
  destruct (endpoints d2 (press_non_nan_ind d2)) as [[a2 b2]|] eqn:He2;
    [|discriminate].
  rewrite (look_ahead_second s thr d d2 f2 _ _ a2 b2 v2 Hf2 Ev2 He2).
  destruct (second_orientation a2 b2); [discriminate|]. reflexivity.
Qed.

Lemma saved_both_unknown_run s d d2 f f2 c k :
  ds s = Some d ->
  ncfiles !! i = Some f ->
  summary s !! testvar = Some c ->
  f2skip s = Some k ->
  leave_unknown testvar ncfiles i f2 (flag_vals_of d testvar)
    (flag_vals_of d2 testvar) (opened s f2 d2)
  = Ok tt (saved_both_unknown testvar f f2 d d2 c k s).
Proof.
  intros Hd Hf Hs Hk.
  rewrite (leave_unknown_run (opened s f2 d2) d d2 f f2 c k); try assumption;
    try reflexivity.
  unfold saved_both_unknown, opened.
  cbn [status skip f2skip ds ds2 summary fs trace].
  rewrite <- app_assoc. reflexivity.
Qed.

(** X9: a down profile and the up profile after it that starts five
    minutes or more after the end of the first are not tested: both files
    are saved with their initial flags, two unknown profiles are counted, the
    second file is marked as consumed, and no polygon is built. *)
Theorem distant_pair_left_unknown s (thr : Thresholds) d d2 f f2 c k :
  config_dict !! qc_varname testvar = Some thr ->
  ds s = Some d ->
  ncfiles !! i = Some f ->
  ncfiles !! (i + 1) = Some f2 ->
  fs s !! f2 = Some d2 ->
  summary s !! testvar = Some c ->
  f2skip s = Some k ->
  primary_down testvar d = true ->
  second_up testvar d2 = true ->
  beyond_window d d2 = true ->
  test_variable valid_polygons_area config_dict ncfiles i testvar s
  = Ok tt (saved_both_unknown testvar f f2 d d2 c k s).
Proof.
  intros Hc Hd Hf Hn Hf2 Hs Hk Hdown Hsec Hw.
  rewrite (down_up_pair_prefix s thr d d2 f2) by assumption.
  unfold beyond_window in Hw.
  destruct (head (time d2)) as [t2|] eqn:Ht2; [|discriminate].
  destruct (last (time d)) as [t1|] eqn:Ht1; [|discriminate].
  apply negb_true_iff in Hw.
  unfold down_up. rewrite Ht2, Ht1. run. rewrite Hw.
  apply saved_both_unknown_run; assumption.
Qed.

(** X10: a down profile and the up profile that follows it within five
    minutes, one of which has no measurement left under the QARTOD mask, are
    not tested: both files are saved with their initial flags, two unknown
    profiles are counted, the second file is marked as consumed, and no
    polygon is built. *)
Theorem masked_pair_left_unknown s (thr : Thresholds) d d2 f f2 c k :
  config_dict !! qc_varname testvar = Some thr ->
  ds s = Some d ->
  ncfiles !! i = Some f ->
  ncfiles !! (i + 1) = Some f2 ->
  fs s !! f2 = Some d2 ->
  summary s !! testvar = Some c ->
  f2skip s = Some k ->
  primary_down testvar d = true ->
  second_up testvar d2 = true ->
  within_window d d2 = true ->
  data_remaining testvar d d2 = false ->
  test_variable valid_polygons_area config_dict ncfiles i testvar s
  = Ok tt (saved_both_unknown testvar f f2 d d2 c k s).
Proof.
  intros Hc Hd Hf Hn Hf2 Hs Hk Hdown Hsec Hw Hr.
  rewrite (down_up_pair_prefix s thr d d2 f2) by assumption.
  unfold within_window in Hw.
  destruct (head (time d2)) as [t2|] eqn:Ht2; [|discriminate].
  destruct (last (time d)) as [t1|] eqn:Ht1; [|discriminate].
  unfold down_up. rewrite Ht2, Ht1. run. rewrite Hw.
  unfold primary_down in Hdown. apply primary_has_data in Hdown as [Hidx _].
  destruct (data_idx_initialize d Hidx) as (v & Hv & _).
  unfold second_up in Hsec. apply andb_prop in Hsec as [Hv2 _].
  destruct (getitem (data_vars d2) testvar) as [v2|] eqn:Ev2; [|discriminate].
  destruct (apply_qartod_qc_some d testvar v Hv) as (c1 & Hc1).
  destruct (apply_qartod_qc_some d2 testvar v2 Ev2) as (c2 & Hc2).
  unfold data_remaining in Hr. rewrite Hc1, Hc2 in Hr.
  rewrite Hc1, Hc2. run. rewrite Hr.
  apply saved_both_unknown_run; assumption.
Qed.

(** X11: a first profile without the variable, or with no measurement of
    it that is not NaN, sets the status to 1 and is left alone: no file is
    written, no counter changes, the next file is not opened. *)
Theorem primary_without_data s (thr : Thresholds) d :
  config_dict !! qc_varname testvar = Some thr ->
  ds s = Some d ->
  data_idx_of d testvar = [] ->
  test_variable valid_polygons_area config_dict ncfiles i testvar s
  = Ok tt (with_status 1 s).
Proof.
  intros Hc Hd Hidx. destruct_state s. subst dx.
  unfold test_variable, with_status. run. rewrite Hc. run.
  unfold data_idx_of in Hidx.
  destruct (getitem (data_vars d) testvar) as [v|] eqn:Hv; [|reflexivity].
  destruct (getitem_initialize_flags d testvar) as [[[idx pidx] fl] Hi];
    [rewrite Hv; eauto|].
  rewrite Hi in *. subst idx. run. reflexivity.
Qed.

(** X12: a first profile that has measurements of the variable but no
    pressure that is not NaN ends the run with an IndexError at line 227:
    nothing is saved and the state is the one before the pass. *)
Theorem primary_without_pressure s (thr : Thresholds) d :
  config_dict !! qc_varname testvar = Some thr ->
  ds s = Some d ->
  data_idx_of d testvar <> [] ->
  valid_pressures d = [] ->
  test_variable valid_polygons_area config_dict ncfiles i testvar s
  = Raise IndexError s.
Proof.
  intros Hc Hd Hidx Hp.
  destruct (data_idx_initialize d Hidx) as (v & Hv & Hi).
  assert (He : endpoints d (press_non_nan_ind d) = None).
  { unfold endpoints. rewrite take_valid_pressures, Hp. reflexivity. }
  destruct_state s. subst dx. unfold test_variable. run.
  rewrite Hc. run. rewrite Hv, Hi. run.
  destruct (data_idx_of d testvar) as [|j idx] eqn:E; [congruence|].
  cbn [length Nat.eqb]. rewrite He. run. reflexivity.
Qed.

End Branches.

(** ** The loop over the files *)

(** X13: a configuration without the section of the first test variable
    ends the run with a KeyError (line 202) as soon as the first file of the
    first processed deployment has been read: nothing is written, and no later
    file or deployment is looked at. *)
Theorem missing_sensor_section_aborts
  (valid_polygons_area : list (float * float) -> option float)
  env dep deps files (cfg : Config) f rest d :
  deployments_root_is_str env = true ->
  qc_config_root_isdir env = true ->
  data_path_found dep = true ->
  proc_logs_isdir dep = true ->
  match deployment_config dep with
  | Some c => Some c
  | None => default_config env
  end = Some cfg ->
  cfg !! "conductivity_hysteresis_test"%string = None ->
  ncfiles dep = f :: rest ->
  files !! f = Some d ->
  main valid_polygons_area env (dep :: deps) (initial_state files)
  = Raise KeyError
      (mkState 0 0 (Some 0) (Some d) None new_summary files [EOpen true f true]).
Proof.
  intros Hroot Hcfgroot Hpath Hlogs Hcfg Hsec Hnc Hf.
  unfold main, process_deployments, initial_state. run.
  rewrite Hroot, Hcfgroot. cbn [negb for_each].
  unfold deployment_iteration. rewrite Hpath, Hlogs. cbn [negb].
  rewrite Hcfg, Hnc. cbn [length Nat.eqb seq for_each]. run.
  unfold file_iteration, marked_consumed. run. cbn [lookup list_lookup Nat.add].
  run. rewrite Hf. run. cbn [test_varnames for_each].
  unfold test_variable. run.
  assert (Hsec' : cfg !! qc_varname "conductivity" = @None Thresholds)
    by exact Hsec.
  rewrite Hsec'. run. reflexivity.
Qed.

(** X14: an iteration whose first file cannot be read sets the status to 1
    and leaves [f2skip] as the iteration before left it; when that one had
    consumed a pair, the mark stays, and the next iteration opens the file
    two places after the unreadable one instead of the file after it. *)
Theorem failed_primary_read_keeps_mark
  (valid_polygons_area : list (float * float) -> option float)
  (cfg : Config) ncfiles k s path :
  ncfiles !! next_index k s = Some path ->
  fs s !! path = None ->
  exists s',
    file_iteration valid_polygons_area cfg ncfiles k s = Ok tt s' /\
    status s' = 1%Z /\ f2skip s' = f2skip s /\ fs s' = fs s /\
    trace s' = trace s ++ [EOpen true path false] /\
    next_index (S k) s' = next_index k s + (if marked_consumed s then 2 else 1).
Proof.
  intros Hp Hf. destruct_state s.
  unfold next_index, marked_consumed in *. cbn [skip f2skip] in *.
  unfold file_iteration, marked_consumed. run.
  assert (Hi : k + (if match fk with Some k0 => 0 <? k0 | None => false end
                    then sk + 1 else sk)
               = k + sk + (if match fk with Some k0 => 0 <? k0 | None => false end
                           then 1 else 0))
    by (destruct (match fk with Some k0 => 0 <? k0 | None => false end); lia).
  rewrite Hi, Hp. run. rewrite Hf. run.
  eexists. split; [reflexivity|].
  unfold next_index, marked_consumed.
  cbn [status skip f2skip ds ds2 summary fs trace].
  repeat split.
  destruct (match fk with Some k0 => 0 <? k0 | None => false end); lia.
Qed.

(** ** Invariants of a run *)

Lemma preserves_bind {A B} (I : State -> Prop) (m : M A) (k : A -> M B) :
  preserves I m -> (forall a, preserves I (k a)) -> preserves I (m ≫= k).
Proof.
  intros Hm Hk s HI. rewrite bind_eq. specialize (Hm s HI).
  destruct (m s) as [a s'|e s']; cbn [final_state] in *.
  - apply Hk. exact Hm.
  - exact Hm.
Qed.

Lemma preserves_quiet {A} (I : State -> Prop) (m : M A) :
  framed I -> quiet m -> preserves I m.
Proof.
  intros HI Hq s Hs. destruct (Hq s) as (H1 & H2 & H3 & H4 & H5).
  exact (HI s _ H1 H2 H3 H4 H5 Hs).
Qed.

Ltac quiet_step :=
  let s := fresh "s" in
  intros s; destruct_state s; run;
  repeat match goal with
         | |- context [match ?x with _ => _ end] => destruct x; run
         end;
  cbn [final_state status skip f2skip ds ds2 summary fs trace];
  repeat split; auto;
  first [ exists []; split; [symmetry; apply app_nil_r|constructor]
        | eexists; split; [reflexivity|repeat constructor] ].

Lemma quiet_ret {A} (a : A) : quiet (mret a).
Proof. quiet_step. Qed.

Lemma quiet_lift {A} e (o : option A) : quiet (lift e o).
Proof. quiet_step. Qed.

Lemma quiet_deref r : quiet (deref r).
Proof. quiet_step. Qed.

Lemma quiet_set_status : quiet (set_status 1).
Proof. quiet_step. Qed.

Lemma quiet_set_skip v : quiet (set_skip v).
Proof. quiet_step. Qed.

Lemma quiet_set_f2skip v : quiet (set_f2skip v).
Proof. quiet_step. Qed.

Lemma quiet_incr_f2skip : quiet incr_f2skip.
Proof. quiet_step. Qed.

Lemma quiet_set_summary v : quiet (set_summary v).
Proof. quiet_step. Qed.

Lemma quiet_incr_summary tv f : quiet (incr_summary tv f).
Proof. quiet_step. Qed.

Lemma quiet_log_polygon pts : quiet (log (EPolygon pts)).
Proof. quiet_step. Qed.

Lemma quiet_bind {A B} (m : M A) (k : A -> M B) :
  quiet m -> (forall a, quiet (k a)) -> quiet (m ≫= k).
Proof.
  intros Hm Hk s. rewrite bind_eq. specialize (Hm s).
  destruct (m s) as [a s'|e s']; cbn [final_state] in *; [|exact Hm].
  destruct Hm as (H1 & H2 & H3 & H4 & new & H5 & H6).
  destruct (Hk a s') as (K1 & K2 & K3 & K4 & new' & K5 & K6).
  rewrite K1, K2, K3, K5, H5. repeat split; try assumption.
  - destruct K4 as [K4|K4]; [rewrite K4; exact H4|right; exact K4].
  - exists (new ++ new'). split; [symmetry; apply app_assoc|].
    apply Forall_app. split; assumption.
Qed.

Ltac quiet_tac :=
  repeat first
    [ apply quiet_ret | apply quiet_lift | apply quiet_deref
    | apply quiet_set_status
    | apply quiet_set_skip | apply quiet_set_f2skip | apply quiet_incr_f2skip
    | apply quiet_set_summary | apply quiet_incr_summary
    | apply quiet_log_polygon
    | apply quiet_bind; [|intros ?]
    | match goal with
      | |- quiet (if ?b then _ else _) => destruct b
      | |- quiet (match ?x with _ => _ end) => destruct x
      end ].

Lemma quiet_hysteresis_flags area tv (thr : Thresholds) df pr dr idx idx2 fl fl2 :
  quiet (hysteresis_flags area tv thr df pr dr idx idx2 fl fl2).
Proof. unfold hysteresis_flags. quiet_tac. Qed.

Lemma preserves_for_each {A} (I : State -> Prop) (l : list A) (body : A -> M unit) :
  (forall x, x ∈ l -> preserves I (body x)) -> preserves I (for_each l body).
Proof.
  induction l as [|x l IH]; intros H; cbn [for_each].
  - intros s Hs. exact Hs.
  - apply preserves_bind.
    + apply H. left.
    + intros _. apply IH. intros y Hy. apply H. right. exact Hy.
Qed.

Lemma extends_refl d : extends d d.
Proof. repeat split. Qed.

Lemma extends_with_flags d0 d tv flags :
  tv ∈ test_varnames ->
  extends d0 d -> extends d0 (with_flags d (qc_varname tv) flags).
Proof.
  intros Htv (Ht & Hp & Hv). repeat split; cbn [with_flags time pressure data_vars];
    try assumption.
  intros name Hn. rewrite getitem_setitem_ne; [apply Hv; exact Hn|].
  intros <-. apply Hn. unfold flag_names. apply list_elem_of_fmap. eauto.
Qed.

Lemma status_sound_app st sk fk dx d2x sm files tr st' sk' fk' dx' d2x' sm' files'
  new :
  (st' = st \/ st' = 1%Z) ->
  Forall open_ok new ->
  status_sound (mkState st sk fk dx d2x sm files tr) ->
  status_sound (mkState st' sk' fk' dx' d2x' sm' files' (tr ++ new)).
Proof.
  unfold status_sound. cbn [status trace]. intros [->| ->] Hnew H H0.
  - apply Forall_app. split; [apply H; exact H0|exact Hnew].
  - discriminate.
Qed.

Section Kept.

Variable valid_polygons_area : list (float * float) -> option float.
Variable files0 : gmap string Dataset.
Variable ncfiles : list string.

Lemma framed_run_inv : framed (run_inv files0).
Proof.
  intros s s' Hfs Hds Hds2 Hst (new & Htr & Hnew) [Hk Hs]. split.
  - intros path d0 H0. unfold files_kept in Hk. rewrite Hfs. apply Hk. exact H0.
  - destruct_state s. destruct_state s'. subst.
    eapply status_sound_app; eauto.
Qed.

Lemma framed_pass_inv i o : framed (pass_inv files0 ncfiles i o).
Proof.
  intros s s' Hfs Hds Hds2 Hst Htr (Hr & H1 & H2). split; [|split].
  - exact (framed_run_inv s s' Hfs Hds Hds2 Hst Htr Hr).
  - intros path d0 d Hp H0 Hd. rewrite Hds in Hd. eapply H1; eauto.
  - intros f2 Ho d0 d2 H0 Hd. rewrite Hds2 in Hd. eapply H2; eauto.
Qed.

Lemma pass_inv_weaken i o s :
  pass_inv files0 ncfiles i o s -> pass_inv files0 ncfiles i None s.
Proof.
  intros (Hr & H1 & _). split; [exact Hr|]. split; [exact H1|]. discriminate.
Qed.

Section Pass.

Variable i : nat.
Variable tv : string.
Hypothesis Htv : tv ∈ test_varnames.

Lemma save_first_kept o fl :
  preserves (pass_inv files0 ncfiles i o) (save_first tv ncfiles i fl).
Proof.
  intros s ([Hk Hs] & H1 & H2). destruct_state s.
  unfold save_first, save_ds. run.
  destruct (ncfiles !! i) as [f|] eqn:Hf; run;
    [|exact (conj (conj Hk Hs) (conj H1 H2))].
  destruct dx as [d|]; run; [|exact (conj (conj Hk Hs) (conj H1 H2))].
  cbn [final_state].
  assert (Hext : forall d0, files0 !! f = Some d0 ->
                   extends d0 (with_flags d (qc_varname tv) fl)).
  { intros d0 H0. apply extends_with_flags; [exact Htv|].
    eapply (H1 f d0 d); eauto. }
  split; [split|split].
  - intros path d0 H0. cbn [fs].
    destruct (decide (path = f)) as [->|Hne].
    + rewrite lookup_insert_eq. eauto.
    + rewrite lookup_insert_ne by congruence. apply Hk. exact H0.
  - eapply status_sound_app; [left; reflexivity| |exact Hs].
    repeat constructor.
  - intros path d0 d' Hp H0 [= <-]. rewrite Hf in Hp. injection Hp as <-.
    apply Hext. exact H0.
  - intros f2 Ho d0 d2 H0 Hd. eapply (H2 f2 Ho); eauto.
Qed.

Lemma save_second_kept f2 fl2 :
  preserves (pass_inv files0 ncfiles i (Some f2)) (save_second tv f2 fl2).
Proof.
  intros s ([Hk Hs] & H1 & H2). destruct_state s.
  unfold save_second, save_ds. run.
  destruct d2x as [d2|]; run; [|exact (conj (conj Hk Hs) (conj H1 H2))].
  cbn [final_state].
  assert (Hext : forall d0, files0 !! f2 = Some d0 ->
                   extends d0 (with_flags d2 (qc_varname tv) fl2)).
  { intros d0 H0. apply extends_with_flags; [exact Htv|].
    eapply (H2 f2 eq_refl d0 d2); eauto. }
  split; [split|split].
  - intros path d0 H0. cbn [fs].
    destruct (decide (path = f2)) as [->|Hne].
    + rewrite lookup_insert_eq. eauto.
    + rewrite lookup_insert_ne by congruence. apply Hk. exact H0.
  - eapply status_sound_app; [left; reflexivity| |exact Hs].
    repeat constructor.
  - intros path d0 d' Hp H0 Hd. eapply (H1 path d0 d'); eauto.
  - intros f2' [= <-] d0 d2' H0 [= <-]. apply Hext. exact H0.
Qed.

Lemma open_second_kept f2 s :
  pass_inv files0 ncfiles i None s ->
  pass_inv files0 ncfiles i (Some f2) (final_state (open_second f2 s)).
Proof.
  intros ([Hk Hs] & H1 & _). destruct_state s.
  unfold open_second. run.
  destruct (files !! f2) as [d2|] eqn:Hf2; run.
  - cbn [final_state]. split; [split|split].
    + exact Hk.
    + eapply status_sound_app; [left; reflexivity| |exact Hs].
      repeat constructor.
    + exact H1.
    + intros f2' [= <-] d0 d2' H0 [= <-].
      destruct (Hk f2 d0 H0) as (d' & Hd' & Hext). cbn [fs] in Hd'.
      rewrite Hf2 in Hd'. injection Hd' as <-. exact Hext.
  - assert (Hnone : forall d0, files0 !! f2 = Some d0 -> False).
    { intros d0 H0. destruct (Hk f2 d0 H0) as (d' & Hd' & _). cbn [fs] in Hd'.
      congruence. }
    destruct fk as [k|]; run; cbn [final_state]; (split; [split|split]);
      try exact Hk; try exact H1;
      try (intros f2' [= <-] d0 d2' H0 _; destruct (Hnone d0 H0)).
    all: unfold status_sound; cbn [status]; discriminate.
Qed.

Ltac kept_tac :=
  repeat first
    [ apply save_first_kept | apply save_second_kept
    | apply preserves_quiet; [apply framed_pass_inv|quiet_tac; fail]
    | apply preserves_quiet;
      [apply framed_pass_inv|apply quiet_hysteresis_flags]
    | apply preserves_bind; [|intros ?]
    | match goal with
      | |- preserves _ (if ?b then _ else _) => destruct b
      | |- preserves _ (match ?x with _ => _ end) => destruct x
      end ].

Lemma look_ahead_kept (thr : Thresholds) f2 d idx fl :
  preserves (pass_inv files0 ncfiles i None)
    (look_ahead valid_polygons_area tv thr ncfiles i f2 d idx fl).
Proof.
  intros s Hs. unfold look_ahead. rewrite bind_eq.
  pose proof (open_second_kept f2 s Hs) as Ho.
  destruct (open_second f2 s) as [[] s1|e s1]; cbn [final_state] in *;
    [|eapply pass_inv_weaken; exact Ho].
  apply (pass_inv_weaken i (Some f2)). revert s1 Ho.
  change (preserves (pass_inv files0 ncfiles i (Some f2))
            (second_profile valid_polygons_area tv thr ncfiles i f2 d idx fl)).
  unfold second_profile, down_up, classify_pair, leave_unknown,
    leave_first_unknown, save_pair.
  kept_tac.
Qed.

Lemma test_variable_kept (cfg : Config) :
  preserves (pass_inv files0 ncfiles i None)
    (test_variable valid_polygons_area cfg ncfiles i tv).
Proof.
  unfold test_variable, leave_first_unknown.
  repeat first
    [ apply look_ahead_kept
    | apply save_first_kept
    | apply preserves_quiet; [apply framed_pass_inv|quiet_tac; fail]
    | apply preserves_bind; [|intros ?]
    | match goal with
      | |- preserves _ (if ?b then _ else _) => destruct b
      | |- preserves _ (match ?x with _ => _ end) => destruct x
      end ].
Qed.

End Pass.

Lemma file_iteration_kept (cfg : Config) k :
  preserves (run_inv files0) (file_iteration valid_polygons_area cfg ncfiles k).
Proof.
  intros s [Hk Hs]. destruct_state s. unfold file_iteration.
  set (i := k + _). run.
  destruct (ncfiles !! i) as [path|] eqn:Hp; run; [|exact (conj Hk Hs)].
  destruct (files !! path) as [d|] eqn:Hd; run.
  - match goal with
    | |- run_inv _ (final_state (for_each _ _ ?s1)) =>
        assert (H1 : pass_inv files0 ncfiles i None s1)
    end.
    { split; [split|split].
      - exact Hk.
      - eapply status_sound_app; [left; reflexivity| |exact Hs].
        repeat constructor.
      - intros path' d0 d' Hp' H0 [= <-]. rewrite Hp in Hp'. injection Hp' as <-.
        destruct (Hk path d0 H0) as (d' & Hd' & Hext). cbn [fs] in Hd'.
        rewrite Hd in Hd'. injection Hd' as <-. exact Hext.
      - discriminate. }
    eapply (preserves_for_each (pass_inv files0 ncfiles i None)) in H1.
    + destruct H1 as [H1 _]. exact H1.
    + intros tv Htv. apply test_variable_kept. exact Htv.
  - cbn [final_state]. split; [exact Hk|].
    unfold status_sound. cbn [status]. discriminate.
Qed.

End Kept.

Lemma deployment_iteration_kept area files0 env dep :
  preserves (run_inv files0) (deployment_iteration area env dep).
Proof.
  unfold deployment_iteration. cbv zeta.
  repeat first
    [ apply preserves_for_each; intros ? _; apply file_iteration_kept
    | apply preserves_quiet; [apply framed_run_inv|quiet_tac; fail]
    | apply preserves_bind; [|intros ?]
    | match goal with
      | |- preserves _ (if ?b then _ else _) => destruct b
      | |- preserves _ (match ?x with _ => _ end) => destruct x
      end ].
Qed.

Lemma main_kept area env deployments files :
  run_inv files (final_state (main area env deployments (initial_state files))) /\
  forall z s', main area env deployments (initial_state files) = Ok z s' ->
               z = status s' \/ z = 1%Z \/ trace s' = [].
Proof.
  assert (H0 : run_inv files (mkState 0 0 None None None ∅ files [])).
  { split.
    - intros path d0 Hp. exists d0. split; [exact Hp|apply extends_refl].
    - intros _. constructor. }
  unfold main, initial_state. run.
  destruct (deployments_root_is_str env); [|split; [exact H0|]].
  2: { intros z s' [= <- <-]. right. right. reflexivity. }
  destruct (negb (qc_config_root_isdir env)); [split; [exact H0|]|].
  { intros z s' [= <- <-]. right. left. reflexivity. }
  unfold process_deployments. rewrite bind_eq.
  pose proof (preserves_for_each (run_inv files) deployments
                (deployment_iteration area env)
                (fun dep _ => deployment_iteration_kept area files env dep)
                _ H0) as H.
  destruct (for_each deployments (deployment_iteration area env) _) as [[] s1|e s1];
    cbn [final_state] in *.
  - run. cbn [final_state]. split; [exact H|].
    intros z s' [= <- <-]. left. reflexivity.
  - split; [exact H|]. discriminate.
Qed.

(** X15: a run of the test never alters the data of a file: whatever the
    run does, and whether it returns or raises, every file that could be read
    at the start can still be read and holds the same time stamps, the same
    pressures and, under every name but those of the two flag variables, the
    same variable. *)
Theorem run_keeps_data area env deployments files path d0 :
  files !! path = Some d0 ->
  exists d,
    fs (final_state (main area env deployments (initial_state files))) !! path
    = Some d /\
    time d = time d0 /\ pressure d = pressure d0 /\
    forall name,
      name <> "conductivity_hysteresis_test"%string ->
      name <> "temperature_hysteresis_test"%string ->
      getitem (data_vars d) name = getitem (data_vars d0) name.
Proof.
  intros Hp. destruct (main_kept area env deployments files) as [[Hk _] _].
  destruct (Hk path d0 Hp) as (d & Hd & Ht & Hpr & Hv).
  exists d. repeat split; try assumption.
  intros name H1 H2. apply Hv. unfold flag_names.
  change (map qc_varname test_varnames)
    with ["conductivity_hysteresis_test"; "temperature_hysteresis_test"]%string.
  intros H. apply elem_of_cons in H as [H|H]; [congruence|].
  apply elem_of_cons in H as [H|H]; [congruence|].
  inversion H.
Qed.

(** X16: a run that returns the exit status 0 has read every file it
    opened, as first or as second profile: a failed read always shows in the
    status. *)
Theorem clean_exit_all_files_read area env deployments files s' :
  main area env deployments (initial_state files) = Ok 0%Z s' ->
  Forall open_ok (trace s').
Proof.
  intros H. destruct (main_kept area env deployments files) as [[_ Hs] Hz].
  rewrite H in Hs. cbn [final_state] in Hs.
  destruct (Hz _ _ H) as [Hst|[Hst|Htr]].
  - apply Hs. symmetry. exact Hst.
  - discriminate.
  - rewrite Htr. constructor.
Qed.

(** ** A lookahead that fails: what [ds2] then holds *)

Section Stale.

Variable valid_polygons_area : list (float * float) -> option float.
Variable config_dict : Config.
Variable ncfiles : list string.
Variable i : nat.
Variable testvar : string.

Lemma look_ahead_failed s (thr : Thresholds) d f2 idx fl k :
  fs s !! f2 = None ->
  f2skip s = Some k ->
  look_ahead valid_polygons_area testvar thr ncfiles i f2 d idx fl s
  = second_profile valid_polygons_area testvar thr ncfiles i f2 d idx fl
      (lookahead_failed s f2 k).
Proof.
  intros Hf2 Hk. destruct_state s. subst fk.
  unfold look_ahead, open_second, lookahead_failed. run. rewrite Hf2. run.
  reflexivity.
Qed.

Lemma test_variable_look_ahead s (thr : Thresholds) d f2 :
  config_dict !! qc_varname testvar = Some thr ->
  ds s = Some d ->
  ncfiles !! (i + 1) = Some f2 ->
  primary_down testvar d = true ->
  test_variable valid_polygons_area config_dict ncfiles i testvar s
  = look_ahead valid_polygons_area testvar thr ncfiles i f2 d
      (data_idx_of d testvar) (flag_vals_of d testvar) s.
Proof.
  intros Hc Hd Hn Hdown. unfold primary_down in Hdown.
  apply primary_has_data in Hdown as [Hidx Hdown].
  unfold orientation_as_first in Hdown.
  destruct (endpoints d (press_non_nan_ind d)) as [[a b]|] eqn:He; [|discriminate].
  rewrite (test_variable_primary valid_polygons_area config_dict ncfiles i testvar
             s thr d a b Hc Hd Hidx He).
  destruct (first_orientation a b); [|discriminate].
  rewrite Hn. reflexivity.
Qed.

(** X17: when the read of the file after a down profile fails and no
    second profile has been read before in the run, [ds2] is not bound: after
    the status is set to 1 and [f2skip] incremented, line 251 ends the run
    with an UnboundLocalError, and the first file is not saved. *)
Theorem failed_first_lookahead_raises s (thr : Thresholds) d f2 k :
  config_dict !! qc_varname testvar = Some thr ->
  ds s = Some d ->
  ncfiles !! (i + 1) = Some f2 ->
  fs s !! f2 = None ->
  f2skip s = Some k ->
  ds2 s = None ->
  primary_down testvar d = true ->
  test_variable valid_polygons_area config_dict ncfiles i testvar s
  = Raise UnboundLocalError (lookahead_failed s f2 k).
Proof.
  intros Hc Hd Hn Hf2 Hk Hd2 Hdown.
  rewrite (test_variable_look_ahead s thr d f2 Hc Hd Hn Hdown).
  rewrite (look_ahead_failed s thr d f2 _ _ k Hf2 Hk).
  destruct_state s. subst d2x. unfold second_profile, lookahead_failed. run.
  reflexivity.
Qed.

Lemma save_pair_second tv f2 fl fl2 s s' d2 :
  save_pair tv ncfiles i f2 fl fl2 s = Ok tt s' ->
  ds2 s = Some d2 ->
  fs s' !! f2 = Some (with_flags d2 (qc_varname tv) fl2) /\ status s' = status s.
Proof.
  destruct_state s. intros H ->. revert H.
  unfold save_pair, save_first, save_second, save_ds. run.
  destruct (ncfiles !! i) as [f|]; run; [|discriminate].
  destruct dx as [d|]; run; [|discriminate].
  destruct (np.contains 2 fl); run.
  - destruct (sm !! tv); run; [|discriminate].
    destruct fk; run; [|discriminate].
    intros [= <-]. cbn [fs status]. split; [apply lookup_insert_eq|reflexivity].
  - destruct fk; run; [|discriminate].
    intros [= <-]. cbn [fs status]. split; [apply lookup_insert_eq|reflexivity].
Qed.

Lemma leave_unknown_second tv f2 fl fl2 s s' d2 :
  leave_unknown tv ncfiles i f2 fl fl2 s = Ok tt s' ->
  ds2 s = Some d2 ->
  fs s' !! f2 = Some (with_flags d2 (qc_varname tv) fl2) /\ status s' = status s.
Proof.
  destruct_state s. intros H ->. revert H.
  unfold leave_unknown, save_first, save_second, save_ds. run.
  destruct (ncfiles !! i) as [f|]; run; [|discriminate].
  destruct dx as [d|]; run; [|discriminate].
  destruct (sm !! tv); run; [|discriminate].
  destruct fk; run; [|discriminate].
  intros [= <-]. cbn [fs status]. split; [apply lookup_insert_eq|reflexivity].
Qed.

Lemma down_up_second (thr : Thresholds) f2 d d2 idx idx2 fl fl2 s s' :
  down_up valid_polygons_area testvar thr ncfiles i f2 d d2 idx idx2 fl fl2 s
  = Ok tt s' ->
  ds2 s = Some d2 ->
  status s = 1%Z ->
  exists flags2,
    fs s' !! f2 = Some (with_flags d2 (qc_varname testvar) flags2) /\
    status s' = 1%Z.
Proof.
  intros H Hd2 Hst. revert H. unfold down_up.
  rewrite !bind_eq.
  destruct (lift IndexError (head (time d2)) s) as [t2 s0|] eqn:E0; [|discriminate].
  assert (s0 = s) as ->
    by (revert E0; unfold lift; destruct (head (time d2)); congruence).
  rewrite !bind_eq.
  destruct (lift IndexError (last (time d)) s) as [t1 s0|] eqn:E1; [|discriminate].
  assert (s0 = s) as ->
    by (revert E1; unfold lift; destruct (last (time d)); congruence).
  assert (Hleave : leave_unknown testvar ncfiles i f2 fl fl2 s = Ok tt s' ->
                   exists flags2,
                     fs s' !! f2 = Some (with_flags d2 (qc_varname testvar) flags2) /\
                     status s' = 1%Z).
  { intros H. destruct (leave_unknown_second _ _ _ _ _ _ _ H Hd2) as [H1 H2].
    exists fl2. split; [exact H1|congruence]. }
  destruct (t2 - t1 <? five_minutes)%Z; [|exact Hleave].
  rewrite !bind_eq.
  destruct (lift KeyError (apply_qartod_qc d testvar) s) as [c s0|] eqn:E2;
    [|discriminate].
  assert (s0 = s) as ->
    by (revert E2; unfold lift; destruct (apply_qartod_qc d testvar); congruence).
  rewrite !bind_eq.
  destruct (lift KeyError (apply_qartod_qc d2 testvar) s) as [c2 s0|] eqn:E3;
    [|discriminate].
  assert (s0 = s) as ->
    by (revert E3; unfold lift; destruct (apply_qartod_qc d2 testvar); congruence).
  destruct ((0 <? np.count_non_nan c) && (0 <? np.count_non_nan c2));
    [|exact Hleave].
  unfold classify_pair. rewrite !bind_eq.
  destruct (deref DS s) as [dd s0|] eqn:E4; [|discriminate].
  assert (s0 = s) as ->
    by (revert E4; unfold deref, lift; destruct (ds s); congruence).
  rewrite !bind_eq.
  destruct (deref DS2 s) as [dd2 s0|] eqn:E5; [|discriminate].
  assert (s0 = s) as ->
    by (revert E5; unfold deref, lift; destruct (ds2 s); congruence).
  cbv zeta. rewrite !bind_eq.
  destruct (lift ValueError (pressure_range_of _) s) as [pr s0|] eqn:E6;
    [|discriminate].
  assert (s0 = s) as ->
    by (revert E6; unfold lift; destruct (pressure_range_of _); congruence).
  rewrite !bind_eq.
  destruct (lift ValueError (data_range_of _) s) as [dr s0|] eqn:E7;
    [|discriminate].
  assert (s0 = s) as ->
    by (revert E7; unfold lift; destruct (data_range_of _); congruence).
  rewrite !bind_eq.
  pose proof (quiet_hysteresis_flags valid_polygons_area testvar thr
                (combined_table dd dd2 c c2) pr dr idx idx2 fl fl2 s)
    as (_ & _ & Q3 & Q4 & _).
  destruct (hysteresis_flags _ _ _ _ _ _ _ _ _ _ s) as [flags s2|] eqn:E8;
    [|discriminate].
  cbn [final_state] in Q3, Q4. intros H.
  assert (Hd2' : ds2 s2 = Some d2) by congruence.
  destruct (save_pair_second _ _ _ _ _ _ _ H Hd2') as [H1 H2].
  exists (snd flags). split; [exact H1|].
  rewrite H2. destruct Q4 as [Q4|Q4]; congruence.
Qed.

(** X18: when the read of the file after a down profile fails, [ds2]
    still holds the second profile of an earlier pair; if that profile has
    the variable and is up, the pass goes on with it as the second profile,
    and a pass that returns has written that earlier profile, with a flag
    array, under the name of the file that could not be read, with status 1. *)
Theorem failed_lookahead_saves_stale s s' (thr : Thresholds) d stale f2 k :
  config_dict !! qc_varname testvar = Some thr ->
  ds s = Some d ->
  ncfiles !! (i + 1) = Some f2 ->
  fs s !! f2 = None ->
  f2skip s = Some k ->
  ds2 s = Some stale ->
  primary_down testvar d = true ->
  second_up testvar stale = true ->
  test_variable valid_polygons_area config_dict ncfiles i testvar s = Ok tt s' ->
  exists flags2,
    fs s' !! f2 = Some (with_flags stale (qc_varname testvar) flags2) /\
    status s' = 1%Z.
Proof.
  intros Hc Hd Hn Hf2 Hk Hd2 Hdown Hup.
  rewrite (test_variable_look_ahead s thr d f2 Hc Hd Hn Hdown).
  rewrite (look_ahead_failed s thr d f2 _ _ k Hf2 Hk).
  unfold second_up in Hup. apply andb_prop in Hup as [Hv2 Ho2].
  destruct (getitem (data_vars stale) testvar) as [v2|] eqn:Ev2; [|discriminate].
  unfold orientation_as_second in Ho2.
  destruct (endpoints stale (press_non_nan_ind stale)) as [[a2 b2]|] eqn:He2;
    [|discriminate].
  destruct (getitem_initialize_flags stale testvar) as [[[idx2 pidx2] fl2] Hi2];
    [rewrite Ev2; eauto|].
  pose proof (initialize_flags_pressure _ _ _ _ _ Hi2) as ->.
  assert (E : second_profile valid_polygons_area testvar thr ncfiles i f2 d
                (data_idx_of d testvar) (flag_vals_of d testvar)
                (lookahead_failed s f2 k)
              = down_up valid_polygons_area testvar thr ncfiles i f2 d stale
                  (data_idx_of d testvar) idx2 (flag_vals_of d testvar) fl2
                  (lookahead_failed s f2 k)).
  { destruct_state s. subst d2x. unfold second_profile, lookahead_failed. run.
    rewrite Ev2, Hi2. run. rewrite He2. run.
    destruct (second_orientation a2 b2); [discriminate|reflexivity]. }
  rewrite E. intros H.
  apply (down_up_second _ _ _ _ _ _ _ _ _ _ H); [exact Hd2|reflexivity].
Qed.

End Stale.

(** ** The counters of the summary *)

Section Counting.

Variable valid_polygons_area : list (float * float) -> option float.
Variable ncfiles : list string.
Variable i : nat.
Variable tv : string.

Lemma count_effect_same {A} (o : Outcome A) s :
  summary (final_state o) = summary s -> count_effect ncfiles i tv s o.
Proof.
  intros H. split.
  - intros tv' _. rewrite H. reflexivity.
  - left. unfold counted. rewrite H. lia.
Qed.

Lemma count_effect_prefix {A B} (m : M A) (k : A -> M B) s :
  summary (final_state (m s)) = summary s ->
  (forall a s1, m s = Ok a s1 -> count_effect ncfiles i tv s1 (k a s1)) ->
  count_effect ncfiles i tv s ((m ≫= k) s).
Proof.
  intros Hm Hk. rewrite bind_eq. destruct (m s) as [a s1|e s1] eqn:E.
  - cbn [final_state] in Hm. specialize (Hk a s1 eq_refl).
    unfold count_effect, others_kept, counted in *. rewrite Hm in Hk. exact Hk.
  - apply count_effect_same. exact Hm.
Qed.

Lemma count_effect_lift {A B} e (o : option A) (k : A -> M B) s :
  (forall a, o = Some a -> count_effect ncfiles i tv s (k a s)) ->
  count_effect ncfiles i tv s ((lift e o ≫= k) s).
Proof.
  intros H. destruct o as [a|].
  - apply (H a eq_refl).
  - apply count_effect_same. reflexivity.
Qed.

Lemma counted_insert st sk fk dx d2x sm files tr (c : Counters) :
  counted tv (mkState st sk fk dx d2x (<[tv := c]> sm) files tr)
  = failed_profiles c + suspect_profiles c + unknown_profiles c.
Proof. unfold counted. cbn [summary]. rewrite lookup_insert_eq. reflexivity. Qed.

Lemma counted_some st sk fk dx d2x sm files tr (c : Counters) :
  sm !! tv = Some c ->
  counted tv (mkState st sk fk dx d2x sm files tr)
  = failed_profiles c + suspect_profiles c + unknown_profiles c.
Proof. intros Hc. unfold counted. cbn [summary]. rewrite Hc. reflexivity. Qed.

Ltac count_leaf Hc :=
  rewrite counted_insert; erewrite counted_some by exact Hc;
  cbn [add_unknown add_failed add_suspect
       failed_profiles suspect_profiles unknown_profiles];
  lia.

Lemma others_kept_insert st sk fk dx d2x sm files tr st' sk' fk' dx' d2x' files' tr'
  (c : Counters) :
  others_kept tv (mkState st sk fk dx d2x sm files tr)
    (mkState st' sk' fk' dx' d2x' (<[tv := c]> sm) files' tr').
Proof.
  intros tv' Hne. cbn [summary]. apply lookup_insert_ne. congruence.
Qed.

Lemma marked_succ st sk k dx d2x sm files tr :
  marked_consumed (mkState st sk (Some (k + 1)) dx d2x sm files tr) = true.
Proof. unfold marked_consumed. cbn [f2skip]. apply Nat.ltb_lt. lia. Qed.

Lemma leave_first_unknown_count fl s :
  count_effect ncfiles i tv s (leave_first_unknown tv ncfiles i fl s).
Proof.
  destruct_state s. unfold leave_first_unknown, save_first, save_ds. run.
  destruct (ncfiles !! i) as [f|]; run; [|apply count_effect_same; reflexivity].
  destruct dx as [d|]; run; [|apply count_effect_same; reflexivity].
  destruct (sm !! tv) as [c|] eqn:Hc; run; [|apply count_effect_same; reflexivity].
  split; cbn [final_state]; [apply others_kept_insert|].
  left. count_leaf Hc.
Qed.

Lemma leave_unknown_count f2 fl fl2 s :
  ncfiles !! (i + 1) = Some f2 ->
  count_effect ncfiles i tv s (leave_unknown tv ncfiles i f2 fl fl2 s).
Proof.
  intros Hf2. destruct_state s.
  unfold leave_unknown, save_first, save_second, save_ds. run.
  destruct (ncfiles !! i) as [f|]; run; [|apply count_effect_same; reflexivity].
  destruct dx as [d|]; run; [|apply count_effect_same; reflexivity].
  destruct d2x as [d2|]; run; [|apply count_effect_same; reflexivity].
  destruct (sm !! tv) as [c|] eqn:Hc; run; [|apply count_effect_same; reflexivity].
  destruct fk as [k|]; run;
    (split; cbn [final_state]; [apply others_kept_insert|]);
    right; (split; [|split; [eauto|]]).
  - count_leaf Hc.
  - intros _. apply marked_succ.
  - count_leaf Hc.
  - discriminate.
Qed.

(** What [save_pair] adds: nothing when the first flag array holds no
    UNKNOWN, two unknown profiles otherwise *)
Lemma save_pair_count f2 fl fl2 s :
  ncfiles !! (i + 1) = Some f2 ->
  let o := save_pair tv ncfiles i f2 fl fl2 s in
  others_kept tv s (final_state o) /\
  counted tv (final_state o) <= counted tv s + 2 /\
  (np.contains 2 fl = false -> summary (final_state o) = summary s) /\
  (is_ok o = true -> marked_consumed (final_state o) = true).
Proof.
  intros Hf2 o. subst o. destruct_state s.
  assert (Hsame : forall (o : Outcome unit),
            summary (final_state o) = sm -> is_ok o = false ->
            others_kept tv (mkState st sk fk dx d2x sm files tr) (final_state o) /\
            counted tv (final_state o)
            <= counted tv (mkState st sk fk dx d2x sm files tr) + 2 /\
            (np.contains 2 fl = false -> summary (final_state o) = sm) /\
            (is_ok o = true -> marked_consumed (final_state o) = true)).
  { intros o Hs Hok. split; [intros tv' _; rewrite Hs; reflexivity|].
    split; [unfold counted; rewrite Hs; cbn [summary]; lia|].
    split; [auto|]. rewrite Hok. discriminate. }
  unfold save_pair, save_first, save_second, save_ds. run.
  destruct (ncfiles !! i) as [f|]; run; [|apply Hsame; reflexivity].
  destruct dx as [d|]; run; [|apply Hsame; reflexivity].
  destruct d2x as [d2|]; run; [|apply Hsame; reflexivity].
  destruct (np.contains 2 fl); run.
  - destruct (sm !! tv) as [c|] eqn:Hc; run; [|apply Hsame; reflexivity].
    destruct fk as [k|]; run; cbn [final_state];
      (split; [apply others_kept_insert|]);
      (split; [count_leaf Hc|]);
      (split; [discriminate|]).
    + intros _. apply marked_succ.
    + discriminate.
  - destruct fk as [k|]; run; [|apply Hsame; reflexivity].
    cbn [final_state]. split; [intros tv' _; reflexivity|].
    split; [unfold counted; cbn [summary]; lia|].
    split; [reflexivity|]. intros _. apply marked_succ.
Qed.

(** What [hysteresis_flags] adds: nothing, or two failed or suspect
    profiles, and then the flag arrays hold FAIL or SUSPECT at the valid-data
    indices. *)
Lemma hysteresis_flags_count (thr : Thresholds) df pr dr idx idx2 fl fl2 s :
  let o := hysteresis_flags valid_polygons_area tv thr df pr dr idx idx2 fl fl2 s in
  others_kept tv s (final_state o) /\
  match o with
  | Ok flags s2 =>
      summary s2 = summary s \/
      (counted tv s2 = counted tv s + 2 /\
       exists flag, PrimFloat.eqb flag 2 = false /\
                    fst flags = np.set_idx fl idx flag)
  | Raise _ s2 => summary s2 = summary s
  end.
Proof.
  intros o. subst o. destruct_state s. unfold hysteresis_flags.
  assert (Hrefl : others_kept tv (mkState st sk fk dx d2x sm files tr)
                    (mkState st sk fk dx d2x sm files tr))
    by (intros tv' _; reflexivity).
  destruct (PrimFloat.ltb 5 pr); run; [|split; [exact Hrefl|left; reflexivity]].
  destruct (thr !! "test_threshold") as [tt'|]; run;
    [|split; [exact Hrefl|reflexivity]].
  destruct (PrimFloat.ltb tt' dr); run; [|split; [exact Hrefl|left; reflexivity]].
  destruct (polygon_points_of df) as [pts|]; run;
    [|split; [exact Hrefl|reflexivity]].
  destruct (valid_polygons_area pts) as [total|]; run;
    [|split; [intros tv' _; reflexivity|reflexivity]].
  destruct (thr !! "fail_threshold") as [ft|]; run;
    [|split; [intros tv' _; reflexivity|reflexivity]].
  destruct (PrimFloat.ltb (dr * ft) (total / pr)); run.
  - destruct (sm !! tv) as [c|] eqn:Hc; run;
      [|split; [intros tv' _; reflexivity|reflexivity]].
    cbn [final_state]. split; [apply others_kept_insert|].
    right. split.
    + count_leaf Hc.
    + exists QartodFlags.FAIL. split; reflexivity.
  - destruct (thr !! "suspect_threshold") as [st'|]; run;
      [|split; [intros tv' _; reflexivity|reflexivity]].
    destruct (PrimFloat.ltb (dr * st') (total / pr)); run.
    + destruct (sm !! tv) as [c|] eqn:Hc; run;
        [|split; [intros tv' _; reflexivity|reflexivity]].
      cbn [final_state]. split; [apply others_kept_insert|].
      right. split.
      * count_leaf Hc.
      * exists QartodFlags.SUSPECT. split; reflexivity.
    + split; [intros tv' _; reflexivity|left; reflexivity].
Qed.

Lemma classify_pair_count (thr : Thresholds) f2 c c2 idx idx2 pidx fl fl2 s d :
  ds s = Some d ->
  initialize_flags d tv = Some (idx, pidx, fl) ->
  ncfiles !! (i + 1) = Some f2 ->
  count_effect ncfiles i tv s
    (classify_pair valid_polygons_area tv thr ncfiles i f2 c c2
       idx idx2 fl fl2 s).
Proof.
  intros Hd Hi Hf2. unfold classify_pair.
  rewrite (bind_ok _ _ s d s) by (unfold deref; rewrite Hd; reflexivity).
  rewrite bind_eq. unfold deref at 1.
  destruct (ds2 s) as [d2|]; cbn [lift]; [|apply count_effect_same; reflexivity].
  cbv zeta.
  apply count_effect_lift. intros pr _.
  apply count_effect_lift. intros dr _.
  rewrite bind_eq.
  pose proof (hysteresis_flags_count thr (combined_table d d2 c c2) pr dr
                idx idx2 fl fl2 s) as [Hothers Hcase].
  destruct (hysteresis_flags valid_polygons_area tv thr
              (combined_table d d2 c c2) pr dr idx idx2 fl fl2 s)
    as [flags s2|e s2]; cbn [final_state] in *;
    [|apply count_effect_same; exact Hcase].
  pose proof (save_pair_count f2 (fst flags) (snd flags) s2 Hf2)
    as (Ko & Kc & Kz & Km).
  split.
  - intros tv' Hne. rewrite (Ko tv' Hne). apply Hothers. exact Hne.
  - right. split; [|split; [eauto|exact Km]].
    destruct Hcase as [Hsame|(Hplus & flag & Hflag & Hfst)].
    + unfold counted in *. rewrite Hsame in Kc. exact Kc.
    + destruct (initialize_flags_getitem _ _ _ Hi) as [values Hv].
      pose proof (flagged_set_idx d tv idx pidx fl values flag Hi Hv) as Hfl.
      rewrite <- Hfst in Hfl.
      pose proof (flagged_no_unknown _ _ _ Hfl Hflag) as Hno.
      specialize (Kz Hno). unfold counted in *. rewrite Kz. lia.
Qed.

Lemma down_up_count (thr : Thresholds) f2 idx idx2 pidx fl fl2 s d d2 :
  ds s = Some d ->
  initialize_flags d tv = Some (idx, pidx, fl) ->
  ncfiles !! (i + 1) = Some f2 ->
  count_effect ncfiles i tv s
    (down_up valid_polygons_area tv thr ncfiles i f2 d d2 idx idx2 fl fl2 s).
Proof.
  intros Hd Hi Hf2. unfold down_up.
  apply count_effect_lift. intros t2 _.
  apply count_effect_lift. intros t1 _.
  destruct (t2 - t1 <? five_minutes)%Z; [|apply leave_unknown_count; exact Hf2].
  apply count_effect_lift. intros c _.
  apply count_effect_lift. intros c2 _.
  destruct ((0 <? np.count_non_nan c) && (0 <? np.count_non_nan c2));
    [eapply classify_pair_count; eauto|apply leave_unknown_count; exact Hf2].
Qed.

Lemma second_profile_count (thr : Thresholds) f2 idx pidx fl s d :
  ds s = Some d ->
  initialize_flags d tv = Some (idx, pidx, fl) ->
  ncfiles !! (i + 1) = Some f2 ->
  count_effect ncfiles i tv s
    (second_profile valid_polygons_area tv thr ncfiles i f2 d idx fl s).
Proof.
  intros Hd Hi Hf2. unfold second_profile.
  rewrite bind_eq. unfold deref at 1.
  destruct (ds2 s) as [d2|]; cbn [lift]; [|apply count_effect_same; reflexivity].
  destruct (getitem (data_vars d2) tv).
  - apply count_effect_lift. intros [[idx2 pidx2] fl2] _.
    apply count_effect_lift. intros [a b] _.
    destruct (second_orientation a b).
    + apply leave_first_unknown_count.
    + eapply down_up_count; eauto.
  - apply count_effect_prefix; [reflexivity|].
    intros [] s1 _. apply leave_first_unknown_count.
Qed.

Lemma look_ahead_count (thr : Thresholds) f2 idx pidx fl s d :
  ds s = Some d ->
  initialize_flags d tv = Some (idx, pidx, fl) ->
  ncfiles !! (i + 1) = Some f2 ->
  count_effect ncfiles i tv s
    (look_ahead valid_polygons_area tv thr ncfiles i f2 d idx fl s).
Proof.
  intros Hd Hi Hf2. unfold look_ahead.
  destruct (open_second_effect ncfiles i tv f2 s Hf2) as [_ Hds].
  apply count_effect_prefix.
  - destruct_state s. unfold open_second. run.
    destruct (files !! f2); run; [reflexivity|]. destruct fk; reflexivity.
  - intros [] s1 Hs1. specialize (Hds _ Hs1). rewrite Hd in Hds.
    eapply second_profile_count; eauto.
Qed.

Lemma test_variable_count (cfg : Config) s :
  count_effect ncfiles i tv s
    (test_variable valid_polygons_area cfg ncfiles i tv s).
Proof.
  unfold test_variable.
  apply count_effect_lift. intros thr _.
  rewrite bind_eq. unfold deref at 1.
  destruct (ds s) as [d|] eqn:Hd; cbn [lift];
    [|apply count_effect_same; reflexivity].
  destruct (getitem (data_vars d) tv); [|apply count_effect_same; reflexivity].
  apply count_effect_lift. intros [[idx pidx] fl] Hi.
  destruct (length idx =? 0)%nat; [apply count_effect_same; reflexivity|].
  apply count_effect_lift. intros [a b] _.
  destruct (first_orientation a b).
  - destruct (ncfiles !! (i + 1)) as [f2|] eqn:Hf2.
    + eapply look_ahead_count; eauto.
    + apply leave_first_unknown_count.
  - apply leave_first_unknown_count.
Qed.

End Counting.

Lemma counted_others tv tv0 s s' :
  others_kept tv0 s s' -> tv <> tv0 -> counted tv s' = counted tv s.
Proof. intros H Hne. unfold counted. rewrite (H tv Hne). reflexivity. Qed.

Lemma marked_monotone s s' k :
  f2skip s = Some k ->
  (forall k0, f2skip s = Some k0 ->
     exists k', f2skip s' = Some k' /\ k0 <= k') ->
  marked_consumed s = true -> marked_consumed s' = true.
Proof.
  intros Hk H. destruct (H k Hk) as (k' & Hk' & Hle).
  unfold marked_consumed. rewrite Hk, Hk'.
  intros Hm%Nat.ltb_lt. apply Nat.ltb_lt. lia.
Qed.

Section CountingLoop.

Variable valid_polygons_area : list (float * float) -> option float.
Variable cfg : Config.
Variable ncfiles : list string.

(** What the passes of one iteration add to the counters of a test
    variable *)
Lemma passes_count i s1 k0 :
  f2skip s1 = Some k0 ->
  let o := for_each test_varnames
             (test_variable valid_polygons_area cfg ncfiles i) s1 in
  is_ok o = true ->
  skip (final_state o) = skip s1 /\
  forall tv, tv ∈ test_varnames ->
    counted tv (final_state o) <= counted tv s1 + 1 \/
    (counted tv (final_state o) <= counted tv s1 + 2 /\
     is_Some (ncfiles !! (i + 1)) /\ marked_consumed (final_state o) = true).
Proof.
  intros Hk0 o. subst o. cbn [for_each test_varnames].
  pose proof (test_variable_effect valid_polygons_area ncfiles i "conductivity"
                cfg s1) as (new1 & _ & Hs1 & _ & _ & _ & Hk1).
  pose proof (test_variable_count valid_polygons_area ncfiles i "conductivity"
                cfg s1) as [Ho1 Hc1].
  rewrite bind_eq.
  destruct (test_variable valid_polygons_area cfg ncfiles i "conductivity" s1)
    as [[] s2|e s2]; cbn [final_state is_ok] in *; [|discriminate].
  destruct (Hk1 _ Hk0) as (k1 & Hf1 & _ & _).
  pose proof (test_variable_effect valid_polygons_area ncfiles i "temperature"
                cfg s2) as (new2 & _ & Hs2 & _ & _ & _ & Hk2).
  pose proof (test_variable_count valid_polygons_area ncfiles i "temperature"
                cfg s2) as [Ho2 Hc2].
  rewrite bind_eq.
  destruct (test_variable valid_polygons_area cfg ncfiles i "temperature" s2)
    as [[] s3|e s3]; unfold mret, M_ret, ret; cbn [final_state is_ok] in *;
    [|discriminate].
  intros _. split; [congruence|].
  assert (Hmark : marked_consumed s2 = true -> marked_consumed s3 = true).
  { apply (marked_monotone s2 s3 k1 Hf1). intros k Hk.
    destruct (Hk2 _ Hk) as (k' & ? & ? & _). eauto. }
  intros tv Htv.
  apply elem_of_cons in Htv as [->|Htv];
    [|apply elem_of_cons in Htv as [->|Htv]; [|inversion Htv]].
  - rewrite (counted_others "conductivity" "temperature" s2 s3 Ho2)
      by discriminate.
    destruct Hc1 as [Hc1|(Hc1 & Hn & Hm)]; [left; exact Hc1|].
    right. split; [exact Hc1|]. split; [exact Hn|]. apply Hmark, Hm. reflexivity.
  - rewrite <- (counted_others "temperature" "conductivity" s1 s2 Ho1)
      by discriminate.
    destruct Hc2 as [Hc2|(Hc2 & Hn & Hm)]; [left; exact Hc2|].
    right. split; [exact Hc2|]. split; [exact Hn|]. apply Hm. reflexivity.
Qed.

Lemma file_iteration_counters k s :
  counters_bounded ncfiles k s ->
  let o := file_iteration valid_polygons_area cfg ncfiles k s in
  is_ok o = true -> counters_bounded ncfiles (S k) (final_state o).
Proof.
  intros Hinv o. subst o. destruct_state s.
  unfold file_iteration. run.
  assert (Hnext : next_index k (mkState st sk fk dx d2x sm files tr)
                  = k + (if marked_consumed (mkState st sk fk dx d2x sm files tr)
                         then sk + 1 else sk)).
  { unfold next_index. cbn [skip]. destruct (marked_consumed _); lia. }
  remember (if marked_consumed (mkState st sk fk dx d2x sm files tr)
            then sk + 1 else sk) as sk' eqn:Esk.
  clear Esk.
  assert (Hbound : forall tv, tv ∈ test_varnames ->
            counted tv (mkState st sk fk dx d2x sm files tr) <= k + sk' /\
            counted tv (mkState st sk fk dx d2x sm files tr) <= length ncfiles).
  { intros tv Htv. destruct (Hinv tv Htv) as [H1 H2]. rewrite Hnext in H1.
    split; assumption. }
  clear Hinv Hnext.
  destruct (ncfiles !! (k + sk')) as [path|] eqn:Hp; run.
  - apply lookup_lt_Some in Hp.
    destruct (files !! path) as [d|] eqn:Hd; run.
    + pose proof (passes_count (k + sk')
                    (mkState st sk' (Some 0) (Some d) d2x sm
                       files (tr ++ [EOpen true path (bool_decide (is_Some (Some d)))]))
                    0 eq_refl) as H.
      cbv zeta in H.
      destruct (for_each test_varnames _ _) as [[] s3|e s3];
        cbn [final_state is_ok] in *; [|discriminate].
      intros _. destruct (H eq_refl) as [Hskip Hcount]. cbn [skip] in Hskip.
      intros tv Htv. destruct (Hbound tv Htv) as [H1 H2].
      specialize (Hcount tv Htv).
      change (counted tv
                (mkState st sk' (Some 0) (Some d) d2x sm files
                   (tr ++ [EOpen true path (bool_decide (is_Some (Some d)))])))
        with (counted tv (mkState st sk fk dx d2x sm files tr)) in Hcount.
      unfold next_index. rewrite Hskip.
      destruct Hcount as [Hle|(Hle & [f2 Hn] & Hm)].
      * split; lia.
      * apply lookup_lt_Some in Hn. rewrite Hm. split; lia.
    + intros _ tv Htv. destruct (Hbound tv Htv) as [H1 H2].
      unfold next_index.
      change (counted tv (final_state _))
        with (counted tv (mkState st sk fk dx d2x sm files tr)).
      cbn [final_state skip]. split; [lia|exact H2].
  - intros _ tv Htv. destruct (Hbound tv Htv) as [H1 H2].
    unfold next_index.
    change (counted tv (final_state _))
      with (counted tv (mkState st sk fk dx d2x sm files tr)).
    cbn [final_state skip]. split; [lia|exact H2].
Qed.

Lemma files_loop_counters n :
  forall k s,
    counters_bounded ncfiles k s ->
    let o := for_each (seq k n)
               (file_iteration valid_polygons_area cfg ncfiles) s in
    is_ok o = true ->
    forall tv, tv ∈ test_varnames ->
      counted tv (final_state o) <= length ncfiles.
Proof.
  induction n as [|n IH]; intros k s Hinv o; subst o; cbn [seq for_each].
  - intros _ tv Htv. apply (Hinv tv Htv).
  - pose proof (file_iteration_counters k s Hinv) as Hstep. cbv zeta in Hstep.
    rewrite bind_eq.
    destruct (file_iteration valid_polygons_area cfg ncfiles k s) as [[] s'|e s'];
      cbn [final_state is_ok] in *; [|discriminate].
    apply IH. apply Hstep. reflexivity.
Qed.

End CountingLoop.

(** X19: when the loop over the files of a deployment returns, the
    summary counts, for each test variable, no more failed, suspect and
    unknown profiles together than the deployment has files. *)
Theorem summary_within_file_count
  (valid_polygons_area : list (float * float) -> option float)
  env dep (cfg : Config) s s' tv :
  data_path_found dep = true ->
  proc_logs_isdir dep = true ->
  match deployment_config dep with
  | Some c => Some c
  | None => default_config env
  end = Some cfg ->
  ncfiles dep <> [] ->
  deployment_iteration valid_polygons_area env dep s = Ok tt s' ->
  tv ∈ test_varnames ->
  counted tv s' <= length (ncfiles dep).
Proof.
  intros Hpath Hlogs Hcfg Hnc Hrun Htv. revert Hrun.
  unfold deployment_iteration. rewrite Hpath, Hlogs, Hcfg. cbn [negb].
  destruct (ncfiles dep) as [|f rest] eqn:E; [congruence|].
  cbn [length Nat.eqb]. destruct_state s. run. intros Hrun.
  pose proof (files_loop_counters valid_polygons_area cfg (f :: rest)
                (S (length rest)) 0
                (mkState st 0 fk dx d2x new_summary files tr)) as H.
  cbv zeta in H. cbn [length] in H. rewrite Hrun in H.
  apply (H); [|reflexivity|exact Htv].
  intros tv' Htv'. split.
  - apply elem_of_cons in Htv' as [->|Htv'];
      [|apply elem_of_cons in Htv' as [->|Htv']; [|inversion Htv']];
      vm_compute; lia.
  - apply elem_of_cons in Htv' as [->|Htv'];
      [|apply elem_of_cons in Htv' as [->|Htv']; [|inversion Htv']];
      unfold counted; cbn [summary]; vm_compute; lia.
Qed.

(** ** The mark of a consumed file across deployments *)

Lemma files_loop_extends area (cfg : Config) ncfiles l :
  forall s, exists new,
    trace (final_state (for_each l (file_iteration area cfg ncfiles) s))
    = trace s ++ new.
Proof.
  induction l as [|k l IH]; intros s; cbn [for_each].
  - exists []. symmetry. apply app_nil_r.
  - rewrite bind_eq.
    destruct (file_iteration_effect area cfg ncfiles k s) as (new & Ht & _).
    destruct (file_iteration area cfg ncfiles k s) as [[] s1|e s1];
      cbn [final_state] in *.
    + destruct (IH s1) as (new' & Ht'). exists (new ++ new').
      rewrite Ht', Ht. symmetry. apply app_assoc.
    + exists new. exact Ht.
Qed.

Lemma file_iteration_opens area (cfg : Config) ncfiles k s path :
  ncfiles !! next_index k s = Some path ->
  exists ok later,
    trace (final_state (file_iteration area cfg ncfiles k s))
    = trace s ++ EOpen true path ok :: later.
Proof.
  intros Hp. destruct_state s. unfold file_iteration. run.
  assert (Hnext : next_index k (mkState st sk fk dx d2x sm files tr)
                  = k + (if marked_consumed (mkState st sk fk dx d2x sm files tr)
                         then sk + 1 else sk)).
  { unfold next_index. cbn [skip]. destruct (marked_consumed _); lia. }
  rewrite Hnext in Hp. rewrite Hp. run.
  destruct (files !! path) as [d|]; run.
  - match goal with
    | |- context [for_each test_varnames ?body ?s1] =>
        destruct (passes_effect area cfg ncfiles
                    (k + (if marked_consumed (mkState st sk fk dx d2x sm files tr)
                          then sk + 1 else sk)) s1 0 eq_refl)
          as (later & Ht & _)
    end.
    cbv zeta in Ht. rewrite Ht. cbn [trace].
    eexists _, later. rewrite <- app_assoc. reflexivity.
  - cbn [final_state trace]. eexists _, []. reflexivity.
Qed.

(** X20: [f2skip] is not reset between deployments.  When the deployment
    before left it positive (its last iteration that read a file consumed a
    pair), the first iteration of the next deployment adds one to [skip]: the
    first file the deployment opens is the second of its list, and its first
    file is skipped. *)
Theorem mark_survives_deployment
  (valid_polygons_area : list (float * float) -> option float)
  env dep (cfg : Config) s f0 f1 rest :
  data_path_found dep = true ->
  proc_logs_isdir dep = true ->
  match deployment_config dep with
  | Some c => Some c
  | None => default_config env
  end = Some cfg ->
  ncfiles dep = f0 :: f1 :: rest ->
  marked_consumed s = true ->
  exists ok later,
    trace (final_state (deployment_iteration valid_polygons_area env dep s))
    = trace s ++ EOpen true f1 ok :: later.
Proof.
  intros Hpath Hlogs Hcfg Hnc Hm.
  unfold deployment_iteration. rewrite Hpath, Hlogs, Hcfg, Hnc. cbn [negb].
  cbn [length Nat.eqb]. destruct_state s. run.
  change (seq 0 (S (S (length rest)))) with (0 :: seq 1 (S (length rest))).
  cbn [for_each]. rewrite bind_eq.
  destruct (file_iteration_opens valid_polygons_area cfg (f0 :: f1 :: rest) 0
              (mkState st 0 fk dx d2x new_summary files tr) f1)
    as (ok & later & Ht).
  { unfold next_index. cbn [skip].
    change (marked_consumed (mkState st 0 fk dx d2x new_summary files tr))
      with (marked_consumed (mkState st sk fk dx d2x sm files tr)).
    rewrite Hm. reflexivity. }
  cbn [trace] in Ht.
  destruct (file_iteration valid_polygons_area cfg (f0 :: f1 :: rest) 0 _)
    as [[] s1|e s1]; cbn [final_state] in *.
  - destruct (files_loop_extends valid_polygons_area cfg (f0 :: f1 :: rest)
                (seq 1 (S (length rest))) s1) as (new & Hnew).
    rewrite Hnew, Ht.
    exists ok, (later ++ new). rewrite <- app_assoc. reflexivity.
  - exists ok, later. exact Ht.
Qed.

(** * The encoding of a data array *)

Section Encoding.

Variable default_fillvals : gmap string common.Value.

Lemma with_dtype_lookup t (e : gmap string common.Value) k :
  common.with_dtype t e !! k
  = if decide (k = "dtype"%string)
    then Some (default (common.VDtype t) (e !! "dtype"))
    else e !! k.
Proof.
  unfold common.with_dtype.
  destruct (e !! "dtype") as [v|] eqn:E; destruct (decide (k = "dtype"%string)) as [->|Hne];
    cbn [default]; try reflexivity.
  - exact E.
  - apply lookup_insert_eq.
  - apply lookup_insert_ne. congruence.
Qed.

Lemma with_dtype_idem t (e : gmap string common.Value) :
  common.with_dtype t (common.with_dtype t e) = common.with_dtype t e.
Proof.
  unfold common.with_dtype at 1. rewrite with_dtype_lookup.
  destruct (decide _); [reflexivity|congruence].
Qed.

(** X21: when [set_encoding] returns, the encoding of the array holds a
    ['dtype'] and a ['_FillValue']; every entry of the encoding it started
    from (the one passed in when that is not empty, the array's own otherwise)
    is kept with its value, nothing but these two keys is added, and a fill
    value that was missing is the default of the array's own dtype. *)
Theorem set_encoding_completes data_array original_encoding result :
  common.set_encoding default_fillvals data_array original_encoding
  = common.Returned result ->
  let base := common.base_encoding data_array original_encoding in
  common.dtype result = common.dtype data_array /\
  is_Some (common.encoding result !! "dtype") /\
  is_Some (common.encoding result !! "_FillValue") /\
  (forall k v, base !! k = Some v -> common.encoding result !! k = Some v) /\
  (forall k, k <> "dtype"%string -> k <> "_FillValue"%string ->
     common.encoding result !! k = base !! k) /\
  (base !! "_FillValue" = None ->
   common.encoding result !! "_FillValue"
   = default_fillvals !! common.data_type (common.dtype data_array)).
Proof.
  unfold common.set_encoding. cbv zeta.
  set (t := common.dtype data_array).
  set (base := common.base_encoding data_array original_encoding).
  assert (Hd : is_Some (common.with_dtype t base !! "dtype")).
  { rewrite with_dtype_lookup. destruct (decide _); [eauto|congruence]. }
  assert (Hf : common.with_dtype t base !! "_FillValue" = base !! "_FillValue").
  { rewrite with_dtype_lookup. destruct (decide _); [discriminate|reflexivity]. }
  assert (Hkeep : forall k v, base !! k = Some v ->
                    common.with_dtype t base !! k = Some v).
  { intros k v Hk. rewrite with_dtype_lookup.
    destruct (decide _) as [->|]; [rewrite Hk; reflexivity|exact Hk]. }
  assert (Hother : forall k, k <> "dtype"%string ->
                     common.with_dtype t base !! k = base !! k).
  { intros k Hk. rewrite with_dtype_lookup.
    destruct (decide _); [congruence|reflexivity]. }
  destruct (common.with_dtype t base !! "_FillValue") as [fv|] eqn:Efill.
  - intros [= <-]. cbn [common.dtype common.encoding].
    split; [reflexivity|]. split; [exact Hd|]. split; [rewrite Efill; eauto|].
    split; [exact Hkeep|]. split; [intros k Hk _; apply Hother, Hk|].
    intros Hnone. congruence.
  - destruct (default_fillvals !! common.data_type t) as [v|] eqn:Etab;
      [|discriminate].
    intros [= <-]. cbn [common.dtype common.encoding].
    split; [reflexivity|].
    split; [rewrite lookup_insert_ne by discriminate; exact Hd|].
    split; [rewrite lookup_insert_eq; eauto|].
    split; [|split].
    + intros k v' Hk. destruct (decide (k = "_FillValue"%string)) as [->|Hne].
      * congruence.
      * rewrite lookup_insert_ne by congruence. apply Hkeep, Hk.
    + intros k Hk1 Hk2. rewrite lookup_insert_ne by congruence. apply Hother, Hk1.
    + intros _. apply lookup_insert_eq.
Qed.

(** X22: [set_encoding] is idempotent: on an array it has returned, a
    second call without an encoding returns the array as it is. *)
Theorem set_encoding_idempotent data_array original_encoding result :
  common.set_encoding default_fillvals data_array original_encoding
  = common.Returned result ->
  common.set_encoding default_fillvals result None = common.Returned result.
Proof.
  unfold common.set_encoding. cbv zeta.
  set (t := common.dtype data_array).
  set (base := common.base_encoding data_array original_encoding).
  destruct (common.with_dtype t base !! "_FillValue") as [fv|] eqn:Efill.
  - intros [= <-]. cbn [common.dtype common.encoding common.base_encoding].
    rewrite with_dtype_idem, Efill. reflexivity.
  - destruct (default_fillvals !! common.data_type t) as [v|] eqn:Etab;
      [|discriminate].
    intros [= <-]. cbn [common.dtype common.encoding common.base_encoding].
    assert (E : common.with_dtype t (<["_FillValue" := v]> (common.with_dtype t base))
                = <["_FillValue" := v]> (common.with_dtype t base)).
    { unfold common.with_dtype at 1.
      rewrite lookup_insert_ne by discriminate. rewrite with_dtype_lookup.
      destruct (decide _); [reflexivity|congruence]. }
    rewrite E, lookup_insert_eq. reflexivity.
Qed.

(** X23: when the encoding has no fill value and the table of default
    fill values has no entry for the dtype of the array, [set_encoding] ends
    with a KeyError, after it has put the ['dtype'] into the encoding: the
    array is left with the encoding it started from, completed by the dtype,
    and without a fill value. *)
Theorem set_encoding_unknown_dtype data_array original_encoding :
  common.base_encoding data_array original_encoding !! "_FillValue" = None ->
  default_fillvals !! common.data_type (common.dtype data_array) = None ->
  exists result,
    common.set_encoding default_fillvals data_array original_encoding
    = common.Raised KeyError result /\
    is_Some (common.encoding result !! "dtype") /\
    common.encoding result !! "_FillValue" = None /\
    forall k v,
      common.base_encoding data_array original_encoding !! k = Some v ->
      common.encoding result !! k = Some v.
Proof.
  intros Hfill Htab. unfold common.set_encoding. cbv zeta.
  set (t := common.dtype data_array) in *.
  set (base := common.base_encoding data_array original_encoding) in *.
  assert (Hf : common.with_dtype t base !! "_FillValue" = None).
  { rewrite with_dtype_lookup. destruct (decide _); [discriminate|exact Hfill]. }
  rewrite Hf, Htab. eexists. split; [reflexivity|].
  cbn [common.encoding]. split; [|split; [exact Hf|]].
  - rewrite with_dtype_lookup. destruct (decide _); [eauto|congruence].
  - intros k v Hk. rewrite with_dtype_lookup.
    destruct (decide _) as [->|]; [rewrite Hk; reflexivity|exact Hk].
Qed.

End Encoding.

(** ** The properties at work on the example data *)

Lemma apply_qartod_qc_pointwise_witness :
  exists datacopy,
    apply_qartod_qc Cases.flagged_cast "conductivity" = Some datacopy /\
    length datacopy = length [1; 2; PrimFloat.nan; 4]%float /\
    (forall j x, [1; 2; PrimFloat.nan; 4]%float !! j = Some x ->
       datacopy !! j
       = Some (if flagged_at (qartod_vars Cases.flagged_cast "conductivity") j
               then PrimFloat.nan else x)) /\
    (forall j x y, [1; 2; PrimFloat.nan; 4]%float !! j = Some x ->
       datacopy !! j = Some y -> np.isnan x = true -> np.isnan y = true).
Proof.
  apply (apply_qartod_qc_pointwise Cases.flagged_cast "conductivity"
           [1; 2; PrimFloat.nan; 4]%float).
  reflexivity.
Defined.

Lemma initialize_flags_result_witness :
  exists non_nan_i pressure_idx flags,
    initialize_flags Example.down_cast "temperature"
    = Some (non_nan_i, pressure_idx, flags) /\
    flagged [10; PrimFloat.nan; 8; 7]%float flags QartodFlags.UNKNOWN /\
    (forall j, j ∈ non_nan_i
               <-> exists x, [10; PrimFloat.nan; 8; 7]%float !! j = Some x /\
                             np.isnan x = false) /\
    (forall j, j ∈ pressure_idx
               <-> exists p, pressure Example.down_cast !! j = Some p /\
                             np.isnan p = false) /\
    StronglySorted lt non_nan_i /\ StronglySorted lt pressure_idx.
Proof.
  apply (initialize_flags_result Example.down_cast "temperature"
           [10; PrimFloat.nan; 8; 7]%float).
  reflexivity.
Defined.

Lemma save_ds_round_trip_witness :
  exists s',
    save_ds DS [2; 2; 2; 2]%float "conductivity_hysteresis_test" "a.nc"
      (Example.first_read Example.down_cast Example.files) = Ok tt s' /\
    ds s' = fs s' !! "a.nc" /\
    (exists d', fs s' !! "a.nc" = Some d' /\
       getitem (data_vars d') "conductivity_hysteresis_test"
       = Some [2; 2; 2; 2]%float /\
       (forall name, name <> "conductivity_hysteresis_test"%string ->
          getitem (data_vars d') name
          = getitem (data_vars Example.down_cast) name) /\
       time d' = time Example.down_cast /\
       pressure d' = pressure Example.down_cast) /\
    (forall path, path <> "a.nc"%string ->
       fs s' !! path
       = fs (Example.first_read Example.down_cast Example.files) !! path).
Proof.
  apply (save_ds_round_trip DS [2; 2; 2; 2]%float "conductivity_hysteresis_test"
           "a.nc" (Example.first_read Example.down_cast Example.files)
           Example.down_cast).
  reflexivity.
Defined.

Lemma merge_on_time_rows_witness :
  merge_on_time [0; 1; 2; 3]%Z [1; 2; 3; 4]%float [0; 5; 10; 20]%float
  = zip [1; 2; 3; 4]%float [0; 5; 10; 20]%float.
Proof.
  apply (merge_on_time_rows [0; 1; 2; 3]%Z [1; 2; 3; 4]%float
           [0; 5; 10; 20]%float).
  - apply (bool_decide_unpack _). vm_compute. exact I.
  - reflexivity.
  - reflexivity.
Defined.

Lemma up_cast_saved_alone_witness :
  primary_up "conductivity" Example.up_cast = true /\
  test_variable Example.area Example.config ["a.nc"; "f.nc"] 1 "conductivity"
    (Example.first_read Example.up_cast Cases.files)
  = Ok tt (saved_alone "conductivity" "f.nc" Example.up_cast (mkCounters 0 0 0)
             (Example.first_read Example.up_cast Cases.files)).
Proof.
  split; [reflexivity|].
  apply (up_cast_saved_alone Example.area Example.config ["a.nc"; "f.nc"] 1
           "conductivity" (Example.first_read Example.up_cast Cases.files)
           Example.thresholds Example.up_cast "f.nc" (mkCounters 0 0 0));
    vm_compute; reflexivity.
Defined.

Lemma last_file_saved_alone_witness :
  primary_down "conductivity" Example.down_cast = true /\
  test_variable Example.area Example.config ["a.nc"] 0 "conductivity"
    (Example.first_read Example.down_cast Cases.files)
  = Ok tt (saved_alone "conductivity" "a.nc" Example.down_cast
             (mkCounters 0 0 0)
             (Example.first_read Example.down_cast Cases.files)).
Proof.
  split; [reflexivity|].
  apply (last_file_saved_alone Example.area Example.config ["a.nc"] 0
           "conductivity" (Example.first_read Example.down_cast Cases.files)
           Example.thresholds Example.down_cast "a.nc" (mkCounters 0 0 0));
    vm_compute; reflexivity.
Defined.

Lemma two_down_casts_first_saved_witness :
  second_down "conductivity" Example.later_down = true /\
  test_variable Example.area Example.config ["a.nc"; "c.nc"] 0 "conductivity"
    (Example.first_read Example.down_cast Cases.files)
  = Ok tt (saved_alone "conductivity" "a.nc" Example.down_cast
             (mkCounters 0 0 0)
             (opened (Example.first_read Example.down_cast Cases.files) "c.nc"
                Example.later_down)) /\
  f2skip (saved_alone "conductivity" "a.nc" Example.down_cast
            (mkCounters 0 0 0)
            (opened (Example.first_read Example.down_cast Cases.files) "c.nc"
               Example.later_down))
  = f2skip (Example.first_read Example.down_cast Cases.files).
Proof.
  split; [reflexivity|].
  apply (two_down_casts_first_saved Example.area Example.config ["a.nc"; "c.nc"]
           0 "conductivity" (Example.first_read Example.down_cast Cases.files)
           Example.thresholds Example.down_cast Example.later_down "a.nc" "c.nc"
           (mkCounters 0 0 0));
    vm_compute; reflexivity.
Defined.

Lemma lookahead_without_variable_witness :
  getitem (data_vars Cases.temperature_only) "conductivity" = None /\
  test_variable Example.area Example.config ["a.nc"; "b.nc"] 0 "conductivity"
    (Example.first_read Example.down_cast Cases.files)
  = Ok tt (saved_alone "conductivity" "a.nc" Example.down_cast
             (mkCounters 0 0 0)
             (with_status 1
                (opened (Example.first_read Example.down_cast Cases.files)
                   "b.nc" Cases.temperature_only))) /\
  f2skip (saved_alone "conductivity" "a.nc" Example.down_cast
            (mkCounters 0 0 0)
            (with_status 1
               (opened (Example.first_read Example.down_cast Cases.files)
                  "b.nc" Cases.temperature_only)))
  = f2skip (Example.first_read Example.down_cast Cases.files).
Proof.
  split; [reflexivity|].
  apply (lookahead_without_variable Example.area Example.config
           ["a.nc"; "b.nc"] 0 "conductivity"
           (Example.first_read Example.down_cast Cases.files)
           Example.thresholds Example.down_cast Cases.temperature_only
           "a.nc" "b.nc" (mkCounters 0 0 0));
    vm_compute; reflexivity.
Defined.

Lemma distant_pair_left_unknown_witness :
  beyond_window Example.down_cast Cases.distant_up = true /\
  test_variable Example.area Example.config ["a.nc"; "d.nc"] 0 "conductivity"
    (Example.first_read Example.down_cast Cases.files)
  = Ok tt (saved_both_unknown "conductivity" "a.nc" "d.nc" Example.down_cast
             Cases.distant_up (mkCounters 0 0 0) 0
             (Example.first_read Example.down_cast Cases.files)).
Proof.
  split; [reflexivity|].
  apply (distant_pair_left_unknown Example.area Example.config
           ["a.nc"; "d.nc"] 0 "conductivity"
           (Example.first_read Example.down_cast Cases.files)
           Example.thresholds Example.down_cast Cases.distant_up
           "a.nc" "d.nc" (mkCounters 0 0 0) 0);
    vm_compute; reflexivity.
Defined.

Lemma masked_pair_left_unknown_witness :
  data_remaining "conductivity" Cases.masked_down Example.up_cast = false /\
  test_variable Example.area Example.config ["e.nc"; "f.nc"] 0 "conductivity"
    (Example.first_read Cases.masked_down Cases.files)
  = Ok tt (saved_both_unknown "conductivity" "e.nc" "f.nc" Cases.masked_down
             Example.up_cast (mkCounters 0 0 0) 0
             (Example.first_read Cases.masked_down Cases.files)).
Proof.
  split; [reflexivity|].
  apply (masked_pair_left_unknown Example.area Example.config
           ["e.nc"; "f.nc"] 0 "conductivity"
           (Example.first_read Cases.masked_down Cases.files)
           Example.thresholds Cases.masked_down Example.up_cast
           "e.nc" "f.nc" (mkCounters 0 0 0) 0);
    vm_compute; reflexivity.
Defined.

Lemma primary_without_data_witness :
  data_idx_of Cases.temperature_only "conductivity" = [] /\
  test_variable Example.area Example.config ["b.nc"; "c.nc"] 0 "conductivity"
    (Example.first_read Cases.temperature_only Cases.files)
  = Ok tt (with_status 1 (Example.first_read Cases.temperature_only Cases.files)).
Proof.
  split; [reflexivity|].
  apply (primary_without_data Example.area Example.config ["b.nc"; "c.nc"] 0
           "conductivity" (Example.first_read Cases.temperature_only Cases.files)
           Example.thresholds Cases.temperature_only);
    vm_compute; reflexivity.
Defined.

Lemma primary_without_pressure_witness :
  valid_pressures Cases.no_pressure = [] /\
  test_variable Example.area Example.config ["g.nc"] 0 "conductivity"
    (Example.first_read Cases.no_pressure Cases.files)
  = Raise IndexError (Example.first_read Cases.no_pressure Cases.files).
Proof.
  split; [reflexivity|].
  apply (primary_without_pressure Example.area Example.config ["g.nc"] 0
           "conductivity" (Example.first_read Cases.no_pressure Cases.files)
           Example.thresholds Cases.no_pressure);
    [vm_compute; reflexivity|reflexivity|discriminate|reflexivity].
Defined.

Lemma missing_sensor_section_aborts_witness :
  Cases.temperature_config !! "conductivity_hysteresis_test"%string = None /\
  main Example.area Cases.temperature_env
    [Example.deployment ["a.nc"; "f.nc"]; Example.deployment ["c.nc"]]
    (initial_state Cases.files)
  = Raise KeyError
      (mkState 0 0 (Some 0) (Some Example.down_cast) None new_summary Cases.files
         [EOpen true "a.nc" true]).
Proof.
  split; [vm_compute; reflexivity|].
  apply (missing_sensor_section_aborts Example.area Cases.temperature_env
           (Example.deployment ["a.nc"; "f.nc"]) [Example.deployment ["c.nc"]]
           Cases.files Cases.temperature_config "a.nc" ["f.nc"]
           Example.down_cast);
    vm_compute; reflexivity.
Defined.

Lemma failed_primary_read_keeps_mark_witness :
  exists s',
    file_iteration Example.area Example.config Example.gap_ncfiles 2
      (Cases.after_pair Example.gap_files) = Ok tt s' /\
    status s' = 1%Z /\
    f2skip s' = f2skip (Cases.after_pair Example.gap_files) /\
    fs s' = fs (Cases.after_pair Example.gap_files) /\
    trace s'
    = trace (Cases.after_pair Example.gap_files) ++ [EOpen true "d.nc" false] /\
    next_index 3 s'
    = next_index 2 (Cases.after_pair Example.gap_files)
      + (if marked_consumed (Cases.after_pair Example.gap_files) then 2 else 1).
Proof.
  apply (failed_primary_read_keeps_mark Example.area Example.config
           Example.gap_ncfiles 2 (Cases.after_pair Example.gap_files) "d.nc");
    vm_compute; reflexivity.
Defined.

Lemma run_keeps_data_witness :
  exists d,
    fs (final_state
          (main Example.area Example.env [Example.deployment ["a.nc"; "b.nc"]]
             (initial_state Example.files))) !! "a.nc"
    = Some d /\
    time d = time Example.down_cast /\
    pressure d = pressure Example.down_cast /\
    forall name,
      name <> "conductivity_hysteresis_test"%string ->
      name <> "temperature_hysteresis_test"%string ->
      getitem (data_vars d) name = getitem (data_vars Example.down_cast) name.
Proof.
  apply (run_keeps_data Example.area Example.env
           [Example.deployment ["a.nc"; "b.nc"]] Example.files "a.nc"
           Example.down_cast).
  vm_compute. reflexivity.
Defined.

Lemma clean_exit_all_files_read_witness :
  Forall open_ok
    (trace (final_state
              (main Example.area Example.env
                 [Example.deployment ["a.nc"; "b.nc"]]
                 (initial_state Example.files)))).
Proof.
  apply (clean_exit_all_files_read Example.area Example.env
           [Example.deployment ["a.nc"; "b.nc"]] Example.files).
  vm_compute. reflexivity.
Defined.

Lemma failed_first_lookahead_raises_witness :
  fs (Example.first_read Example.later_down Example.gap_files) !! "d.nc" = None /\
  test_variable Example.area Example.config ["c.nc"; "d.nc"] 0 "conductivity"
    (Example.first_read Example.later_down Example.gap_files)
  = Raise UnboundLocalError
      (lookahead_failed (Example.first_read Example.later_down Example.gap_files)
         "d.nc" 0).
Proof.
  split; [reflexivity|].
  apply (failed_first_lookahead_raises Example.area Example.config
           ["c.nc"; "d.nc"] 0 "conductivity"
           (Example.first_read Example.later_down Example.gap_files)
           Example.thresholds Example.later_down "d.nc" 0);
    vm_compute; reflexivity.
Defined.

Lemma failed_lookahead_saves_stale_witness :
  exists flags2,
    fs (final_state
          (test_variable Example.area Example.config ["c.nc"; "d.nc"] 0
             "conductivity" (Cases.stale_read Example.gap_files))) !! "d.nc"
    = Some (with_flags Example.up_cast (qc_varname "conductivity") flags2) /\
    status (final_state
              (test_variable Example.area Example.config ["c.nc"; "d.nc"] 0
                 "conductivity" (Cases.stale_read Example.gap_files))) = 1%Z.
Proof.
  apply (failed_lookahead_saves_stale Example.area Example.config
           ["c.nc"; "d.nc"] 0 "conductivity" (Cases.stale_read Example.gap_files)
           (final_state
              (test_variable Example.area Example.config ["c.nc"; "d.nc"] 0
                 "conductivity" (Cases.stale_read Example.gap_files)))
           Example.thresholds Example.later_down Example.up_cast "d.nc" 0);
    vm_compute; reflexivity.
Defined.

Lemma summary_within_file_count_witness :
  counted "conductivity"
    (final_state
       (deployment_iteration Example.area Example.env
          (Example.deployment ["a.nc"; "b.nc"]) (initial_state Example.files)))
  <= length (ncfiles (Example.deployment ["a.nc"; "b.nc"])).
Proof.
  apply (summary_within_file_count Example.area Example.env
           (Example.deployment ["a.nc"; "b.nc"]) Example.config
           (initial_state Example.files)
           (final_state
              (deployment_iteration Example.area Example.env
                 (Example.deployment ["a.nc"; "b.nc"])
                 (initial_state Example.files)))
           "conductivity").
  - reflexivity.
  - reflexivity.
  - reflexivity.
  - discriminate.
  - vm_compute. reflexivity.
  - apply (bool_decide_unpack _). vm_compute. exact I.
Defined.

Lemma mark_survives_deployment_witness :
  exists ok later,
    trace (final_state
             (deployment_iteration Example.area Example.env
                (Example.deployment ["c.nc"; "e.nc"])
                (Cases.after_pair Example.gap_files)))
    = trace (Cases.after_pair Example.gap_files)
      ++ EOpen true "e.nc" ok :: later.
Proof.
  apply (mark_survives_deployment Example.area Example.env
           (Example.deployment ["c.nc"; "e.nc"]) Example.config
           (Cases.after_pair Example.gap_files) "c.nc" "e.nc" []);
    reflexivity.
Defined.

Lemma set_encoding_completes_witness :
  exists result,
    common.set_encoding common.example_fillvals common.fresh_array
      (Some common.depth_encoding) = common.Returned result /\
    common.dtype result = common.dtype common.fresh_array /\
    is_Some (common.encoding result !! "dtype") /\
    is_Some (common.encoding result !! "_FillValue") /\
    (forall k v,
       common.base_encoding common.fresh_array (Some common.depth_encoding) !! k
       = Some v ->
       common.encoding result !! k = Some v) /\
    (forall k, k <> "dtype"%string -> k <> "_FillValue"%string ->
       common.encoding result !! k
       = common.base_encoding common.fresh_array (Some common.depth_encoding)
         !! k) /\
    (common.base_encoding common.fresh_array (Some common.depth_encoding)
     !! "_FillValue" = None ->
     common.encoding result !! "_FillValue"
     = common.example_fillvals
       !! common.data_type (common.dtype common.fresh_array)).
Proof.
  eexists. split; [vm_compute; reflexivity|].
  apply (set_encoding_completes common.example_fillvals common.fresh_array
           (Some common.depth_encoding)).
  vm_compute. reflexivity.
Defined.

Lemma set_encoding_idempotent_witness :
  exists result,
    common.set_encoding common.example_fillvals common.fresh_array
      (Some common.depth_encoding) = common.Returned result /\
    common.set_encoding common.example_fillvals result None
    = common.Returned result.
Proof.
  eexists. split; [vm_compute; reflexivity|].
  apply (set_encoding_idempotent common.example_fillvals common.fresh_array
           (Some common.depth_encoding)).
  vm_compute. reflexivity.
Defined.

Lemma set_encoding_unknown_dtype_witness :
  exists result,
    common.set_encoding common.example_fillvals common.complex_array None
    = common.Raised KeyError result /\
    is_Some (common.encoding result !! "dtype") /\
    common.encoding result !! "_FillValue" = None /\
    forall k v,
      common.base_encoding common.complex_array None !! k = Some v ->
      common.encoding result !! k = Some v.
Proof.
  apply (set_encoding_unknown_dtype common.example_fillvals
           common.complex_array None);
    vm_compute; reflexivity.
Defined.

(** * A lookahead file that cannot be read: the iteration that follows *)

Section LookaheadFailure.

Variable valid_polygons_area : list (float * float) -> option float.
Variable cfg : Config.
Variable ncfiles : list string.

Lemma test_variable_no_section i tv s :
  cfg !! qc_varname tv = @None Thresholds ->
  test_variable valid_polygons_area cfg ncfiles i tv s = Raise KeyError s.
Proof.
  intros H. destruct_state s. unfold test_variable. run. rewrite H. reflexivity.
Qed.

Lemma test_variable_no_data i tv s (thr : Thresholds) d :
  cfg !! qc_varname tv = Some thr ->
  ds s = Some d ->
  data_idx_of d tv = [] ->
  test_variable valid_polygons_area cfg ncfiles i tv s = Ok tt (with_status 1 s).
Proof.
  intros Hc Hd Hidx. destruct_state s. subst dx.
  unfold test_variable, with_status. run. rewrite Hc. run.
  unfold data_idx_of in Hidx.
  destruct (getitem (data_vars d) tv) as [v|] eqn:Hv; [|reflexivity].
  destruct (getitem_initialize_flags d tv) as [[[idx pidx] fl] Hi];
    [rewrite Hv; eauto|].
  rewrite Hi in *. subst idx. run. reflexivity.
Qed.

Lemma marked_bound s : marked_consumed s = true -> exists k, f2skip s = Some k.
Proof.
  unfold marked_consumed. destruct (f2skip s) as [k|]; [eauto|discriminate].
Qed.

(** A pass after one that left the status at 1 and [f2skip] positive
    keeps both and only adds events. *)
Lemma later_pass_keeps_mark i tv s :
  status s = 1%Z ->
  marked_consumed s = true ->
  let s' := final_state (test_variable valid_polygons_area cfg ncfiles i tv s) in
  status s' = 1%Z /\ marked_consumed s' = true /\
  exists new, trace s' = trace s ++ new.
Proof.
  intros Hst Hm s'. subst s'.
  destruct (test_variable_effect valid_polygons_area ncfiles i tv cfg s)
    as (new & Ht & _ & Hstatus & _ & _ & Hk).
  destruct (marked_bound s Hm) as [k Hf].
  split; [destruct Hstatus as [H|H]; congruence|].
  split; [|eauto].
  apply (marked_monotone s _ k Hf); [|exact Hm].
  intros k0 Hk0. destruct (Hk _ Hk0) as (k' & ? & ? & _). eauto.
Qed.

(** The passes of an iteration whose first profile is a down-cast for one
    of the test variables and whose lookahead cannot be read *)
Lemma passes_lookahead_failure i s0 s1 d f2 tv k0 :
  ds s0 = Some d ->
  f2skip s0 = Some k0 ->
  ncfiles !! (i + 1) = Some f2 ->
  fs s0 !! f2 = None ->
  tv ∈ test_varnames ->
  primary_down tv d = true ->
  for_each test_varnames (test_variable valid_polygons_area cfg ncfiles i) s0
  = Ok tt s1 ->
  status s1 = 1%Z /\ marked_consumed s1 = true /\
  exists ev1 ev2, trace s1 = trace s0 ++ ev1 ++ EOpen false f2 false :: ev2.
Proof.
  intros Hd Hk Hf2 Hfs Htv Hdown. cbn [for_each test_varnames].
  rewrite bind_eq.
  destruct (test_variable valid_polygons_area cfg ncfiles i "conductivity" s0)
    as [[] s2|e s2] eqn:E1; [|discriminate].
  rewrite bind_eq.
  destruct (test_variable valid_polygons_area cfg ncfiles i "temperature" s2)
    as [[] s3|e s3] eqn:E2; [|discriminate].
  unfold mret, M_ret, ret. intros [= <-].
  destruct (cfg !! qc_varname "conductivity") as [thr|] eqn:Ec;
    [|rewrite (test_variable_no_section i "conductivity" s0 Ec) in E1;
      discriminate].
  destruct (primary_down "conductivity" d) eqn:Hcond.
  - pose proof (lookahead_failure_pass valid_polygons_area cfg ncfiles i
                  "conductivity" s0 thr d f2 k0 Ec Hd Hcond Hf2 Hfs Hk)
      as H.
    cbv zeta in H. rewrite E1 in H. cbn [final_state] in H.
    destruct H as (Hst & Hm & (rest & Ht) & _).
    pose proof (later_pass_keeps_mark i "temperature" s2 Hst Hm) as H.
    cbv zeta in H. rewrite E2 in H. cbn [final_state] in H.
    destruct H as (Hst3 & Hm3 & new & Ht3).
    split; [exact Hst3|]. split; [exact Hm3|].
    exists [], (rest ++ new). rewrite Ht3, Ht. cbn [app].
    rewrite <- app_assoc. reflexivity.
  - assert (tv = "temperature"%string) as ->.
    { apply elem_of_cons in Htv as [->|Htv]; [congruence|].
      apply elem_of_cons in Htv as [->|Htv]; [reflexivity|inversion Htv]. }
    assert (Hidx : data_idx_of d "conductivity" = []).
    { unfold primary_down in Hdown, Hcond.
      apply andb_prop in Hdown as [_ Hor]. rewrite Hor in Hcond.
      rewrite andb_true_r in Hcond. apply negb_false_iff, Nat.eqb_eq in Hcond.
      destruct (data_idx_of d "conductivity"); [reflexivity|discriminate]. }
    rewrite (test_variable_no_data i "conductivity" s0 thr d Ec Hd Hidx) in E1.
    injection E1 as <-.
    destruct (cfg !! qc_varname "temperature") as [thr'|] eqn:Et;
      [|rewrite (test_variable_no_section i "temperature" _ Et) in E2;
        discriminate].
    pose proof (lookahead_failure_pass valid_polygons_area cfg ncfiles i
                  "temperature" (with_status 1 s0) thr' d f2 k0 Et Hd Hdown Hf2
                  Hfs Hk) as H.
    cbv zeta in H. rewrite E2 in H. cbn [final_state] in H.
    destruct H as (Hst & Hm & (rest & Ht) & _).
    split; [exact Hst|]. split; [exact Hm|].
    exists [], rest. exact Ht.
Qed.

(** C2 (as amended): when the first profile of an iteration is a down-cast
    for one of the test variables and the read of the next file fails, an
    iteration that returns has set the status to 1 and left [f2skip]
    positive, which marks the unreadable file as consumed; the iteration that
    follows adds one to [skip]: the one file it opens as first is the file
    two places after the down-cast, and the unreadable file is not retried. *)
Theorem failed_lookahead_skips_next_file k s s1 f d f2 f3 tv :
  ncfiles !! next_index k s = Some f ->
  fs s !! f = Some d ->
  tv ∈ test_varnames ->
  primary_down tv d = true ->
  ncfiles !! (next_index k s + 1) = Some f2 ->
  fs s !! f2 = None ->
  ncfiles !! (next_index k s + 2) = Some f3 ->
  file_iteration valid_polygons_area cfg ncfiles k s = Ok tt s1 ->
  status s1 = 1%Z /\
  marked_consumed s1 = true /\
  (exists ev1 ev2,
     trace s1 = trace s ++ EOpen true f true :: ev1 ++ EOpen false f2 false :: ev2) /\
  next_index (S k) s1 = next_index k s + 2 /\
  exists ok later,
    trace (final_state (file_iteration valid_polygons_area cfg ncfiles (S k) s1))
    = trace s1 ++ EOpen true f3 ok :: later /\
    primary_paths later = [].
Proof.
  intros Hf Hd Htv Hdown Hf2 Hfs Hf3 Hrun.
  assert (Hfacts : status s1 = 1%Z /\ marked_consumed s1 = true /\
                   (exists ev1 ev2,
                      trace s1 = trace s ++ EOpen true f true
                                   :: ev1 ++ EOpen false f2 false :: ev2) /\
                   next_index (S k) s1 = next_index k s + 2).
  { revert Hrun. destruct_state s. unfold file_iteration. run.
    assert (Hnext : next_index k (mkState st sk fk dx d2x sm files tr)
                    = k + (if marked_consumed (mkState st sk fk dx d2x sm files tr)
                           then sk + 1 else sk)).
    { unfold next_index. cbn [skip]. destruct (marked_consumed _); lia. }
    rewrite Hnext in *.
    remember (if marked_consumed (mkState st sk fk dx d2x sm files tr)
              then sk + 1 else sk) as sk' eqn:Esk.
    clear Esk Hnext.
    rewrite Hf. run. rewrite Hd. run. intros Hrun.
    match type of Hrun with
    | for_each _ _ ?s0 = _ =>
        destruct (passes_lookahead_failure (k + sk') s0 s1 d f2 tv 0
                    eq_refl eq_refl Hf2 Hfs Htv Hdown Hrun)
          as (Hst & Hm & ev1 & ev2 & Ht);
        destruct (passes_effect valid_polygons_area cfg ncfiles (k + sk') s0 0
                    eq_refl) as (rest & _ & Hskip & _)
    end.
    cbv zeta in Hskip. rewrite Hrun in Hskip. cbn [final_state skip] in Hskip.
    split; [exact Hst|]. split; [exact Hm|]. split.
    - exists ev1, ev2. rewrite Ht. cbn [trace]. rewrite <- app_assoc.
      reflexivity.
    - unfold next_index. rewrite Hskip, Hm. lia. }
  destruct Hfacts as (Hst & Hm & Htrace & Hnext).
  split; [exact Hst|]. split; [exact Hm|]. split; [exact Htrace|].
  split; [exact Hnext|].
  rewrite <- Hnext in Hf3.
  destruct (file_iteration_opens valid_polygons_area cfg ncfiles (S k) s1 f3 Hf3)
    as (ok & later & Hopen).
  exists ok, later. split; [exact Hopen|].
  destruct (file_iteration_effect valid_polygons_area cfg ncfiles (S k) s1)
    as (new & Ht & Hshape & _).
  rewrite Hopen in Ht. apply app_inv_head in Ht. subst new.
  destruct Hshape as [Hnil|(path & ok' & rest & _ & Heq & HF & _)];
    [discriminate|].
  injection Heq as _ _ ->.
  apply no_primary_paths.
  eapply Forall_impl; [exact HF|].
  intros e. apply (iteration_event_primary ncfiles (next_index (S k) s1)).
Qed.

End LookaheadFailure.

Lemma failed_lookahead_skips_next_file_witness :
  file_iteration Example.area Example.config Example.gap_ncfiles 1
    Cases.after_first_pair = Ok tt Cases.after_failed_lookahead /\
  status Cases.after_failed_lookahead = 1%Z /\
  marked_consumed Cases.after_failed_lookahead = true /\
  (exists ev1 ev2,
     trace Cases.after_failed_lookahead
     = trace Cases.after_first_pair
       ++ EOpen true "c.nc" true :: ev1 ++ EOpen false "d.nc" false :: ev2) /\
  next_index 2 Cases.after_failed_lookahead
  = next_index 1 Cases.after_first_pair + 2 /\
  exists ok later,
    trace (final_state
             (file_iteration Example.area Example.config Example.gap_ncfiles 2
                Cases.after_failed_lookahead))
    = trace Cases.after_failed_lookahead ++ EOpen true "e.nc" ok :: later /\
    primary_paths later = [].
Proof.
  split; [vm_compute; reflexivity|].
  apply (failed_lookahead_skips_next_file Example.area Example.config
           Example.gap_ncfiles 1 Cases.after_first_pair
           Cases.after_failed_lookahead "c.nc" Example.later_down "d.nc" "e.nc"
           "conductivity").
  - vm_compute. reflexivity.
  - vm_compute. reflexivity.
  - apply (bool_decide_unpack _). vm_compute. exact I.
  - vm_compute. reflexivity.
  - vm_compute. reflexivity.
  - vm_compute. reflexivity.
  - vm_compute. reflexivity.
  - vm_compute. reflexivity.
Defined.

(** * Errors and the rest of the run *)

Lemma for_each_app {A} (l1 l2 : list A) (body : A -> M unit) s :
  for_each (l1 ++ l2) body s = (for_each l1 body;; for_each l2 body) s.
Proof.
  revert s. induction l1 as [|x l1 IH]; intros s; cbn [app for_each].
  - reflexivity.
  - rewrite !bind_eq. destruct (body x s) as [[] s'|e s']; [|reflexivity].
    rewrite IH, bind_eq. reflexivity.
Qed.

Lemma framed_status_one : framed (fun s => status s = 1%Z).
Proof. intros s s' _ _ _ [H|H] _ Hs; congruence. Qed.

Section Sticky.

Variable valid_polygons_area : list (float * float) -> option float.

Lemma save_first_sticky tv ncfiles i fl :
  preserves (fun s => status s = 1%Z) (save_first tv ncfiles i fl).
Proof.
  intros s Hs. destruct_state s. subst st. unfold save_first, save_ds. run.
  destruct (ncfiles !! i); run; [|reflexivity].
  destruct dx; run; reflexivity.
Qed.

Lemma save_second_sticky tv f2 fl2 :
  preserves (fun s => status s = 1%Z) (save_second tv f2 fl2).
Proof.
  intros s Hs. destruct_state s. subst st. unfold save_second, save_ds. run.
  destruct d2x; run; reflexivity.
Qed.

Lemma open_second_sticky f2 :
  preserves (fun s => status s = 1%Z) (open_second f2).
Proof.
  intros s Hs. destruct_state s. subst st. unfold open_second. run.
  destruct (files !! f2); run; [reflexivity|].
  destruct fk; run; reflexivity.
Qed.

Ltac sticky_tac :=
  repeat first
    [ apply save_first_sticky | apply save_second_sticky
    | apply open_second_sticky
    | apply preserves_quiet; [apply framed_status_one|quiet_tac; fail]
    | apply preserves_quiet;
      [apply framed_status_one|apply quiet_hysteresis_flags]
    | apply preserves_bind; [|intros ?]
    | match goal with
      | |- preserves _ (if ?b then _ else _) => destruct b
      | |- preserves _ (match ?x with _ => _ end) => destruct x
      end ].

Lemma test_variable_sticky (cfg : Config) ncfiles i tv :
  preserves (fun s => status s = 1%Z)
    (test_variable valid_polygons_area cfg ncfiles i tv).
Proof.
  unfold test_variable, look_ahead, second_profile, down_up, classify_pair,
    leave_unknown, leave_first_unknown, save_pair.
  sticky_tac.
Qed.

Lemma file_iteration_sticky (cfg : Config) ncfiles k :
  preserves (fun s => status s = 1%Z)
    (file_iteration valid_polygons_area cfg ncfiles k).
Proof.
  intros s Hs. destruct_state s. subst st. unfold file_iteration.
  set (i := k + _). run.
  destruct (ncfiles !! i) as [path|]; run; [|reflexivity].
  destruct (files !! path) as [d|]; run; [|reflexivity].
  apply (preserves_for_each (fun s => status s = 1%Z)); [|reflexivity].
  intros tv _. apply test_variable_sticky.
Qed.

Lemma deployment_iteration_sticky env dep :
  preserves (fun s => status s = 1%Z)
    (deployment_iteration valid_polygons_area env dep).
Proof.
  unfold deployment_iteration. cbv zeta.
  repeat first
    [ apply preserves_for_each; intros ? _; apply file_iteration_sticky
    | apply preserves_quiet; [apply framed_status_one|quiet_tac; fail]
    | apply preserves_bind; [|intros ?]
    | match goal with
      | |- preserves _ (if ?b then _ else _) => destruct b
      | |- preserves _ (match ?x with _ => _ end) => destruct x
      end ].
Qed.

End Sticky.

(** C9 (as amended): a QC configuration root that is not a directory
    aborts the whole run: [main] returns 1 before it looks at a deployment.
    Otherwise a deployment for which neither its own configuration file nor
    the default one exists is fatal for that deployment only, wherever it
    stands in the list: it sets the status to 1 and changes nothing else, the
    deployments before and after it are processed as they are without it, and
    a run that returns, returns 1. *)
Theorem missing_configuration_skips_deployment
    (valid_polygons_area : list (float * float) -> option float)
    env_without_root deployments env before deployment after s :
  deployments_root_is_str env_without_root = true ->
  qc_config_root_isdir env_without_root = false ->
  deployments_root_is_str env = true ->
  qc_config_root_isdir env = true ->
  data_path_found deployment = true ->
  proc_logs_isdir deployment = true ->
  deployment_config deployment = None ->
  default_config env = None ->
  main valid_polygons_area env_without_root deployments s
  = Ok 1%Z (with_status 0 s) /\
  (forall s1,
     deployment_iteration valid_polygons_area env deployment s1
     = Ok tt (with_status 1 s1)) /\
  main valid_polygons_area env (before ++ deployment :: after) s
  = (for_each before (deployment_iteration valid_polygons_area env);;
     set_status 1;;
     process_deployments valid_polygons_area env after) (with_status 0 s) /\
  forall z s',
    main valid_polygons_area env (before ++ deployment :: after) s = Ok z s' ->
    z = 1%Z.
Proof.
  intros Hroot0 Hbad Hroot Hgood Hdp Hpl Hdc Hdef.
  assert (Hskip : forall s1,
            deployment_iteration valid_polygons_area env deployment s1
            = Ok tt (with_status 1 s1)).
  { intros s1. unfold deployment_iteration. rewrite Hdp, Hpl, Hdc, Hdef.
    reflexivity. }
  assert (Hmain : main valid_polygons_area env (before ++ deployment :: after) s
                  = (for_each before (deployment_iteration valid_polygons_area env);;
                     set_status 1;;
                     process_deployments valid_polygons_area env after)
                      (with_status 0 s)).
  { destruct_state s. unfold main, process_deployments, with_status. run.
    rewrite Hroot, Hgood. cbn [negb]. rewrite for_each_app. run.
    destruct (for_each before _ _) as [[] s1|e s1]; [|reflexivity].
    cbn [for_each]. run. rewrite Hskip. unfold with_status. reflexivity. }
  split.
  - unfold main.
    rewrite (bind_ok _ _ s tt (with_status 0 s)) by reflexivity.
    rewrite Hroot0, Hbad. reflexivity.
  - split; [exact Hskip|]. split; [exact Hmain|].
    intros z s'. rewrite Hmain. rewrite bind_eq.
    destruct (for_each before _ (with_status 0 s)) as [[] s1|e s1];
      [|discriminate].
    pose proof (preserves_for_each (fun s => status s = 1%Z) after
                  (deployment_iteration valid_polygons_area env)
                  (fun dep _ => deployment_iteration_sticky valid_polygons_area
                                  env dep)
                  (with_status 1 s1) eq_refl) as Hst.
    unfold process_deployments. run. fold (with_status 1 s1).
    destruct (for_each after _ (with_status 1 s1)) as [[] s2|e s2];
      [|discriminate].
    cbn [final_state] in Hst. intros [= <- <-]. exact Hst.
Qed.

Lemma missing_configuration_skips_deployment_witness :
  (main Example.area Example.env_without_root
     [Cases.configured ["a.nc"; "b.nc"]] (initial_state Example.gap_files)
   = Ok 1%Z (with_status 0 (initial_state Example.gap_files)) /\
   (forall s1,
      deployment_iteration Example.area Example.env_without_config
        (Example.deployment ["x.nc"]) s1
      = Ok tt (with_status 1 s1)) /\
   main Example.area Example.env_without_config
     ([Cases.configured ["a.nc"; "b.nc"]]
      ++ Example.deployment ["x.nc"] :: [Cases.configured ["c.nc"; "e.nc"]])
     (initial_state Example.gap_files)
   = (for_each [Cases.configured ["a.nc"; "b.nc"]]
        (deployment_iteration Example.area Example.env_without_config);;
      set_status 1;;
      process_deployments Example.area Example.env_without_config
        [Cases.configured ["c.nc"; "e.nc"]])
       (with_status 0 (initial_state Example.gap_files)) /\
   forall z s',
     main Example.area Example.env_without_config
       ([Cases.configured ["a.nc"; "b.nc"]]
        ++ Example.deployment ["x.nc"] :: [Cases.configured ["c.nc"; "e.nc"]])
       (initial_state Example.gap_files) = Ok z s' ->
     z = 1%Z) /\
  exists s',
    main Example.area Example.env_without_config
      [Cases.configured ["a.nc"; "b.nc"]; Example.deployment ["x.nc"];
       Cases.configured ["c.nc"; "e.nc"]]
      (initial_state Example.gap_files) = Ok 1%Z s' /\
    primary_paths (trace s') = ["a.nc"; "e.nc"].
Proof.
  split.
  - apply (missing_configuration_skips_deployment Example.area
             Example.env_without_root [Cases.configured ["a.nc"; "b.nc"]]
             Example.env_without_config [Cases.configured ["a.nc"; "b.nc"]]
             (Example.deployment ["x.nc"]) [Cases.configured ["c.nc"; "e.nc"]]
             (initial_state Example.gap_files));
      reflexivity.
  - eexists. split; vm_compute; reflexivity.
Defined.

(** * Where the code departs from the specification, continued *)

(** C9, counterexample: two errors that abort the whole run.  With a QC
    configuration root that is not a directory, [main] returns 1 without
    opening a file, although the deployment has a configuration and two
    readable files.  With a configuration file that lacks the section of
    conductivity, [main] ends with a KeyError once the first file has been
    read: it returns no status, and neither the second file nor the second
    deployment is attempted. *)
Lemma run_aborted_counterexample :
  (main Example.area Example.env_without_root
     [Cases.configured ["a.nc"; "b.nc"]] (initial_state Example.files)
   = Ok 1%Z (initial_state Example.files) /\
   trace (initial_state Example.files) = []) /\
  main Example.area Cases.temperature_env
    [Example.deployment ["a.nc"; "f.nc"]; Example.deployment ["c.nc"]]
    (initial_state Cases.files)
  = Raise KeyError
      (mkState 0 0 (Some 0) (Some Example.down_cast) None new_summary Cases.files
         [EOpen true "a.nc" true]).
Proof.
  split; [split; reflexivity|]. vm_compute. reflexivity.
Qed.
